(** * Tool-chain orchestration engine: contracts, invoker, chain executor,
      workflow engine and orchestrator

    A shallow embedding of [tool_contracts.py], [intent_classification.py]
    and [tool_execution_engine.py], with the properties the specification
    states about them.

    Conventions.
    - A Python value of type [Any] (a payload, a parameter value, a response
      body) is a JSON value, [json].
    - A [Dict[str, Any]] that the engine merges and updates is a
      [gmap string json]; a dict that is only carried around inside a model
      keeps its items as an ordered list.
    - Everything outside the program (the transport behind
      [api_client.request], [uuid.uuid4], the clock) is a transition on an
      abstract [World].
    - A coroutine is the computation it performs once awaited; [await] is
      sequencing. *)

From Stdlib Require Import ZArith QArith String Ascii List Lia.
From Stdlib Require Import DecimalString DecimalNat.
From stdpp Require Import base option gmap strings list.

Import ListNotations.
Set Warnings "-register-all".
Local Open Scope Z_scope.
Local Open Scope string_scope.
Local Open Scope list_scope.

(* ================================================================== *)
(** ** JSON values and Python truthiness *)
(* ================================================================== *)

(** What [json.loads] builds: [None], [bool], [int], [float], [str], [list]
    and [dict] with string keys.  A finite float is held as the rational it
    denotes. *)
Inductive json : Type :=
| JNull
| JBool (b : bool)
| JInt (z : Z)
| JFloat (q : Q)
| JStr (s : string)
| JArr (items : list json)
| JObj (members : list (string * json)).

(** [bool(v)]: [None], [False], zero, the empty string and the empty
    containers are false. *)
Definition truthy (v : json) : bool :=
  match v with
  | JNull => false
  | JBool b => b
  | JInt z => negb (Z.eqb z 0)
  | JFloat q => negb (Qeq_bool q (0 # 1))
  | JStr s => negb (String.eqb s "")
  | JArr items => match items with [] => false | _ => true end
  | JObj members => match members with [] => false | _ => true end
  end.

(** [d.get(k)] on a document object: the last binding of [k], as a JSON
    parser keeps it. *)
Definition obj_get (k : string) (members : list (string * json)) : option json :=
  fold_left (fun acc kv => if String.eqb (fst kv) k then Some (snd kv) else acc)
            members None.

(** [dict(items)] / [d.update(items)]: bindings inserted left to right, so
    a later one wins. *)
Definition dict_update (d : gmap string json) (items : list (string * json))
  : gmap string json :=
  fold_left (fun m kv => <[fst kv := snd kv]> m) items d.

(** [{**a, **b}]: the bindings of [b] win. *)
Definition dict_merge (a b : gmap string json) : gmap string json := b ∪ a.

(** [str(n)] for an [int]. *)
Definition str_of_int (z : Z) : string := NilZero.string_of_int (Z.to_int z).

(* ================================================================== *)
(** ** tool_contracts.py *)
(* ================================================================== *)

Inductive ToolType : Type :=
| CREATOR | ANALYZER | MODIFIER | RETRIEVER | VALIDATOR | EXECUTOR | REPORTER.

Definition ToolType_eqb (a b : ToolType) : bool :=
  match a, b with
  | CREATOR, CREATOR | ANALYZER, ANALYZER | MODIFIER, MODIFIER
  | RETRIEVER, RETRIEVER | VALIDATOR, VALIDATOR | EXECUTOR, EXECUTOR
  | REPORTER, REPORTER => true
  | _, _ => false
  end.

(** The [value] of each member. *)
Definition ToolType_value (t : ToolType) : Z :=
  match t with
  | CREATOR => 0 | ANALYZER => 1 | MODIFIER => 2 | RETRIEVER => 3
  | VALIDATOR => 4 | EXECUTOR => 5 | REPORTER => 6
  end.

Definition ToolType_of_value (z : Z) : option ToolType :=
  match z with
  | 0 => Some CREATOR | 1 => Some ANALYZER | 2 => Some MODIFIER
  | 3 => Some RETRIEVER | 4 => Some VALIDATOR | 5 => Some EXECUTOR
  | 6 => Some REPORTER
  | _ => None
  end.

Inductive ToolExecutionStatus : Type := Processing | Complete | Failed.

Record UserContextInfo : Type := {
  userId : string;
  sessionId : string
}.

Record ContentSummary : Type := {
  fields : list string;
  recordCount : Z
}.

Record SuggestedToolReference : Type := {
  toolType : ToolType;
  toolNameHint : option string;
  reason : option string;
  parameters : option (list (string * json));
  outputLabel : option string
}.

Record ToolMetadata : Type := {
  dataType : string;
  dataSize : Z;
  intent : string;
  description : string;
  accessibility : string;
  requiresPostProcessing : bool;
  suggestedTools : list SuggestedToolReference;
  contentSummary : option ContentSummary;
  confidence : Q
}.

(** The outcome of validating an input against a model. *)
Inductive ValidationError : Type :=
| FieldRequired (loc : string)
| InvalidInput (loc : string).

Inductive Checked (A : Type) : Type :=
| Valid (a : A)
| Invalid (e : ValidationError).
Arguments Valid {A} a.
Arguments Invalid {A} e.

Definition chk_bind {A B : Type} (c : Checked A) (k : A -> Checked B) : Checked B :=
  match c with
  | Valid a => k a
  | Invalid e => Invalid e
  end.

Section Contracts.

(** [datetime], with the ISO-8601 text pydantic writes for one and its
    reading of such a text. *)
Context {datetime : Type}.
Variable iso_text : datetime -> string.
Variable read_iso : string -> option datetime.

Record ToolResult : Type := {
  toolResultId : string;
  toolName : string;
  timestamp : datetime;
  conversationId : option string;
  conversationMessageId : option string;
  userContext : option UserContextInfo;
  metadata : ToolMetadata;
  payload : json;
  stepIndex : Z;
  parentToolResultId : option string
}.

(** [ToolResult.status] *)
Definition status (r : ToolResult) : ToolExecutionStatus :=
  if requiresPostProcessing (metadata r) then Processing else Complete.

(** *** [model_dump_json(exclude_none=True)]

    The document pydantic writes: the fields in declaration order, a field
    whose value is [None] left out, nested models written the same way.
    The value of an [Any] or [Dict[str, Any]] field is written as it is
    (a [None] inside it stays).  An enum member is written as its value
    and a [datetime] as its ISO text. *)

Definition opt_member {A : Type} (k : string) (enc : A -> json) (o : option A)
  : list (string * json) :=
  match o with
  | Some a => [(k, enc a)]
  | None => []
  end.

Definition dump_UserContextInfo (u : UserContextInfo) : json :=
  JObj [("userId", JStr (userId u)); ("sessionId", JStr (sessionId u))].

Definition dump_ContentSummary (c : ContentSummary) : json :=
  JObj [("fields", JArr (map JStr (fields c)));
        ("recordCount", JInt (recordCount c))].

Definition dump_SuggestedToolReference (s : SuggestedToolReference) : json :=
  JObj ([("toolType", JInt (ToolType_value (toolType s)))]
        ++ opt_member "toolNameHint" JStr (toolNameHint s)
        ++ opt_member "reason" JStr (reason s)
        ++ opt_member "parameters" JObj (parameters s)
        ++ opt_member "outputLabel" JStr (outputLabel s)).

Definition dump_ToolMetadata (m : ToolMetadata) : json :=
  JObj ([("dataType", JStr (dataType m));
         ("dataSize", JInt (dataSize m));
         ("intent", JStr (intent m));
         ("description", JStr (description m));
         ("accessibility", JStr (accessibility m));
         ("requiresPostProcessing", JBool (requiresPostProcessing m));
         ("suggestedTools",
          JArr (map dump_SuggestedToolReference (suggestedTools m)))]
        ++ opt_member "contentSummary" dump_ContentSummary (contentSummary m)
        ++ [("confidence", JFloat (confidence m))]).

Definition model_dump (r : ToolResult) : json :=
  JObj ([("toolResultId", JStr (toolResultId r));
         ("toolName", JStr (toolName r));
         ("timestamp", JStr (iso_text (timestamp r)))]
        ++ opt_member "conversationId" JStr (conversationId r)
        ++ opt_member "conversationMessageId" JStr (conversationMessageId r)
        ++ opt_member "userContext" dump_UserContextInfo (userContext r)
        ++ [("metadata", dump_ToolMetadata (metadata r))]
        ++ match payload r with
           | JNull => []
           | p => [("payload", p)]
           end
        ++ [("stepIndex", JInt (stepIndex r))]
        ++ opt_member "parentToolResultId" JStr (parentToolResultId r)).

(** *** [model_validate]

    Each field is read from the member of its name; members of other names
    are ignored.  A field accepts the JSON type it declares (an [int] is
    also accepted where a [float] is declared).  Pydantic's lax mode
    converts a few more inputs (a numeric string for an [int], 0 and 1 for
    a [bool], a number for a [datetime]); those conversions are not
    modelled and such inputs are rejected here.  Of the errors pydantic
    collects, the first in field order is reported. *)

Notation "x <-? c ; k" := (chk_bind c (fun x => k))
  (at level 200, c at level 100, k at level 200, right associativity).

Definition v_str (loc : string) (j : json) : Checked string :=
  match j with JStr s => Valid s | _ => Invalid (InvalidInput loc) end.

Definition v_int (loc : string) (j : json) : Checked Z :=
  match j with JInt z => Valid z | _ => Invalid (InvalidInput loc) end.

Definition v_bool (loc : string) (j : json) : Checked bool :=
  match j with JBool b => Valid b | _ => Invalid (InvalidInput loc) end.

Definition v_float (loc : string) (j : json) : Checked Q :=
  match j with
  | JFloat q => Valid q
  | JInt z => Valid (inject_Z z)
  | _ => Invalid (InvalidInput loc)
  end.

Definition v_datetime (loc : string) (j : json) : Checked datetime :=
  match j with
  | JStr s => match read_iso s with
              | Some t => Valid t
              | None => Invalid (InvalidInput loc)
              end
  | _ => Invalid (InvalidInput loc)
  end.

Definition v_ToolType (loc : string) (j : json) : Checked ToolType :=
  match j with
  | JInt z => match ToolType_of_value z with
              | Some t => Valid t
              | None => Invalid (InvalidInput loc)
              end
  | _ => Invalid (InvalidInput loc)
  end.

Definition v_dict (loc : string) (j : json) : Checked (list (string * json)) :=
  match j with JObj ms => Valid ms | _ => Invalid (InvalidInput loc) end.

Fixpoint v_each {A : Type} (v : json -> Checked A) (items : list json)
  : Checked (list A) :=
  match items with
  | [] => Valid []
  | j :: rest => a <-? v j; l <-? v_each v rest; Valid (a :: l)
  end.

Definition v_list {A : Type} (loc : string) (v : json -> Checked A) (j : json)
  : Checked (list A) :=
  match j with JArr items => v_each v items | _ => Invalid (InvalidInput loc) end.

(** A field declared [Field(...)]: it must be present. *)
Definition required {A : Type} (loc : string) (v : string -> json -> Checked A)
  (ms : list (string * json)) : Checked A :=
  match obj_get loc ms with
  | Some j => v loc j
  | None => Invalid (FieldRequired loc)
  end.

(** A field with a default: the default stands in for an absent member. *)
Definition defaulted {A : Type} (loc : string) (dflt : A)
  (v : string -> json -> Checked A) (ms : list (string * json)) : Checked A :=
  match obj_get loc ms with
  | Some j => v loc j
  | None => Valid dflt
  end.

(** An [Optional[...]] field with default [None]. *)
Definition optional {A : Type} (loc : string) (v : string -> json -> Checked A)
  (ms : list (string * json)) : Checked (option A) :=
  match obj_get loc ms with
  | None | Some JNull => Valid None
  | Some j => a <-? v loc j; Valid (Some a)
  end.

Definition v_UserContextInfo (loc : string) (j : json) : Checked UserContextInfo :=
  match j with
  | JObj ms =>
      uid <-? defaulted "userId" "" v_str ms;
      sid <-? defaulted "sessionId" "" v_str ms;
      Valid {| userId := uid; sessionId := sid |}
  | _ => Invalid (InvalidInput loc)
  end.

Definition v_ContentSummary (loc : string) (j : json) : Checked ContentSummary :=
  match j with
  | JObj ms =>
      fs <-? defaulted "fields" [] (fun l => v_list l (v_str l)) ms;
      rc <-? defaulted "recordCount" 0 v_int ms;
      Valid {| fields := fs; recordCount := rc |}
  | _ => Invalid (InvalidInput loc)
  end.

Definition v_SuggestedToolReference (loc : string) (j : json)
  : Checked SuggestedToolReference :=
  match j with
  | JObj ms =>
      tt <-? required "toolType" v_ToolType ms;
      hint <-? optional "toolNameHint" v_str ms;
      rsn <-? optional "reason" v_str ms;
      prm <-? optional "parameters" v_dict ms;
      lbl <-? optional "outputLabel" v_str ms;
      Valid {| toolType := tt; toolNameHint := hint; reason := rsn;
               parameters := prm; outputLabel := lbl |}
  | _ => Invalid (InvalidInput loc)
  end.

Definition v_ToolMetadata (loc : string) (j : json) : Checked ToolMetadata :=
  match j with
  | JObj ms =>
      dt <-? defaulted "dataType" "application/json" v_str ms;
      ds <-? defaulted "dataSize" 0 v_int ms;
      it <-? required "intent" v_str ms;
      de <-? required "description" v_str ms;
      ac <-? defaulted "accessibility" "public" v_str ms;
      pp <-? defaulted "requiresPostProcessing" false v_bool ms;
      st <-? defaulted "suggestedTools" []
               (fun l => v_list l (v_SuggestedToolReference l)) ms;
      cs <-? optional "contentSummary" v_ContentSummary ms;
      cf <-? defaulted "confidence" (1 # 1) v_float ms;
      Valid {| dataType := dt; dataSize := ds; intent := it; description := de;
               accessibility := ac; requiresPostProcessing := pp;
               suggestedTools := st; contentSummary := cs; confidence := cf |}
  | _ => Invalid (InvalidInput loc)
  end.

(** The fields of a [ToolResult] read from the members [ms].  The two
    fields with a default factory ([uuid.uuid4], [utcnow]) come in already
    read, [id_field] and [timestamp_field]: running a factory is an effect,
    see [model_validate]. *)
Definition v_ToolResult_fields (id_field : Checked string)
  (timestamp_field : Checked datetime) (ms : list (string * json))
  : Checked ToolResult :=
  rid <-? id_field;
  tn <-? required "toolName" v_str ms;
  ts <-? timestamp_field;
  cid <-? optional "conversationId" v_str ms;
  mid <-? optional "conversationMessageId" v_str ms;
  uc <-? optional "userContext" v_UserContextInfo ms;
  md <-? required "metadata" v_ToolMetadata ms;
  pl <-? required "payload" (fun _ j => Valid j) ms;
  si <-? defaulted "stepIndex" 0 v_int ms;
  par <-? optional "parentToolResultId" v_str ms;
  Valid {| toolResultId := rid; toolName := tn; timestamp := ts;
           conversationId := cid; conversationMessageId := mid;
           userContext := uc; metadata := md; payload := pl;
           stepIndex := si; parentToolResultId := par |}.

End Contracts.

Arguments ToolResult datetime : clear implicits.

(* ================================================================== *)
(** ** intent_classification.py *)
(* ================================================================== *)

(** [ToolIntent], with the fields the engine reads.  The category, the
    description, the parameter schema, the suggested next tools and the
    examples are documentation that no function below consults. *)
Record ToolIntent : Type := {
  intent_name : string;
  endpoint : string;
  method : string;
  tool_type : ToolType
}.

Definition INTENT_CLASSIFICATIONS : list (string * ToolIntent) :=
  let mk := Build_ToolIntent in
  [ ("create_repository", mk "create_repository" "/github/create-repo" "POST" CREATOR);
    ("initialize_repository", mk "initialize_repository" "/repos/init" "POST" CREATOR);
    ("clone_repository", mk "clone_repository" "/repos/clone" "POST" RETRIEVER);
    ("create_branch", mk "create_branch" "/repos/create-branch" "POST" CREATOR);
    ("list_branches", mk "list_branches" "/github/list-branches/{repo_name}" "GET" RETRIEVER);
    ("merge_branches", mk "merge_branches" "/repos/merge" "POST" MODIFIER);
    ("add_file", mk "add_file" "/repos/add-file" "POST" CREATOR);
    ("add_multiple_files", mk "add_multiple_files" "/repos/add-files" "POST" CREATOR);
    ("list_files", mk "list_files" "/repos/list-files/{repo_path}" "GET" RETRIEVER);
    ("read_file", mk "read_file" "/repos/read-file/{repo_path}/{file_name}" "GET" RETRIEVER);
    ("commit_changes", mk "commit_changes" "/repos/commit" "POST" EXECUTOR);
    ("push_changes", mk "push_changes" "/repos/push" "POST" EXECUTOR);
    ("stage_all_changes", mk "stage_all_changes" "/repos/add-all" "POST" MODIFIER);
    ("create_issue", mk "create_issue" "/github/create-issue" "POST" CREATOR);
    ("create_pull_request", mk "create_pull_request" "/github/create-pr" "POST" CREATOR);
    ("list_repositories", mk "list_repositories" "/github/list-repos" "GET" RETRIEVER);
    ("setup_credentials", mk "setup_credentials" "/auth/setup" "POST" MODIFIER);
    ("generate_gitignore", mk "generate_gitignore" "/repos/generate-gitignore" "POST" CREATOR);
    ("check_status", mk "check_status" "/repos/status/{repo_path}" "GET" ANALYZER) ].

(** [d.get(k)] on a dict written as its items. *)
Fixpoint assoc_get {V : Type} (k : string) (items : list (string * V)) : option V :=
  match items with
  | [] => None
  | (k', v) :: rest => if String.eqb k' k then Some v else assoc_get k rest
  end.

(** [IntentClassifier.get_intent_by_name] *)
Definition get_intent_by_name (name : string) : option ToolIntent :=
  assoc_get name INTENT_CLASSIFICATIONS.

(** [str.lower], on ASCII letters. *)
Definition lower_ascii (c : ascii) : ascii :=
  let n := nat_of_ascii c in
  if (Nat.leb 65 n && Nat.leb n 90)%bool then ascii_of_nat (n + 32) else c.

Fixpoint lower (s : string) : string :=
  match s with
  | EmptyString => EmptyString
  | String c rest => String (lower_ascii c) (lower rest)
  end.

(** [needle in hay] on strings. *)
Fixpoint contains (needle hay : string) : bool :=
  if String.prefix needle hay then true
  else match hay with
       | EmptyString => false
       | String _ rest => contains needle rest
       end.

(** The keyword table of [classify_intent], in insertion order.  Two keys
    of the source are written [("gitignore")] and [("status")]: these are
    strings, not tuples, so iterating them yields their characters. *)
Definition keyword_intent_map : list (list string * string) :=
  [ (["create"; "repository"; "repo"], "create_repository");
    (["create"; "github"; "repo"], "create_repository");
    (["initialize"; "git"], "initialize_repository");
    (["init"; "repo"], "initialize_repository");
    (["clone"; "repository"], "clone_repository");
    (["clone"; "github"], "clone_repository");
    (["create"; "branch"], "create_branch");
    (["new"; "branch"], "create_branch");
    (["list"; "branch"], "list_branches");
    (["show"; "branch"], "list_branches");
    (["merge"; "branch"], "merge_branches");
    (["merge"; "into"], "merge_branches");
    (["add"; "file"], "add_file");
    (["create"; "file"], "add_file");
    (["add"; "multiple"; "files"], "add_multiple_files");
    (["add"; "files"], "add_multiple_files");
    (["list"; "files"], "list_files");
    (["show"; "files"], "list_files");
    (["read"; "file"], "read_file");
    (["show"; "content"], "read_file");
    (["g"; "i"; "t"; "i"; "g"; "n"; "o"; "r"; "e"], "generate_gitignore");
    (["commit"; "change"], "commit_changes");
    (["commit"; "message"], "commit_changes");
    (["push"; "change"], "push_changes");
    (["push"; "github"], "push_changes");
    (["stage"; "all"], "stage_all_changes");
    (["add"; "all"], "stage_all_changes");
    (["create"; "issue"], "create_issue");
    (["open"; "issue"], "create_issue");
    (["create"; "pull"; "request"], "create_pull_request");
    (["create"; "pr"], "create_pull_request");
    (["list"; "repo"], "list_repositories");
    (["show"; "repo"], "list_repositories");
    (["setup"; "credential"], "setup_credentials");
    (["configure"; "github"], "setup_credentials");
    (["set"; "credential"], "setup_credentials");
    (["s"; "t"; "a"; "t"; "u"; "s"], "check_status");
    (["git"; "status"], "check_status") ].

Fixpoint first_match (query_lower : string) (table : list (list string * string))
  : option ToolIntent :=
  match table with
  | [] => None
  | (keywords, name) :: rest =>
      if forallb (fun keyword => contains keyword query_lower) keywords
      then get_intent_by_name name
      else first_match query_lower rest
  end.

(** [IntentClassifier.classify_intent] *)
Definition classify_intent (user_query : string) : option ToolIntent :=
  first_match (lower user_query) keyword_intent_map.

(* ================================================================== *)
(** ** tool_execution_engine.py *)
(* ================================================================== *)

(** A raised exception: [type(e).__name__], [str(e)], and whether it is an
    instance of [Exception], which is what [except Exception] catches.
    [asyncio.CancelledError], [KeyboardInterrupt] and [SystemExit] derive
    from [BaseException] alone. *)
Record Exn : Type := {
  exn_type : string;
  exn_msg : string;
  is_exception : bool
}.

Definition ValueError (msg : string) : Exn :=
  {| exn_type := "ValueError"; exn_msg := msg; is_exception := true |}.

Definition TypeError (msg : string) : Exn :=
  {| exn_type := "TypeError"; exn_msg := msg; is_exception := true |}.

(** The exception [model_validate] raises.  Its [str] names the offending
    field; the wording of pydantic's message is not reproduced. *)
Definition PydanticValidationError (e : ValidationError) : Exn :=
  {| exn_type := "ValidationError";
     exn_msg := match e with
                | FieldRequired loc => (loc ++ ": Field required")%string
                | InvalidInput loc => (loc ++ ": Input is not valid")%string
                end;
     is_exception := true |}.

(** What [api_client.request] is called with. *)
Record Request : Type := {
  req_method : string;
  req_endpoint : string;
  req_data : gmap string json;
  req_headers : list (string * string)
}.

(** The response object: [status_code], [text], and what [json()] returns
    or raises. *)
Record Response : Type := {
  status_code : Z;
  text : string;
  json_body : Exn + json
}.

(** The transport either answers or raises (network failure, timeout,
    cancellation). *)
Inductive Outcome : Type :=
| Responds (r : Response)
| Fails (e : Exn).

Inductive ExecutionStrategy : Type :=
| SEQUENTIAL | PARALLEL | CONDITIONAL | INTERACTIVE.

(** An entry of [context.errors]: a dict of strings, as its items. *)
Definition ErrorEntry : Type := list (string * string).

(** What a computation yields: a value, or a raised exception. *)
Inductive Res (A : Type) : Type :=
| Ok (a : A)
| Raise (e : Exn).
Arguments Ok {A} a.
Arguments Raise {A} e.

(** The collaborators the engine is built on: pydantic's datetime text,
    [timedelta.total_seconds], the transport behind [api_client.request],
    [uuid.uuid4] (as [str]) and [datetime.utcnow]. *)
Class Collaborators (datetime World : Type) : Type := {
  isoformat : datetime -> string;
  parse_datetime : string -> option datetime;
  seconds_between : datetime -> datetime -> Q;
  api_request : Request -> World -> Outcome * World;
  uuid4 : World -> string * World;
  utcnow : World -> datetime * World
}.

Section Engine.

Context {datetime World : Type} `{Collaborators datetime World}.

(** *** ToolExecutionContext *)

Record ToolExecutionContext : Type := {
  conversation_id : string;
  user_id : string;
  session_id : string;
  execution_id : string;
  start_time : datetime;
  results : list (ToolResult datetime);
  errors : list ErrorEntry;
  ctx_metadata : gmap string json
}.

Definition with_results (c : ToolExecutionContext) (rs : list (ToolResult datetime))
  : ToolExecutionContext :=
  {| conversation_id := conversation_id c; user_id := user_id c;
     session_id := session_id c; execution_id := execution_id c;
     start_time := start_time c; results := rs; errors := errors c;
     ctx_metadata := ctx_metadata c |}.

Definition with_errors (c : ToolExecutionContext) (es : list ErrorEntry)
  : ToolExecutionContext :=
  {| conversation_id := conversation_id c; user_id := user_id c;
     session_id := session_id c; execution_id := execution_id c;
     start_time := start_time c; results := results c; errors := es;
     ctx_metadata := ctx_metadata c |}.

(** *** Machine state

    One run owns one context object, reached by reference from every
    step: it is a component of the state.  [attempts] is a ghost log, one
    entry per call of [execute_tool], in call order. *)
Record State : Type := {
  world : World;
  context : ToolExecutionContext;
  attempts : list (string * gmap string json)
}.

Definition M (A : Type) : Type := State -> Res A * State.

Definition ret {A : Type} (a : A) : M A := fun s => (Ok a, s).

Definition bind {A B : Type} (m : M A) (k : A -> M B) : M B :=
  fun s => match m s with
           | (Ok a, s') => k a s'
           | (Raise e, s') => (Raise e, s')
           end.

Definition raise {A : Type} (e : Exn) : M A := fun s => (Raise e, s).

(** [try: body / except Exception as e: handler]: what the body did to the
    state before raising stays done, and an exception that is not an
    [Exception] goes on to the caller. *)
Definition try_except {A : Type} (body : M A) (handler : Exn -> M A) : M A :=
  fun s => match body s with
           | (Ok a, s') => (Ok a, s')
           | (Raise e, s') =>
               if is_exception e then handler e s' else (Raise e, s')
           end.

Notation "'let*' x ':=' m 'in' k" := (bind m (fun x => k))
  (at level 10, x name, m at level 100, k at level 200).

(** An external step acting on the world alone. *)
Definition external {A : Type} (f : World -> A * World) : M A :=
  fun s => let '(a, w) := f (world s) in
           (Ok a, {| world := w; context := context s; attempts := attempts s |}).

Definition get_context : M ToolExecutionContext := fun s => (Ok (context s), s).

Definition set_context (c : ToolExecutionContext) : M unit :=
  fun s => (Ok tt, {| world := world s; context := c; attempts := attempts s |}).

Definition note_attempt (tool_name : string) (parameters : gmap string json) : M unit :=
  fun s => (Ok tt, {| world := world s; context := context s;
                      attempts := attempts s ++ [(tool_name, parameters)] |}).

(** [ToolExecutionContext.add_result] *)
Definition add_result (result : ToolResult datetime) : M unit :=
  let* c := get_context in set_context (with_results c (results c ++ [result])).

(** [ToolExecutionContext.add_error] *)
Definition add_error (error : ErrorEntry) : M unit :=
  let* c := get_context in set_context (with_errors c (errors c ++ [error])).

(** [ToolExecutionContext.get_last_result] *)
Definition get_last_result : M (option (ToolResult datetime)) :=
  let* c := get_context in ret (last (results c)).

Record ExecutionSummary : Type := {
  sum_execution_id : string;
  sum_conversation_id : string;
  sum_start_time : string;
  sum_duration : Q;
  total_tools_executed : nat;
  sum_errors : nat;
  successful : bool;
  tool_chain : list string
}.

(** [ToolExecutionContext.get_execution_summary] *)
Definition get_execution_summary : M ExecutionSummary :=
  let* c := get_context in
  let* now := external utcnow in
  ret {| sum_execution_id := execution_id c;
         sum_conversation_id := conversation_id c;
         sum_start_time := isoformat (start_time c);
         sum_duration := seconds_between (start_time c) now;
         total_tools_executed := length (results c);
         sum_errors := length (errors c);
         successful := Nat.eqb (length (errors c)) 0;
         tool_chain := map toolName (results c) |}.

(** *** [ToolResult.model_validate], [to_json], [from_json]

    The two default factories run only for an absent member, in field
    order, and before the outcome of the validation is known (pydantic
    validates every field and then reports). *)
Definition member_or_factory {A : Type} (loc : string)
  (v : string -> json -> Checked A) (factory : World -> A * World)
  (ms : list (string * json)) : M (Checked A) :=
  match obj_get loc ms with
  | Some j => ret (v loc j)
  | None => let* a := external factory in ret (Valid a)
  end.

Definition model_validate (obj : json) : M (ToolResult datetime) :=
  match obj with
  | JObj ms =>
      let* rid := member_or_factory "toolResultId" v_str uuid4 ms in
      let* ts := member_or_factory "timestamp" (v_datetime parse_datetime) utcnow ms in
      match v_ToolResult_fields rid ts ms with
      | Valid r => ret r
      | Invalid e => raise (PydanticValidationError e)
      end
  | _ => raise (PydanticValidationError (InvalidInput "ToolResult"))
  end.

(** [ToolResult.to_json]: the document written; [indent] changes only the
    white space of its text. *)
Definition to_json (r : ToolResult datetime) : json := model_dump isoformat r.

(** [ToolResult.from_json], from the document the text denotes. *)
Definition from_json (doc : json) : M (ToolResult datetime) := model_validate doc.

(** *** ToolExecutor *)

Definition request_headers (c : ToolExecutionContext) (message_uuid : string)
  : list (string * string) :=
  [ ("X-Conversation-ID", conversation_id c);
    ("X-Message-ID", ("msg-" ++ message_uuid)%string);
    ("X-User-ID", user_id c);
    ("X-Session-ID", session_id c) ].

(** [await self.api_client.request(...)] *)
Definition request (rq : Request) : M Response :=
  let* o := external (api_request rq) in
  match o with
  | Responds r => ret r
  | Fails e => raise e
  end.

(** [response.json()] *)
Definition response_json (r : Response) : M json :=
  match json_body r with
  | inr j => ret j
  | inl e => raise e
  end.

(** [ToolExecutor.execute_tool] *)
Definition execute_tool (tool_name : string) (parameters : gmap string json)
  : M (option (ToolResult datetime)) :=
  let* _ := note_attempt tool_name parameters in
  try_except
    (let* intent := match get_intent_by_name tool_name with
                    | Some i => ret i
                    | None => raise (ValueError ("Unknown tool: " ++ tool_name)%string)
                    end in
     let* c := get_context in
     let* message_uuid := external uuid4 in
     let headers := request_headers c message_uuid in
     let* response := request {| req_method := method intent;
                                 req_endpoint := endpoint intent;
                                 req_data := parameters;
                                 req_headers := headers |} in
     if Z.eqb (status_code response) 200 then
       let* body := response_json response in
       let* result := model_validate body in
       let* _ := add_result result in
       ret (Some result)
     else
       let* _ := add_error
                   [ ("tool", tool_name);
                     ("error", ("HTTP " ++ str_of_int (status_code response))%string);
                     ("details", text response) ] in
       ret None)
    (fun e =>
       let* _ := add_error [ ("tool", tool_name);
                             ("error", exn_msg e);
                             ("type", exn_type e) ] in
       ret None).

(** *** ToolChainExecutor *)

Record ToolChainExecutor : Type := {
  max_chain_length : nat
}.

(** [ToolChainExecutor.__init__] *)
Definition ToolChainExecutor_init : ToolChainExecutor :=
  {| max_chain_length := 10 |}.

(** [bool(suggestion.toolNameHint)]: a hint that is [None] or the empty
    string is no hint. *)
Definition has_hint (suggestion : SuggestedToolReference) : bool :=
  match toolNameHint suggestion with
  | Some name => negb (String.eqb name "")
  | None => false
  end.

(** [suggestion.parameters or {}] *)
Definition parameters_or_empty (suggestion : SuggestedToolReference)
  : gmap string json :=
  match parameters suggestion with
  | Some items => dict_update ∅ items
  | None => ∅
  end.

(** The call every strategy makes for a suggestion it follows. *)
Definition execute_suggestion (suggestion : SuggestedToolReference)
  : M (option (ToolResult datetime)) :=
  execute_tool (default "" (toolNameHint suggestion))
               (parameters_or_empty suggestion).

(** [ToolChainExecutor._execute_sequential]: the [for] loop, entered with
    the [results] gathered so far. *)
Fixpoint sequential_loop (results : list (ToolResult datetime))
  (suggested_tools : list SuggestedToolReference) : M (list (ToolResult datetime)) :=
  match suggested_tools with
  | [] => ret results
  | suggestion :: rest =>
      if negb (has_hint suggestion) then sequential_loop results rest
      else
        let* result := execute_suggestion suggestion in
        match result with
        | Some r =>
            if negb (requiresPostProcessing (metadata r))
            then ret (results ++ [r])
            else sequential_loop (results ++ [r]) rest
        | None => sequential_loop results rest
        end
  end.

Definition _execute_sequential (suggested_tools : list SuggestedToolReference)
  : M (list (ToolResult datetime)) :=
  sequential_loop [] suggested_tools.

(** [asyncio.gather] on the tasks: every task runs to completion and the values
    come back in task order.  The tasks are run one after the other, in
    task order; other interleavings of their steps are not modelled.  A
    task that raises ends the batch with its exception; what the tasks
    still running do after that is not modelled. *)
Fixpoint gather {A : Type} (tasks : list (M A)) : M (list A) :=
  match tasks with
  | [] => ret []
  | task :: rest =>
      let* a := task in
      let* others := gather rest in
      ret (a :: others)
  end.

(** The test that admits a suggestion to a parallel batch. *)
Definition parallel_eligible (suggestion : SuggestedToolReference) : bool :=
  (ToolType_eqb (toolType suggestion) RETRIEVER
   || ToolType_eqb (toolType suggestion) ANALYZER)
  && has_hint suggestion.

(** [ToolChainExecutor._execute_parallel] *)
Definition _execute_parallel (suggested_tools : list SuggestedToolReference)
  : M (list (ToolResult datetime)) :=
  let tasks :=
    map execute_suggestion (List.filter parallel_eligible suggested_tools) in
  match tasks with
  | [] => ret []
  | _ =>
      let* results := gather tasks in
      ret (omap id results)
  end.

(** [ToolChainExecutor._evaluate_condition] *)
Definition _evaluate_condition (suggestion : SuggestedToolReference)
  : M bool :=
  let* last_result := get_last_result in
  match last_result with
  | None => ret true
  | Some last_result =>
      if ToolType_eqb (toolType suggestion) MODIFIER
         && negb (requiresPostProcessing (metadata last_result))
      then ret false
      else if ToolType_eqb (toolType suggestion) VALIDATOR
      then ret true
      else if match reason suggestion with
              | Some text => negb (String.eqb text "") && contains "if" (lower text)
              | None => false
              end
      then ret true
      else ret true
  end.

(** [ToolChainExecutor._execute_conditional]: the [for] loop. *)
Fixpoint conditional_loop (results : list (ToolResult datetime))
  (suggested_tools : list SuggestedToolReference) : M (list (ToolResult datetime)) :=
  match suggested_tools with
  | [] => ret results
  | suggestion :: rest =>
      let* should_execute := _evaluate_condition suggestion in
      if should_execute && has_hint suggestion then
        let* result := execute_suggestion suggestion in
        match result with
        | Some r => conditional_loop (results ++ [r]) rest
        | None => conditional_loop results rest
        end
      else conditional_loop results rest
  end.

Definition _execute_conditional (suggested_tools : list SuggestedToolReference)
  : M (list (ToolResult datetime)) :=
  conditional_loop [] suggested_tools.

Definition dispatch (strategy : ExecutionStrategy)
  (suggested_tools : list SuggestedToolReference) : M (list (ToolResult datetime)) :=
  match strategy with
  | SEQUENTIAL => _execute_sequential suggested_tools
  | PARALLEL => _execute_parallel suggested_tools
  | CONDITIONAL => _execute_conditional suggested_tools
  | INTERACTIVE => ret []
  end.

(** The [while] loop of [execute_chain].  [fuel] bounds the number of
    times the loop test is evaluated; [None] is returned when it runs out
    before the loop has ended.  [iterations] is a ghost counter of the
    passes that entered the loop body.  A [ToolResult] is always true, so
    the test [current_result and ...] is the comparison alone.
    [filter_func], when given, is a total predicate without effects. *)
Fixpoint chain_loop (self : ToolChainExecutor) (strategy : ExecutionStrategy)
  (filter_func : option (SuggestedToolReference -> bool))
  (fuel : nat) (results : list (ToolResult datetime))
  (current_result : ToolResult datetime) (chain_length iterations : nat)
  : M (option (list (ToolResult datetime) * nat)) :=
  match fuel with
  | O => ret None
  | S fuel' =>
      if Nat.ltb chain_length (max_chain_length self) then
        let suggested_tools := suggestedTools (metadata current_result) in
        match suggested_tools with
        | [] => ret (Some (results, S iterations))
        | _ =>
            let suggested_tools :=
              match filter_func with
              | Some f => List.filter f suggested_tools
              | None => suggested_tools
              end in
            match suggested_tools with
            | [] => ret (Some (results, S iterations))
            | _ =>
                let* next_results := dispatch strategy suggested_tools in
                match last next_results with
                | None => ret (Some (results, S iterations))
                | Some last_of_batch =>
                    chain_loop self strategy filter_func fuel'
                               (results ++ next_results) last_of_batch
                               (S chain_length) (S iterations)
                end
            end
        end
      else ret (Some (results, iterations))
  end.

(** [ToolChainExecutor.execute_chain], with the fuel of its loop; it
    yields the returned list and the number of loop iterations. *)
Definition execute_chain_fuel (self : ToolChainExecutor) (fuel : nat)
  (initial_result : ToolResult datetime) (strategy : ExecutionStrategy)
  (filter_func : option (SuggestedToolReference -> bool))
  : M (option (list (ToolResult datetime) * nat)) :=
  let* _ := add_result initial_result in
  chain_loop self strategy filter_func fuel [initial_result] initial_result 0 0.

(** [execute_chain] as callers use it.  [S max_chain_length] tests of the
    loop condition always suffice and more change nothing
    ([chain_loop_enough_fuel], [chain_loop_fuel_irrelevant] below), so the
    [None] case is not met. *)
Definition execute_chain (self : ToolChainExecutor)
  (initial_result : ToolResult datetime) (strategy : ExecutionStrategy)
  (filter_func : option (SuggestedToolReference -> bool))
  : M (list (ToolResult datetime)) :=
  let* out := execute_chain_fuel self (S (max_chain_length self))
                                 initial_result strategy filter_func in
  ret (match out with Some (rs, _) => rs | None => [] end).

(** *** WorkflowEngine *)

(** A step of a workflow: a dict with the key ["tool"] and, optionally,
    ["params"] and ["required"]. *)
Record WorkflowStep : Type := {
  step_tool : string;
  step_params : option (list (string * json));
  step_required : option bool
}.

Definition step (tool : string) (required : bool) : WorkflowStep :=
  {| step_tool := tool; step_params := None; step_required := Some required |}.

Definition step_with (tool : string) (params : list (string * json))
  (required : bool) : WorkflowStep :=
  {| step_tool := tool; step_params := Some params;
     step_required := Some required |}.

Record WorkflowEngine : Type := {
  workflows : list (string * list WorkflowStep)
}.

(** [WorkflowEngine._define_workflows] *)
Definition _define_workflows : list (string * list WorkflowStep) :=
  [ ("create_and_setup_repo",
     [ step "create_repository" true;
       step "initialize_repository" true;
       step "generate_gitignore" false;
       step_with "add_file" [("file_name", JStr "README.md")] false;
       step "commit_changes" true;
       step "push_changes" true ]);
    ("feature_development",
     [ step "create_branch" true;
       step "add_multiple_files" true;
       step "commit_changes" true;
       step "push_changes" true;
       step "create_pull_request" true ]);
    ("code_review",
     [ step "list_pull_requests" true;
       step "review_changes" true;
       step "add_comments" false;
       step "approve_pr" true;
       step "merge_branches" true ]) ].

(** [WorkflowEngine.__init__] *)
Definition WorkflowEngine_init : WorkflowEngine :=
  {| workflows := _define_workflows |}.

(** What [execute_workflow] returns: one of its two dicts. *)
Inductive WorkflowReport : Type :=
| WorkflowFailed (workflow : string) (failed_step : string)
                 (completed_steps : list string) (error_log : list ErrorEntry)
| WorkflowCompleted (workflow : string) (steps_executed : nat)
                    (step_results : list (ToolResult datetime))
                    (summary : ExecutionSummary).

(** The value under ["status"]. *)
Definition report_status (r : WorkflowReport) : string :=
  match r with
  | WorkflowFailed _ _ _ _ => "failed"
  | WorkflowCompleted _ _ _ _ => "completed"
  end.

(** [params.update(result.payload)].  A mapping is merged.  A number, a
    [bool] or [None] is not iterable and a string iterates into
    one-character items: Python raises.  For a list Python raises unless
    every element is itself a sequence of two items; that shape is not
    modelled and a list raises here. *)
Definition params_update (params : gmap string json) (payload : json)
  : M (gmap string json) :=
  match payload with
  | JObj members => ret (dict_update params members)
  | JStr _ | JArr _ =>
      raise (ValueError
               "dictionary update sequence element #0 has length 1; 2 is required")
  | JNull => raise (TypeError "'NoneType' object is not iterable")
  | JBool _ => raise (TypeError "'bool' object is not iterable")
  | JInt _ => raise (TypeError "'int' object is not iterable")
  | JFloat _ => raise (TypeError "'float' object is not iterable")
  end.

(** [{**params, **step.get("params", {})}] *)
Definition step_parameters (params : gmap string json) (st : WorkflowStep)
  : gmap string json :=
  dict_merge params (dict_update ∅ (default [] (step_params st))).

(** The [for step in workflow] loop of [execute_workflow]. *)
Fixpoint workflow_loop (workflow_name : string) (workflow : list WorkflowStep)
  (results : list (ToolResult datetime)) (params : gmap string json)
  : M WorkflowReport :=
  match workflow with
  | [] =>
      let* summary := get_execution_summary in
      ret (WorkflowCompleted workflow_name (length results) results summary)
  | st :: rest =>
      let tool_name := step_tool st in
      let required := default true (step_required st) in
      let step_params := step_parameters params st in
      let* result := execute_tool tool_name step_params in
      match result with
      | Some r =>
          if truthy (payload r) then
            let* params' := params_update params (payload r) in
            workflow_loop workflow_name rest (results ++ [r]) params'
          else workflow_loop workflow_name rest (results ++ [r]) params
      | None =>
          if required then
            let* c := get_context in
            ret (WorkflowFailed workflow_name tool_name
                                (map toolName results) (errors c))
          else workflow_loop workflow_name rest results params
      end
  end.

(** [WorkflowEngine.execute_workflow] *)
Definition execute_workflow (self : WorkflowEngine) (workflow_name : string)
  (initial_params : gmap string json) : M WorkflowReport :=
  match assoc_get workflow_name (workflows self) with
  | None => raise (ValueError ("Unknown workflow: " ++ workflow_name)%string)
  | Some workflow => workflow_loop workflow_name workflow [] initial_params
  end.

(** *** ToolOrchestrator *)

Record ToolOrchestrator : Type := {
  chain_executor : ToolChainExecutor;
  workflow_engine : WorkflowEngine
}.

(** [ToolOrchestrator.__init__] *)
Definition ToolOrchestrator_init : ToolOrchestrator :=
  {| chain_executor := ToolChainExecutor_init;
     workflow_engine := WorkflowEngine_init |}.

(** The context both entry points build: [conversation_id or "conv-..."],
    a fresh session id, then [ToolExecutionContext.__init__]. *)
Definition new_context (user : string) (conversation : option string) : M unit :=
  let* conv :=
    match conversation with
    | Some c => if String.eqb c ""
                then let* u := external uuid4 in ret ("conv-" ++ u)%string
                else ret c
    | None => let* u := external uuid4 in ret ("conv-" ++ u)%string
    end in
  let* session_uuid := external uuid4 in
  let* exec_uuid := external uuid4 in
  let* now := external utcnow in
  set_context {| conversation_id := conv;
                 user_id := user;
                 session_id := ("session-" ++ session_uuid)%string;
                 execution_id := ("exec-" ++ exec_uuid)%string;
                 start_time := now;
                 results := [];
                 errors := [];
                 ctx_metadata := ∅ |}.

(** What [execute_request] returns: one of its three dicts. *)
Inductive RequestReport : Type :=
| NotUnderstood (suggestions : list string)
| InitialToolFailed (summary : ExecutionSummary)
| RequestCompleted (initial_tool : string) (chain_executed : bool)
                   (total_tools : nat) (execution_summary : ExecutionSummary)
                   (final_result : option (ToolResult datetime)).

(** [ToolOrchestrator.execute_request]; [_extract_parameters] returns the
    empty dict. *)
Definition execute_request (self : ToolOrchestrator) (user_request user : string)
  (conversation : option string) : M RequestReport :=
  let* _ := new_context user conversation in
  match classify_intent user_request with
  | None => ret (NotUnderstood (map fst INTENT_CLASSIFICATIONS))
  | Some intent =>
      let parameters : gmap string json := ∅ in
      let* initial_result := execute_tool (intent_name intent) parameters in
      match initial_result with
      | None =>
          let* summary := get_execution_summary in
          ret (InitialToolFailed summary)
      | Some initial_result =>
          let* _ :=
            if requiresPostProcessing (metadata initial_result)
            then let* _ := execute_chain (chain_executor self) initial_result
                                         SEQUENTIAL None in ret tt
            else ret tt in
          let* last_result := get_last_result in
          let* c := get_context in
          let* summary := get_execution_summary in
          ret (RequestCompleted (toolName initial_result)
                                (Nat.ltb 1 (length (results c)))
                                (length (results c))
                                summary last_result)
      end
  end.

(** [ToolOrchestrator.execute_workflow] *)
Definition orchestrator_execute_workflow (self : ToolOrchestrator)
  (workflow_name : string) (params : gmap string json) (user : string)
  (conversation : option string) : M WorkflowReport :=
  let* _ := new_context user conversation in
  execute_workflow (workflow_engine self) workflow_name params.

End Engine.

(* ================================================================== *)
(** ** Vocabulary of the properties *)
(* ================================================================== *)

Section Vocabulary.

Context {datetime World : Type} `{Collaborators datetime World}.

Abbreviation State := (@State datetime World).
Abbreviation M := (@M datetime World).
Abbreviation Result := (ToolResult datetime).

(** The state after [context.add_result(r)], after
    [context.add_error(entry)], after one more logged attempt, and with
    the world replaced. *)
Definition after_result (r : Result) (s : State) : State :=
  {| world := world s;
     context := with_results (context s) (results (context s) ++ [r]);
     attempts := attempts s |}.

Definition after_error (entry : ErrorEntry) (s : State) : State :=
  {| world := world s;
     context := with_errors (context s) (errors (context s) ++ [entry]);
     attempts := attempts s |}.

Definition after_attempt (name : string) (params : gmap string json) (s : State)
  : State :=
  {| world := world s; context := context s;
     attempts := attempts s ++ [(name, params)] |}.

Definition in_world (w : World) (s : State) : State :=
  {| world := w; context := context s; attempts := attempts s |}.

(** The two shapes of an error entry. *)
Definition http_error (name : string) (resp : Response) : ErrorEntry :=
  [ ("tool", name);
    ("error", ("HTTP " ++ str_of_int (status_code resp))%string);
    ("details", text resp) ].

Definition raised_error (name : string) (e : Exn) : ErrorEntry :=
  [ ("tool", name); ("error", exn_msg e); ("type", exn_type e) ].

(** The transport call that [execute_tool name params] makes in state
    [s], with its outcome: none for a name the registry does not know. *)
Definition transport_call (name : string) (params : gmap string json) (s : State)
  : option (Outcome * World) :=
  match get_intent_by_name name with
  | None => None
  | Some intent =>
      let '(message_uuid, w) := uuid4 (world s) in
      Some (api_request
              {| req_method := method intent;
                 req_endpoint := endpoint intent;
                 req_data := params;
                 req_headers := request_headers (context s) message_uuid |} w)
  end.

(** The call a followed suggestion stands for: tool name and parameters. *)
Definition call_of (suggestion : SuggestedToolReference)
  : string * gmap string json :=
  (default "" (toolNameHint suggestion), parameters_or_empty suggestion).

(** A computation that touches the world only. *)
Definition world_only {A : Type} (m : M A) : Prop :=
  forall s r s', m s = (r, s') ->
    context s' = context s /\ attempts s' = attempts s.

(** A computation that only appends to [context.results]. *)
Definition appends_results {A : Type} (m : M A) : Prop :=
  forall s r s', m s = (r, s') ->
    exists more, results (context s') = results (context s) ++ more.

(** A computation that raises nothing that is an [Exception]. *)
Definition raises_no_exception {A : Type} (m : M A) : Prop :=
  forall s e s', m s = (Raise e, s') -> is_exception e = false.

(** The effect of one call [execute_tool name params] that yields [o]:
    one entry more in the attempt log, and either the result appended to
    [context.results] or one entry, naming the tool, appended to
    [context.errors]. *)
Definition tool_step (name : string) (params : gmap string json)
  (s : State) (o : option Result) (s' : State) : Prop :=
  attempts s' = attempts s ++ [(name, params)] /\
  match o with
  | Some r =>
      context s' = with_results (context s) (results (context s) ++ [r])
  | None =>
      exists entry,
        context s' = with_errors (context s) (errors (context s) ++ [entry])
        /\ assoc_get "tool" entry = Some name
        /\ is_Some (assoc_get "error" entry)
  end.

(** The effect of one call [execute_tool name params] that the exception
    [e] ends: [e] is not an [Exception], the call is in the attempt log,
    and the context is as it was. *)
Definition tool_interrupted (name : string) (params : gmap string json)
  (s : State) (e : Exn) (s' : State) : Prop :=
  is_exception e = false
  /\ attempts s' = attempts s ++ [(name, params)]
  /\ context s' = context s.

Definition call_effect (name : string) (params : gmap string json)
  (s : State) (res : Res (option Result)) (s' : State) : Prop :=
  match res with
  | Ok o => tool_step name params s o s'
  | Raise e => tool_interrupted name params s e s'
  end.

(** What the handler of [execute_tool] makes of an exception [e] met in
    state [s]: an [Exception] becomes an entry of [context.errors] and the
    call returns no result; anything else goes on to the caller. *)
Definition handled (name : string) (e : Exn) (s : State)
  : Res (option Result) * State :=
  if is_exception e
  then (Ok None, after_error (raised_error name e) s)
  else (Raise e, s).

End Vocabulary.

(* ================================================================== *)
(** ** A scripted transport

    A test double for the collaborators, used to run the engine on
    concrete inputs.  Time is a count of seconds, written in decimal; the
    world is a tick counter and a server, a function from the endpoint
    and the tick of the call to the outcome of the call. *)
(* ================================================================== *)

Record Scripted : Type := {
  ticks : nat;
  server : string -> nat -> Outcome
}.

Definition tick (w : Scripted) : Scripted :=
  {| ticks := S (ticks w); server := server w |}.

Definition nat_text (n : nat) : string := NilZero.string_of_uint (Nat.to_uint n).

Definition read_nat (s : string) : option nat :=
  option_map Nat.of_uint (NilZero.uint_of_string s).

#[export] Instance scripted_collaborators : Collaborators nat Scripted := {|
  isoformat := nat_text;
  parse_datetime := read_nat;
  seconds_between := fun a b => inject_Z (Z.of_nat b - Z.of_nat a);
  api_request := fun rq w => (server w (req_endpoint rq) (ticks w), tick w);
  uuid4 := fun w => (nat_text (ticks w), tick w);
  utcnow := fun w => (ticks w, w)
|}.

Definition timeout_error : Exn :=
  {| exn_type := "TimeoutError"; exn_msg := "timed out";
     is_exception := true |}.

(** [asyncio.CancelledError]: not an [Exception]. *)
Definition CancelledError : Exn :=
  {| exn_type := "CancelledError"; exn_msg := ""; is_exception := false |}.

(** The body of a well-formed response: a result of the tool [name]. *)
Definition body_of (name : string) (post : bool)
  (suggested : list SuggestedToolReference) (load : json) : json :=
  JObj [ ("toolResultId", JStr ("id-" ++ name)%string);
         ("toolName", JStr name);
         ("timestamp", JStr "7");
         ("metadata",
          JObj [ ("intent", JStr "run");
                 ("description", JStr "done");
                 ("requiresPostProcessing", JBool post);
                 ("suggestedTools",
                  JArr (map dump_SuggestedToolReference suggested)) ]);
         ("payload", load) ].

Definition answer (code : Z) (body : json) : Outcome :=
  Responds {| status_code := code; text := "body"; json_body := inr body |}.

Definition suggest (t : ToolType) (name : string) : SuggestedToolReference :=
  {| toolType := t; toolNameHint := Some name; reason := None;
     parameters := None; outputLabel := None |}.

Definition fresh_context : ToolExecutionContext (datetime := nat) :=
  {| conversation_id := "conv"; user_id := "user"; session_id := "session";
     execution_id := "exec"; start_time := 0%nat; results := []; errors := [];
     ctx_metadata := ∅ |}.

Definition start (srv : string -> nat -> Outcome) : State :=
  {| world := {| ticks := 0; server := srv |};
     context := fresh_context; attempts := [] |}.

(** The result that validating [body_of name post suggested load] yields. *)
Definition result_of (name : string) (post : bool)
  (suggested : list SuggestedToolReference) (load : json) : ToolResult nat :=
  {| toolResultId := ("id-" ++ name)%string;
     toolName := name;
     timestamp := 7%nat;
     conversationId := None;
     conversationMessageId := None;
     userContext := None;
     metadata := {| dataType := "application/json";
                    dataSize := 0;
                    intent := "run";
                    description := "done";
                    accessibility := "public";
                    requiresPostProcessing := post;
                    suggestedTools := suggested;
                    contentSummary := None;
                    confidence := 1 # 1 |};
     payload := load;
     stepIndex := 0;
     parentToolResultId := None |}.

(** A server with one answer for every call, and a server with an answer
    per endpoint that times out elsewhere. *)
Definition always (o : Outcome) : string -> nat -> Outcome := fun _ _ => o.

Definition route (table : list (string * Outcome)) : string -> nat -> Outcome :=
  fun ep _ => default (Fails timeout_error) (assoc_get ep table).

(** Every tool answers with a result that suggests [check_status] again. *)
Definition cyclic_server : string -> nat -> Outcome :=
  always (answer 200 (body_of "check_status" true
                              [suggest ANALYZER "check_status"] JNull)).

Definition cyclic_result : ToolResult nat :=
  result_of "check_status" true [suggest ANALYZER "check_status"] JNull.

(** [create_repository] is answered with status 201 and a valid body. *)
Definition created_server : string -> nat -> Outcome :=
  route [ ("/github/create-repo",
           answer 201 (body_of "create_repository" false [] (JObj []))) ].

(** [create_repository] succeeds, asks for post-processing and suggests
    nothing. *)
Definition handoff_server : string -> nat -> Outcome :=
  route [ ("/github/create-repo",
           answer 200 (body_of "create_repository" true [] (JObj []))) ].

(** [check_status] is final, [list_files] and [read_file] ask for more,
    [merge_branches] answers with status 500. *)
Definition mixed_server : string -> nat -> Outcome :=
  route [ ("/repos/status/{repo_path}",
           answer 200 (body_of "check_status" false [] (JObj [])));
          ("/repos/list-files/{repo_path}",
           answer 200 (body_of "list_files" true [] (JObj [])));
          ("/repos/read-file/{repo_path}/{file_name}",
           answer 200 (body_of "read_file" true [] (JObj [])));
          ("/repos/merge", answer 500 JNull) ].

(** The routes of the repository's own REST server that a branch workflow
    meets: [/repos/create-branch] reports the tool name
    [create_local_branch], and there is no route [/repos/add-files]. *)
Definition app_server : string -> nat -> Outcome :=
  route [ ("/repos/create-branch",
           answer 200 (body_of "create_local_branch" false []
                               (JObj [("branch", JStr "feature")])));
          ("/repos/add-files",
           answer 404 (JObj [("detail", JStr "Not Found")]));
          ("/repos/commit",
           answer 200 (body_of "commit_changes" false [] (JObj []))) ].

Definition branch_step : WorkflowStep := step "create_branch" true.
Definition files_step : WorkflowStep := step "add_multiple_files" true.
Definition commit_step : WorkflowStep := step "commit_changes" true.

Definition branch_engine : WorkflowEngine :=
  {| workflows := [ ("branch_and_commit",
                     [branch_step; files_step; commit_step]) ] |}.

(** A suggestion without a tool-name hint. *)
Definition unnamed (t : ToolType) : SuggestedToolReference :=
  {| toolType := t; toolNameHint := None; reason := None;
     parameters := None; outputLabel := None |}.

(** A state whose most recent result does not ask for post-processing. *)
Definition settled : State :=
  after_result (result_of "check_status" false [] (JObj []))
               (start mixed_server).

(** The registry entry of [create_repository]. *)
Definition create_repository_intent : ToolIntent :=
  {| intent_name := "create_repository"; endpoint := "/github/create-repo";
     method := "POST"; tool_type := CREATOR |}.

(** A result whose payload is [None]. *)
Definition empty_result : ToolResult nat :=
  result_of "check_status" false [] JNull.

(* ================================================================== *)
(** ** Further definitions: vocabulary, contract helpers, servers *)
(* ================================================================== *)

Section CoverageVocabulary.

Context {datetime World : Type} `{Collaborators datetime World}.

(** What a batch of calls did between [s] and [s']: it appended [out] to
    [context.results], logged the calls of [called] in order, and appended
    one error entry for every call that gave no result. *)
Definition batch_effect (s s' : @State datetime World)
  (out : list (ToolResult datetime)) (called : list SuggestedToolReference)
  : Prop :=
  results (context s') = results (context s) ++ out
  /\ attempts s' = attempts s ++ map call_of called
  /\ exists entries,
       errors (context s') = errors (context s) ++ entries
       /\ (length entries + length out = length called)%nat.

(** What a batch did between [s] and [s'] when one of its calls was ended
    by an exception: as above, but for that call, the last of [called],
    which left neither a result nor an entry. *)
Definition batch_interrupted (s s' : @State datetime World)
  (new : list (ToolResult datetime)) (called : list SuggestedToolReference)
  : Prop :=
  results (context s') = results (context s) ++ new
  /\ attempts s' = attempts s ++ map call_of called
  /\ exists entries,
       errors (context s') = errors (context s) ++ entries
       /\ (length entries + length new + 1 = length called)%nat.

(** What a run of workflow steps did between [s] and [s']: it called the
    tools of [done] in order and appended [new] to [context.results] and
    [entries] to [context.errors]. *)
Definition workflow_effect (s s' : @State datetime World)
  (done : list WorkflowStep) (new : list (ToolResult datetime))
  (entries : list ErrorEntry) : Prop :=
  map fst (attempts s') = map fst (attempts s) ++ map step_tool done
  /\ results (context s') = results (context s) ++ new
  /\ errors (context s') = errors (context s) ++ entries.

(** What the outcome of the step loop says, for a loop entered with the
    results [acc] over the steps [wf].  Every call has left one result or
    one entry, but for a call ended by an exception that is not an
    [Exception]; an [Exception] comes from [params.update] alone. *)
Definition outcome_agrees (name : string) (wf : list WorkflowStep)
  (acc : list (ToolResult datetime)) (s' : @State datetime World)
  (done : list WorkflowStep) (new : list (ToolResult datetime))
  (entries : list ErrorEntry) (r : Res (@WorkflowReport datetime)) : Prop :=
  match r with
  | Ok (WorkflowCompleted nm k rs summary) =>
      (length new + length entries = length done)%nat
      /\ nm = name /\ done = wf /\ rs = acc ++ new /\ k = length rs
      /\ total_tools_executed summary = length (results (context s'))
      /\ sum_errors summary = length (errors (context s'))
      /\ successful summary = Nat.eqb (length (errors (context s'))) 0
      /\ tool_chain summary = map toolName (results (context s'))
  | Ok (WorkflowFailed nm tool completed log) =>
      (length new + length entries = length done)%nat
      /\ nm = name
      /\ (exists pre st, done = pre ++ [st] /\ step_tool st = tool
                         /\ default true (step_required st) = true)
      /\ completed = map toolName (acc ++ new)
      /\ log = errors (context s')
      /\ entries <> []
  | Raise e =>
      if is_exception e
      then (length new + length entries = length done)%nat
           /\ exists res, last (acc ++ new) = Some res
                          /\ truthy (payload res) = true
                          /\ forall members, payload res <> JObj members
      else (length new + length entries + 1 = length done)%nat
  end.

End CoverageVocabulary.

(* ------------------------------------------------------------------ *)
(** tool_contracts.py: [set_user_context] and [build_tool_result] *)

Definition AttributeError (msg : string) : Exn :=
  {| exn_type := "AttributeError"; exn_msg := msg; is_exception := true |}.

Section ContractHelpers.

Context {datetime World : Type} `{Collaborators datetime World}.

Abbreviation M := (@M datetime World).

(** [len(json.dumps(payload))]: the length of the text Python's [json]
    module writes for a value, or the exception [json.dumps] raises for a
    value it cannot write. *)
Variable dumps_len : json -> Exn + Z.

(** [ToolResult.set_user_context]: the method assigns in place; the model
    returns the object as it is afterwards.  The first assignment goes
    through [self.userContext], and raises when that is [None]. *)
Definition set_user_context (self : ToolResult datetime)
  (user_id session_id conversation_id message_id : string)
  : Res (ToolResult datetime) :=
  match userContext self with
  | None => Raise (AttributeError "'NoneType' object has no attribute 'userId'")
  | Some _ =>
      Ok {| toolResultId := toolResultId self;
            toolName := toolName self;
            timestamp := timestamp self;
            conversationId := Some conversation_id;
            conversationMessageId := Some message_id;
            userContext := Some {| userId := user_id; sessionId := session_id |};
            metadata := metadata self;
            payload := payload self;
            stepIndex := stepIndex self;
            parentToolResultId := parentToolResultId self |}
  end.

(** [d.get(k)] and [d.get(k, dflt)] as a value: [None] or [dflt] for an
    absent key. *)
Definition get_or (dflt : json) (k : string) (d : list (string * json)) : json :=
  default dflt (obj_get k d).

(** The [SuggestedToolReference(...)] built from one dict of
    [suggestedTools]: a missing [toolType] is [ToolType.ANALYZER]. *)
Definition suggestion_of_dict (tool : list (string * json))
  : Checked SuggestedToolReference :=
  v_SuggestedToolReference "suggestedTools"
    (JObj [ ("toolType", get_or (JInt (ToolType_value ANALYZER)) "toolType" tool);
            ("toolNameHint", get_or JNull "toolNameHint" tool);
            ("reason", get_or JNull "reason" tool);
            ("parameters", get_or JNull "parameters" tool);
            ("outputLabel", get_or JNull "outputLabel" tool) ]).

Fixpoint suggestions_of_dicts (tools : list (list (string * json)))
  : Checked (list SuggestedToolReference) :=
  match tools with
  | [] => Valid []
  | tool :: rest =>
      chk_bind (suggestion_of_dict tool) (fun ref =>
      chk_bind (suggestions_of_dicts rest) (fun refs =>
      Valid (ref :: refs)))
  end.

(** The [ContentSummary(...)] built from the dict [content_summary]. *)
Definition content_summary_of_dict (d : list (string * json))
  : Checked ContentSummary :=
  v_ContentSummary "content_summary"
    (JObj [ ("fields", get_or (JArr []) "fields" d);
            ("recordCount", get_or (JInt 0) "recordCount" d) ]).

(** A model constructor raises on an input that does not validate. *)
Definition construct {A : Type} (c : Checked A) : M A :=
  match c with
  | Valid a => ret a
  | Invalid e => raise (PydanticValidationError e)
  end.

(** [build_tool_result]; the caller's keyword arguments, in the order of
    the signature.  [source] is not used. *)
Definition build_tool_result
  (tool_name : string) (payload : json) (intent description : string)
  (conversation_id message_id user_id session_id : string)
  (source data_type : string) (requires_post_processing : bool)
  (suggestedTools : option (list (list (string * json))))
  (content_summary : option (list (string * json)))
  (parent_tool_result_id : option string) (step_index : Z)
  : M (ToolResult datetime) :=
  bind (match suggestedTools with
        | Some (tool :: rest) => construct (suggestions_of_dicts (tool :: rest))
        | _ => ret []
        end) (fun suggested_tool_refs =>
  bind (match content_summary with
        | Some (member :: rest) =>
            bind (construct (content_summary_of_dict (member :: rest)))
                 (fun c => ret (Some c))
        | _ => ret None
        end) (fun content_summary_obj =>
  bind (if truthy payload
        then match dumps_len payload with
             | inr n => ret n
             | inl e => raise e
             end
        else ret 0) (fun data_size =>
  let metadata :=
    {| dataType := data_type;
       dataSize := data_size;
       intent := intent;
       description := description;
       accessibility := "public";
       requiresPostProcessing := requires_post_processing;
       suggestedTools := suggested_tool_refs;
       contentSummary := content_summary_obj;
       confidence := 1 # 1 |} in
  let user_context := {| userId := user_id; sessionId := session_id |} in
  bind (external uuid4) (fun result_id =>
  bind (external utcnow) (fun now =>
  ret {| toolResultId := result_id;
         toolName := tool_name;
         timestamp := now;
         conversationId := Some conversation_id;
         conversationMessageId := Some message_id;
         userContext := Some user_context;
         metadata := metadata;
         payload := payload;
         stepIndex := step_index;
         parentToolResultId := parent_tool_result_id |}))))).

End ContractHelpers.

(** More servers for the scripted transport. *)

(** No endpoint answers: every call times out. *)
Definition down_server : string -> nat -> Outcome := route [].

(** [check_status] is answered 200 with a body that is no [ToolResult];
    [list_files] is answered 200 with a body that is not JSON. *)
Definition garbled_server : string -> nat -> Outcome :=
  route [ ("/repos/status/{repo_path}", answer 200 (JObj []));
          ("/repos/list-files/{repo_path}",
           Responds {| status_code := 200; text := "<html>";
                       json_body := inl {| exn_type := "JSONDecodeError";
                                           exn_msg := "Expecting value";
                                           is_exception := true |} |}) ].

(** [create_branch] succeeds with a payload that is a string. *)
Definition scalar_server : string -> nat -> Outcome :=
  route [ ("/repos/create-branch",
           answer 200 (body_of "create_local_branch" false [] (JStr "done"))) ].

(** [check_status] and [create_branch] succeed, the first asking for more
    and suggesting [list_files]; the calls of [list_files] and
    [add_multiple_files] are cancelled. *)
Definition cancelling_server : string -> nat -> Outcome :=
  route [ ("/repos/status/{repo_path}",
           answer 200 (body_of "check_status" true
                               [suggest ANALYZER "list_files"] (JObj [])));
          ("/repos/list-files/{repo_path}", Fails CancelledError);
          ("/repos/create-branch",
           answer 200 (body_of "create_local_branch" false [] (JObj [])));
          ("/repos/add-files", Fails CancelledError) ].

(** The branch workflow with its middle step optional. *)
Definition lenient_step : WorkflowStep := step "add_multiple_files" false.

Definition lenient_engine : WorkflowEngine :=
  {| workflows := [ ("branch_and_commit",
                     [branch_step; lenient_step; commit_step]) ] |}.

Definition lenient_orchestrator : ToolOrchestrator :=
  {| chain_executor := ToolChainExecutor_init;
     workflow_engine := lenient_engine |}.

(** The registry entry of [check_status]. *)
Definition check_status_intent : ToolIntent :=
  {| intent_name := "check_status"; endpoint := "/repos/status/{repo_path}";
     method := "GET"; tool_type := ANALYZER |}.

(** The length of the JSON text of [init_payload] below, for every value. *)
Definition sized : json -> Exn + Z := fun _ => inr 41.

(** A [json.dumps] that cannot write its argument. *)
Definition unwritable : json -> Exn + Z :=
  fun _ => inl (TypeError "Object of type set is not JSON serializable").

(** The arguments of the REST server's [initialize_repo], but for the
    suggestion, whose dict carries no [toolType]. *)
Definition init_payload : json :=
  JObj [("repo_path", JStr "/tmp/r"); ("branch", JStr "main")].

Definition init_suggestions : list (list (string * json)) :=
  [ [ ("toolNameHint", JStr "create_branch");
      ("reason", JStr "Create branches for development") ] ].

Definition build_init (suggested : option (list (list (string * json))))
  : M (ToolResult nat) :=
  build_tool_result sized "initialize_repository" init_payload
    "Initialize repository" "Repository initialized" "conv" "msg" "user"
    "session" "api" "application/json" false suggested None None 0.

Definition built_init : ToolResult nat :=
  {| toolResultId := "0";
     toolName := "initialize_repository";
     timestamp := 1%nat;
     conversationId := Some "conv";
     conversationMessageId := Some "msg";
     userContext := Some {| userId := "user"; sessionId := "session" |};
     metadata := {| dataType := "application/json";
                    dataSize := 41;
                    intent := "Initialize repository";
                    description := "Repository initialized";
                    accessibility := "public";
                    requiresPostProcessing := false;
                    suggestedTools :=
                      [ {| toolType := ANALYZER;
                           toolNameHint := Some "create_branch";
                           reason := Some "Create branches for development";
                           parameters := None;
                           outputLabel := None |} ];
                    contentSummary := None;
                    confidence := 1 # 1 |};
     payload := init_payload;
     stepIndex := 0;
     parentToolResultId := None |}.

(* ================================================================== *)
(** ** Properties *)
(* ================================================================== *)

Section Properties.

Context {datetime World : Type} `{Collaborators datetime World}.

Abbreviation State := (@State datetime World).
Abbreviation M := (@M datetime World).
Abbreviation Result := (ToolResult datetime).

(** *** What one call of the invoker does to the state *)

Lemma external_world_only {A : Type} (f : World -> A * World) :
  world_only (external f : M A).
Proof.
  intros s r s'. unfold external. destruct (f (world s)) as [a w].
  intros E. inversion E. subst. simpl. auto.
Qed.

Lemma member_or_factory_world_only {A : Type} loc v (factory : World -> A * World) ms :
  world_only (member_or_factory loc v factory ms : M (Checked A)).
Proof.
  intros s r s'. unfold member_or_factory.
  destruct (obj_get loc ms).
  - unfold ret. intros E. inversion E. auto.
  - unfold bind. destruct (external factory s) as [[a|e] s1] eqn:E1.
    + unfold ret. intros E. inversion E. subst.
      eapply external_world_only. exact E1.
    + intros E. inversion E. subst. eapply external_world_only. exact E1.
Qed.

Lemma model_validate_world_only (obj : json) : world_only (model_validate obj).
Proof.
  intros s r s'. unfold model_validate.
  destruct obj; try solve [unfold raise; intros E; inversion E; auto].
  unfold bind.
  destruct (member_or_factory "toolResultId" v_str uuid4 members s)
    as [[rid|e] s1] eqn:E1.
  2:{ intros E. inversion E. subst.
      eapply member_or_factory_world_only. exact E1. }
  destruct (member_or_factory "timestamp" (v_datetime parse_datetime) utcnow members s1)
    as [[ts|e] s2] eqn:E2.
  2:{ intros E. inversion E. subst.
      apply member_or_factory_world_only in E1, E2.
      destruct E1 as [C1 A1], E2 as [C2 A2]. split; congruence. }
  apply member_or_factory_world_only in E1, E2.
  destruct E1 as [C1 A1], E2 as [C2 A2].
  destruct (v_ToolResult_fields rid ts members);
    unfold ret, raise; intros E; inversion E; subst;
    split; congruence.
Qed.

Lemma model_validate_raises obj (s s1 : State) e :
  model_validate obj s = (Raise e, s1) ->
  exists v, e = PydanticValidationError v.
Proof.
  unfold model_validate. destruct obj;
    try solve [unfold raise; intros E; inversion E; eauto].
  unfold bind.
  assert (Hm : forall (A : Type) loc v (f : World -> A * World) (st st' : State) e',
             member_or_factory loc v f members st = (Raise e', st') -> False).
  { intros A loc v f st st' e'. unfold member_or_factory.
    destruct (obj_get loc members); unfold ret, bind, external.
    - intros E. inversion E.
    - destruct (f (world st)). intros E. inversion E. }
  destruct (member_or_factory "toolResultId" v_str uuid4 members s)
    as [[rid|e1] s2] eqn:E1; [|exfalso; eapply Hm; exact E1].
  destruct (member_or_factory "timestamp" (v_datetime parse_datetime) utcnow
              members s2) as [[ts|e2] s3] eqn:E2; [|exfalso; eapply Hm; exact E2].
  destruct (v_ToolResult_fields rid ts members); unfold ret, raise;
    intros E; inversion E. eauto.
Qed.

(** [execute_tool], case by case. *)
Lemma execute_tool_eq name params (s : State) :
  execute_tool name params s =
  let s0 := after_attempt name params s in
  match transport_call name params s with
  | None =>
      (Ok None,
       after_error (raised_error name (ValueError ("Unknown tool: " ++ name)%string)) s0)
  | Some (Fails e, w) => handled name e (in_world w s0)
  | Some (Responds resp, w) =>
      if Z.eqb (status_code resp) 200 then
        match json_body resp with
        | inl e => handled name e (in_world w s0)
        | inr body =>
            match model_validate body (in_world w s0) with
            | (Ok r, s1) => (Ok (Some r), after_result r s1)
            | (Raise e, s1) => (Ok None, after_error (raised_error name e) s1)
            end
        end
      else (Ok None, after_error (http_error name resp) (in_world w s0))
  end.
Proof.
  unfold execute_tool, transport_call, try_except, bind, note_attempt, handled.
  simpl.
  destruct (get_intent_by_name name) as [intent|]; simpl.
  2:{ reflexivity. }
  unfold external at 1. simpl.
  destruct (uuid4 (world s)) as [u w0]. simpl.
  unfold request, bind, external. simpl.
  destruct (api_request _ w0) as [[resp|e] w]; simpl.
  2:{ destruct (is_exception e); reflexivity. }
  destruct (Z.eqb (status_code resp) 200); simpl.
  2:{ reflexivity. }
  unfold response_json.
  destruct (json_body resp) as [e|body]; simpl.
  { destruct (is_exception e); reflexivity. }
  unfold in_world, after_attempt. simpl.
  destruct (model_validate body _) as [[r|e] s1] eqn:V; [reflexivity|].
  apply model_validate_raises in V. destruct V as [v ->]. reflexivity.
Qed.

Lemma handled_effect name params e w (s : State) res s' :
  handled name e (in_world w (after_attempt name params s)) = (res, s') ->
  call_effect name params s res s'.
Proof.
  unfold handled. destruct (is_exception e) eqn:He;
    intros E; inversion E; subst; simpl.
  - split; [reflexivity|]. eexists. split; [reflexivity|]. simpl. eauto.
  - split; [exact He|]. split; reflexivity.
Qed.

Lemma execute_tool_step name params (s : State) res s' :
  execute_tool name params s = (res, s') ->
  call_effect name params s res s'.
Proof.
  rewrite execute_tool_eq. cbv zeta.
  assert (Herr : forall entry w,
             assoc_get "tool" entry = Some name ->
             is_Some (assoc_get "error" entry) ->
             call_effect name params s (Ok None)
               (after_error entry (in_world w (after_attempt name params s)))).
  { intros entry w Ht He. split; [reflexivity|].
    eexists. split; [reflexivity|]. auto. }
  destruct (transport_call name params s) as [[[resp|e] w]|].
  - destruct (Z.eqb (status_code resp) 200).
    + destruct (json_body resp) as [e|body]; [apply handled_effect|].
      destruct (model_validate body _) as [[r|e] s1] eqn:V;
        apply model_validate_world_only in V; destruct V as [C A];
        simpl in C, A; intros E; inversion E; subst; simpl;
        unfold tool_step; simpl; rewrite A, C; (split; [reflexivity|]);
        [reflexivity|].
      eexists. split; [reflexivity|]. simpl. eauto.
    + intros E. inversion E. subst. apply Herr; simpl; eauto.
  - apply handled_effect.
  - intros E. inversion E. subst.
    split; [reflexivity|]. eexists. split; [reflexivity|]. simpl. eauto.
Qed.

Lemma execute_tool_raises name params :
  raises_no_exception (execute_tool name params : M _).
Proof.
  intros s e s' E. apply execute_tool_step in E. destruct E as [He _].
  exact He.
Qed.

(** *** What the strategies raise *)

Lemma sequential_loop_raises tools :
  forall acc, raises_no_exception (sequential_loop acc tools : M _).
Proof.
  induction tools as [|sg rest IH]; intros acc s e s'; simpl.
  - unfold ret. discriminate.
  - destruct (negb (has_hint sg)); [apply IH|].
    unfold bind, execute_suggestion.
    destruct (execute_tool _ _ s) as [[o|e1] s1] eqn:E1.
    2:{ intros E. inversion E. subst. eapply execute_tool_raises. exact E1. }
    destruct o as [r|]; [|apply IH].
    destruct (negb (requiresPostProcessing (metadata r))); [|apply IH].
    unfold ret. discriminate.
Qed.

Lemma gather_raises {A : Type} (tasks : list (M A)) :
  Forall raises_no_exception tasks -> raises_no_exception (gather tasks).
Proof.
  induction 1 as [|task rest Ht _ IH]; intros s e s'; simpl.
  - unfold ret. discriminate.
  - unfold bind. destruct (task s) as [[a|e1] s1] eqn:E1.
    2:{ intros E. inversion E. subst. eapply Ht. exact E1. }
    destruct (gather rest s1) as [[l|e2] s2] eqn:E2.
    + unfold ret. discriminate.
    + intros E. inversion E. subst. eapply IH. exact E2.
Qed.

Lemma _execute_parallel_raises tools :
  raises_no_exception (_execute_parallel tools : M _).
Proof.
  intros s e s'. unfold _execute_parallel.
  destruct (map execute_suggestion (List.filter parallel_eligible tools))
    as [|t ts] eqn:E; [unfold ret; discriminate|].
  unfold bind.
  destruct (gather (t :: ts) s) as [[l|e1] s1] eqn:G;
    [unfold ret; discriminate|].
  intros E1. inversion E1. subst. revert G. apply gather_raises.
  rewrite <- E. apply Forall_forall. intros m Hm.
  apply list_elem_of_In, in_map_iff in Hm. destruct Hm as (sg & <- & _).
  apply execute_tool_raises.
Qed.

Lemma _evaluate_condition_eq sg (s : State) :
  _evaluate_condition sg s =
  (Ok (negb (ToolType_eqb (toolType sg) MODIFIER
             && match last (results (context s)) with
                | Some l => negb (requiresPostProcessing (metadata l))
                | None => false
                end)), s).
Proof.
  unfold _evaluate_condition, get_last_result, bind, get_context, ret. simpl.
  destruct (last (results (context s))) as [l|]; simpl.
  - destruct (toolType sg), (requiresPostProcessing (metadata l)); simpl;
      try reflexivity;
      destruct (match reason sg with Some _ => _ | None => _ end); reflexivity.
  - rewrite andb_false_r. reflexivity.
Qed.

Lemma conditional_loop_raises tools :
  forall acc, raises_no_exception (conditional_loop acc tools : M _).
Proof.
  induction tools as [|sg rest IH]; intros acc s e s'; simpl.
  - unfold ret. discriminate.
  - unfold bind at 1. rewrite _evaluate_condition_eq.
    destruct (_ && has_hint sg); [|apply IH].
    unfold bind, execute_suggestion.
    destruct (execute_tool _ _ s) as [[o|e1] s1] eqn:E1.
    2:{ intros E. inversion E. subst. eapply execute_tool_raises. exact E1. }
    destruct o; apply IH.
Qed.

Lemma dispatch_raises strategy tools :
  raises_no_exception (dispatch strategy tools : M _).
Proof.
  destruct strategy; simpl.
  - apply sequential_loop_raises.
  - apply _execute_parallel_raises.
  - apply conditional_loop_raises.
  - intros s e s'. unfold ret. discriminate.
Qed.

(** *** The chain loop ends within its bound *)

(** With more fuel than passes are left, the loop ends: it returns, having
    made no more passes than were left, or one of its calls was ended by
    an exception that is not an [Exception]. *)
Lemma chain_loop_enough_fuel self strategy filter_func :
  forall fuel acc current chain_length iterations (s : State),
    (max_chain_length self - chain_length < fuel)%nat ->
    exists res s',
      chain_loop self strategy filter_func fuel acc current
                 chain_length iterations s = (res, s')
      /\ match res with
         | Ok out =>
             exists rs n,
               out = Some (rs, n)
               /\ (n <= iterations + (max_chain_length self - chain_length))%nat
         | Raise e => is_exception e = false
         end.
Proof.
  induction fuel as [|fuel IH]; intros acc current cl it s Hfuel; [lia|].
  simpl. destruct (Nat.ltb_spec cl (max_chain_length self)) as [Hlt|Hge].
  2:{ unfold ret. eexists _, _. split; [reflexivity|].
      eexists _, _. split; [reflexivity|lia]. }
  destruct (suggestedTools (metadata current)) as [|sg0 sgs].
  { unfold ret. eexists _, _. split; [reflexivity|].
    eexists _, _. split; [reflexivity|lia]. }
  set (batch := match filter_func with
                | Some f => List.filter f (sg0 :: sgs)
                | None => sg0 :: sgs
                end).
  destruct batch as [|b bs] eqn:Hb.
  { unfold ret. eexists _, _. split; [reflexivity|].
    eexists _, _. split; [reflexivity|lia]. }
  unfold bind.
  destruct (dispatch strategy (b :: bs) s) as [[next|e] s1] eqn:D.
  2:{ eexists _, _. split; [reflexivity|]. eapply dispatch_raises. exact D. }
  destruct (last next) as [l|].
  2:{ unfold ret. eexists _, _. split; [reflexivity|].
      eexists _, _. split; [reflexivity|lia]. }
  destruct (IH (acc ++ next) l (S cl) (S it) s1) as (res & s2 & E & Hres);
    [lia|].
  exists res, s2. split; [exact E|].
  destruct res as [out|e]; [|exact Hres].
  destruct Hres as (rs & n & -> & Hn). eexists _, _. split; [reflexivity|lia].
Qed.

Lemma chain_loop_fuel_irrelevant self strategy filter_func :
  forall fuel1 fuel2 acc current chain_length iterations (s : State),
    (max_chain_length self - chain_length < fuel1)%nat ->
    (max_chain_length self - chain_length < fuel2)%nat ->
    chain_loop self strategy filter_func fuel1 acc current
               chain_length iterations s
    = chain_loop self strategy filter_func fuel2 acc current
                 chain_length iterations s.
Proof.
  induction fuel1 as [|fuel1 IH]; intros [|fuel2] acc current cl it s H1 H2;
    try lia.
  simpl. destruct (Nat.ltb_spec cl (max_chain_length self)) as [Hlt|Hge];
    [|reflexivity].
  destruct (suggestedTools (metadata current)) as [|sg0 sgs]; [reflexivity|].
  destruct (match filter_func with
            | Some f => List.filter f (sg0 :: sgs)
            | None => sg0 :: sgs
            end) as [|b bs]; [reflexivity|].
  unfold bind. destruct (dispatch strategy (b :: bs) s) as [[next|e] s1];
    [|reflexivity].
  destruct (last next); [|reflexivity]. apply IH; lia.
Qed.

(** An exception ends the loop in a pass, of which there are no more than
    the bound leaves: as many tests of the loop condition as passes are
    left already meet it. *)
Lemma chain_loop_raises_within_bound self strategy filter_func :
  forall fuel acc current chain_length iterations (s s' : State) e,
    chain_loop self strategy filter_func fuel acc current
               chain_length iterations s = (Raise e, s') ->
    chain_loop self strategy filter_func
               (max_chain_length self - chain_length) acc current
               chain_length iterations s = (Raise e, s').
Proof.
  induction fuel as [|fuel IH]; intros acc current cl it s s' e; simpl.
  { unfold ret. discriminate. }
  destruct (Nat.ltb_spec cl (max_chain_length self)) as [Hlt|Hge].
  2:{ unfold ret. discriminate. }
  replace (max_chain_length self - cl)%nat
    with (S (max_chain_length self - S cl)) by lia.
  simpl. destruct (Nat.ltb_spec cl (max_chain_length self)) as [_|Hge]; [|lia].
  destruct (suggestedTools (metadata current)) as [|sg0 sgs]; [exact id|].
  destruct (match filter_func with
            | Some f => List.filter f (sg0 :: sgs)
            | None => sg0 :: sgs
            end) as [|b bs]; [exact id|].
  unfold bind. destruct (dispatch strategy (b :: bs) s) as [[next|e1] s1];
    [|exact id].
  destruct (last next); [|exact id]. apply IH.
Qed.

(** C1. For every initial result, state (and so every execution context),
    strategy and filter predicate, [execute_chain] terminates: given more
    fuel than [max_chain_length] its loop ends, whatever the results
    suggest (so also when they suggest each other in a cycle).  Either it
    returns, having made at most [max_chain_length] iterations, or a call
    was ended by an exception that [execute_tool] does not catch, and
    that too within [max_chain_length] passes: so many tests of the loop
    condition already meet it.  The bound an executor is built with is
    10. *)
Theorem execute_chain_terminates_within_bound
  self initial strategy filter_func fuel (s : State) :
  (max_chain_length self < fuel)%nat ->
  max_chain_length ToolChainExecutor_init = 10%nat /\
  exists res s',
    execute_chain_fuel self fuel initial strategy filter_func s = (res, s')
    /\ match res with
       | Ok out =>
           exists rs n, out = Some (rs, n) /\ (n <= max_chain_length self)%nat
       | Raise e =>
           is_exception e = false
           /\ execute_chain_fuel self (max_chain_length self) initial
                                 strategy filter_func s = (Raise e, s')
       end.
Proof.
  intros Hfuel. split; [reflexivity|].
  unfold execute_chain_fuel, bind, add_result, get_context, set_context. simpl.
  match goal with |- context [chain_loop _ _ _ fuel _ _ _ _ ?st] =>
    destruct (chain_loop_enough_fuel self strategy filter_func fuel
                [initial] initial 0 0 st) as (res & s' & E & Hres); [lia|]
  end.
  exists res, s'. split; [exact E|].
  destruct res as [out|e].
  - destruct Hres as (rs & n & -> & Hn). exists rs, n. split; [reflexivity|lia].
  - split; [exact Hres|].
    apply chain_loop_raises_within_bound in E.
    rewrite Nat.sub_0_r in E. exact E.
Qed.

(** *** Unknown workflows *)

Lemma new_context_fresh user conversation (s : State) :
  exists s', new_context user conversation s = (Ok tt, s')
             /\ results (context s') = []
             /\ errors (context s') = []
             /\ attempts s' = attempts s.
Proof.
  unfold new_context.
  assert (Hconv : exists conv w,
             forall k : string -> M unit,
               bind (match conversation with
                     | Some c => if String.eqb c ""
                                 then bind (external uuid4)
                                           (fun u => ret ("conv-" ++ u)%string)
                                 else ret c
                     | None => bind (external uuid4)
                                    (fun u => ret ("conv-" ++ u)%string)
                     end) k s = k conv (in_world w s)).
  { destruct s as [w c a].
    destruct conversation as [c0|]; [destruct (String.eqb c0 "")|];
      unfold bind, external, ret, in_world; simpl.
    - destruct (uuid4 w) as [u w1]. eexists _, _. intros k. reflexivity.
    - eexists _, _. intros k. reflexivity.
    - destruct (uuid4 w) as [u w1]. eexists _, _. intros k. reflexivity. }
  destruct Hconv as (conv & w & ->).
  unfold bind, external, in_world, set_context. simpl.
  destruct (uuid4 w) as [u1 w1]. simpl.
  destruct (uuid4 w1) as [u2 w2]. simpl.
  destruct (utcnow w2) as [now w3]. simpl.
  eexists. split; [reflexivity|]. simpl. auto.
Qed.

(** C3, as the code has it.  For every workflow name that is not
    registered, [execute_workflow] raises [ValueError("Unknown workflow:
    <name>")] before any step runs and leaves the state as it was; the
    orchestrator's [execute_workflow] lets that exception through to its
    caller, with a new, empty context behind it and no tool attempted. *)
Theorem unknown_workflow_raises
  self name params user conversation (s : State) :
  assoc_get name (workflows (workflow_engine self)) = None ->
  execute_workflow (workflow_engine self) name params s
    = (Raise (ValueError ("Unknown workflow: " ++ name)%string), s)
  /\ exists s',
       orchestrator_execute_workflow self name params user conversation s
         = (Raise (ValueError ("Unknown workflow: " ++ name)%string), s')
       /\ results (context s') = []
       /\ errors (context s') = []
       /\ attempts s' = attempts s.
Proof.
  intros Hname. split.
  - unfold execute_workflow. rewrite Hname. reflexivity.
  - unfold orchestrator_execute_workflow, bind.
    destruct (new_context_fresh user conversation s) as (s' & -> & R & E & A).
    exists s'. unfold execute_workflow. rewrite Hname. auto.
Qed.

(** *** The invoker *)

(** C4, as the code has it.  When the transport answers with status 200
    and a body that validates as a [ToolResult], [execute_tool] appends
    that result to [context.results] and returns it.  When the transport
    answers with any other status (another 2xx included), or raises an
    exception that is an [Exception] (network failure, timeout),
    [execute_tool] appends exactly one entry to [context.errors], with
    the tool name and the error, and with the response text as details
    for a status and the type of the exception for a raise; it returns no
    result and does not raise.  Nothing that is an [Exception] is ever
    raised past [execute_tool]. *)
Theorem execute_tool_outcomes name params (s : State) :
  (forall resp w body r s1,
     transport_call name params s = Some (Responds resp, w) ->
     status_code resp = 200 ->
     json_body resp = inr body ->
     model_validate body (in_world w (after_attempt name params s))
       = (Ok r, s1) ->
     execute_tool name params s = (Ok (Some r), after_result r s1)
     /\ results (context (after_result r s1)) = results (context s) ++ [r]
     /\ errors (context (after_result r s1)) = errors (context s))
  /\ (forall resp w,
        transport_call name params s = Some (Responds resp, w) ->
        status_code resp <> 200 ->
        execute_tool name params s
          = (Ok None, after_error (http_error name resp)
                                  (in_world w (after_attempt name params s))))
  /\ (forall e w,
        transport_call name params s = Some (Fails e, w) ->
        is_exception e = true ->
        execute_tool name params s
          = (Ok None, after_error (raised_error name e)
                                  (in_world w (after_attempt name params s))))
  /\ (forall e s',
        execute_tool name params s = (Raise e, s') -> is_exception e = false).
Proof.
  split; [|split; [|split]].
  - intros resp w body r s1 Hcall Hstatus Hbody Hvalid.
    rewrite execute_tool_eq, Hcall. cbv zeta.
    rewrite Hstatus, Hbody, Hvalid. simpl.
    apply model_validate_world_only in Hvalid. destruct Hvalid as [C _].
    simpl in C. rewrite C. auto.
  - intros resp w Hcall Hstatus.
    rewrite execute_tool_eq, Hcall. cbv zeta.
    destruct (Z.eqb_spec (status_code resp) 200); [contradiction|reflexivity].
  - intros e w Hcall He. rewrite execute_tool_eq, Hcall. cbv zeta.
    unfold handled. rewrite He. reflexivity.
  - intros e s'. apply execute_tool_raises.
Qed.

(** *** ToolResult.status *)

(** C10. The status of a result is [Processing] exactly when its metadata
    asks for post-processing and [Complete] otherwise; it is never
    [Failed]. *)
Theorem status_of_result (r : Result) :
  (status r = Processing <-> requiresPostProcessing (metadata r) = true)
  /\ (status r = Complete <-> requiresPostProcessing (metadata r) = false)
  /\ status r <> Failed.
Proof.
  unfold status. destruct (requiresPostProcessing (metadata r));
    repeat split; intros; congruence.
Qed.

(** *** Accounting for a call *)

Lemma tool_step_results name params (s : State) o s' :
  tool_step name params s o s' ->
  results (context s') = results (context s) ++ option_list o.
Proof.
  intros [_ Hc]. destruct o as [r|]; simpl.
  - rewrite Hc. reflexivity.
  - destruct Hc as (entry & -> & _). simpl. rewrite app_nil_r. reflexivity.
Qed.

Lemma tool_step_errors name params (s : State) o s' :
  tool_step name params s o s' ->
  exists entries,
    errors (context s') = errors (context s) ++ entries
    /\ (length entries + length (option_list o) = 1)%nat.
Proof.
  intros [_ Hc]. destruct o as [r|]; simpl.
  - exists []. rewrite Hc. simpl. rewrite app_nil_r. auto.
  - destruct Hc as (entry & -> & _). exists [entry]. auto.
Qed.

Lemma execute_suggestion_step sg (s : State) res s' :
  execute_suggestion sg s = (res, s') ->
  call_effect (fst (call_of sg)) (snd (call_of sg)) s res s'.
Proof. apply execute_tool_step. Qed.

(** *** Accounting for a batch *)

Lemma batch_effect_none (s : State) : batch_effect s s [] [].
Proof.
  unfold batch_effect. simpl. rewrite !app_nil_r. repeat split.
  exists []. rewrite app_nil_r. auto.
Qed.

Lemma batch_effect_call sg (s s1 s' : State) o out called :
  tool_step (fst (call_of sg)) (snd (call_of sg)) s o s1 ->
  batch_effect s1 s' out called ->
  batch_effect s s' (option_list o ++ out) (sg :: called).
Proof.
  intros Hstep (R & A & es & E & L).
  pose proof (tool_step_results _ _ _ _ _ Hstep) as R1.
  destruct (tool_step_errors _ _ _ _ _ Hstep) as (e1 & E1 & L1).
  destruct Hstep as [A1 _]. unfold batch_effect. split; [|split].
  - rewrite R, R1, <- app_assoc. reflexivity.
  - rewrite A, A1, <- app_assoc. reflexivity.
  - exists (e1 ++ es). split.
    + rewrite E, E1, <- app_assoc. reflexivity.
    + rewrite !length_app. simpl. lia.
Qed.

Lemma batch_effect_then (s s1 s2 : State) out1 out2 called1 called2 :
  batch_effect s s1 out1 called1 ->
  batch_effect s1 s2 out2 called2 ->
  batch_effect s s2 (out1 ++ out2) (called1 ++ called2).
Proof.
  intros (R1 & A1 & e1 & E1 & L1) (R2 & A2 & e2 & E2 & L2).
  split; [|split].
  - rewrite R2, R1, <- app_assoc. reflexivity.
  - rewrite A2, A1, map_app, <- app_assoc. reflexivity.
  - exists (e1 ++ e2). split.
    + rewrite E2, E1, <- app_assoc. reflexivity.
    + rewrite !length_app. lia.
Qed.

Lemma batch_interrupted_here sg (s s' : State) e :
  tool_interrupted (fst (call_of sg)) (snd (call_of sg)) s e s' ->
  batch_interrupted s s' [] [sg].
Proof.
  intros (_ & A & C). unfold batch_interrupted. rewrite C, A.
  simpl. rewrite !app_nil_r.
  split; [reflexivity|]. split; [reflexivity|].
  exists []. rewrite app_nil_r. auto.
Qed.

Lemma batch_interrupted_call sg (s s1 s' : State) o new called :
  tool_step (fst (call_of sg)) (snd (call_of sg)) s o s1 ->
  batch_interrupted s1 s' new called ->
  batch_interrupted s s' (option_list o ++ new) (sg :: called).
Proof.
  intros Hstep (R & A & es & E & L).
  pose proof (tool_step_results _ _ _ _ _ Hstep) as R1.
  destruct (tool_step_errors _ _ _ _ _ Hstep) as (e1 & E1 & L1).
  destruct Hstep as [A1 _]. unfold batch_interrupted. split; [|split].
  - rewrite R, R1, <- app_assoc. reflexivity.
  - rewrite A, A1, <- app_assoc. reflexivity.
  - exists (e1 ++ es). split.
    + rewrite E, E1, <- app_assoc. reflexivity.
    + rewrite !length_app. simpl. lia.
Qed.

Lemma batch_interrupted_then (s s1 s2 : State) out1 new called1 called2 :
  batch_effect s s1 out1 called1 ->
  batch_interrupted s1 s2 new called2 ->
  batch_interrupted s s2 (out1 ++ new) (called1 ++ called2).
Proof.
  intros (R1 & A1 & e1 & E1 & L1) (R2 & A2 & e2 & E2 & L2).
  split; [|split].
  - rewrite R2, R1, <- app_assoc. reflexivity.
  - rewrite A2, A1, map_app, <- app_assoc. reflexivity.
  - exists (e1 ++ e2). split.
    + rewrite E2, E1, <- app_assoc. reflexivity.
    + rewrite !length_app. lia.
Qed.

(** *** Sequential strategy *)

Lemma sequential_loop_skips skipped :
  forallb (fun sg => negb (has_hint sg)) skipped = true ->
  forall acc rest (s : State),
    sequential_loop acc (skipped ++ rest) s = sequential_loop acc rest s.
Proof.
  induction skipped as [|sg l IH]; intros Hs acc rest s; [reflexivity|].
  simpl in Hs. apply andb_true_iff in Hs. destruct Hs as [Hsg Hl].
  simpl. rewrite Hsg. apply IH. exact Hl.
Qed.

(** C5. Under the Sequential strategy, when the first suggestion the loop
    can follow, [A], is executed with success and its result does not ask
    for post-processing, the batch returns that one result and the state
    is the one [A]'s execution left: the attempt log has grown by [A]'s
    call alone, so no later suggestion of the batch was attempted.
    Suggestions without a tool-name hint standing before [A] are passed
    over without an attempt. *)
Theorem sequential_stops_at_terminal_result skipped A rest r (s s' : State) :
  forallb (fun sg => negb (has_hint sg)) skipped = true ->
  has_hint A = true ->
  execute_suggestion A s = (Ok (Some r), s') ->
  requiresPostProcessing (metadata r) = false ->
  _execute_sequential (skipped ++ A :: rest) s = (Ok [r], s')
  /\ attempts s' = attempts s ++ [call_of A].
Proof.
  intros Hskip Hhint Hexec Hdone. split.
  - unfold _execute_sequential. rewrite sequential_loop_skips by exact Hskip.
    simpl. rewrite Hhint. simpl. unfold bind. rewrite Hexec, Hdone.
    reflexivity.
  - apply execute_suggestion_step in Hexec. destruct Hexec as [Ha _].
    rewrite Ha. destruct (call_of A). reflexivity.
Qed.

(** What a run of the sequential loop did, however it ended.  It stops
    before the end of the batch only at a result that does not ask for
    post-processing, or at an exception. *)
Lemma sequential_loop_shape tools :
  forall acc (s : State) res s',
    sequential_loop acc tools s = (res, s') ->
    exists new called,
      called `prefix_of` List.filter has_hint tools
      /\ (forall i r, new !! i = Some r -> (S i < length new)%nat ->
                      requiresPostProcessing (metadata r) = true)
      /\ match res with
         | Ok out =>
             out = acc ++ new /\ batch_effect s s' new called
             /\ (called = List.filter has_hint tools
                 \/ exists r, last new = Some r
                              /\ requiresPostProcessing (metadata r) = false)
         | Raise e => is_exception e = false
                      /\ batch_interrupted s s' new called
         end.
Proof.
  induction tools as [|sg rest IH]; intros acc s res s'; simpl.
  - unfold ret. intros E. inversion E. subst. exists [], [].
    split; [apply prefix_nil|]. split; [intros i r Hi; discriminate|].
    rewrite app_nil_r. split; [reflexivity|].
    split; [apply batch_effect_none|left; reflexivity].
  - destruct (has_hint sg) eqn:Hh; simpl.
    2:{ apply IH. }
    unfold bind.
    destruct (execute_suggestion sg s) as [[o|e] s1] eqn:E1;
      apply execute_suggestion_step in E1; simpl in E1.
    2:{ intros E. inversion E. subst. exists [], [sg].
        split; [apply prefix_cons, prefix_nil|].
        split; [intros i r Hi; discriminate|].
        split; [apply E1|apply (batch_interrupted_here _ _ _ _ E1)]. }
    assert (Hgo : forall acc',
               acc' = acc ++ option_list o ->
               (forall r, o = Some r ->
                          requiresPostProcessing (metadata r) = true) ->
               sequential_loop acc' rest s1 = (res, s') ->
               exists new called,
                 called `prefix_of` sg :: List.filter has_hint rest
                 /\ (forall i r, new !! i = Some r -> (S i < length new)%nat ->
                                 requiresPostProcessing (metadata r) = true)
                 /\ match res with
                    | Ok out =>
                        out = acc ++ new /\ batch_effect s s' new called
                        /\ (called = sg :: List.filter has_hint rest
                            \/ exists r,
                                 last new = Some r
                                 /\ requiresPostProcessing (metadata r) = false)
                    | Raise e => is_exception e = false
                                 /\ batch_interrupted s s' new called
                    end).
    { intros acc' -> Hp E. apply IH in E.
      destruct E as (new & called & P & L & Hres).
      exists (option_list o ++ new), (sg :: called).
      split; [apply prefix_cons; exact P|]. split.
      - destruct o as [r|]; simpl; [|exact L].
        intros [|i] x Hx Hlen; simpl in *.
        + inversion Hx. subst. apply Hp. reflexivity.
        + apply (L i x Hx). lia.
      - destruct res as [out|e].
        + destruct Hres as (-> & B & Hstop). rewrite <- app_assoc.
          split; [reflexivity|]. split.
          * apply (batch_effect_call sg s s1 s' o); assumption.
          * destruct Hstop as [->|(r & Hlast & Hfinal)]; [left; reflexivity|].
            right. exists r. split; [|exact Hfinal].
            rewrite last_app, Hlast. reflexivity.
        + destruct Hres as [He B]. split; [exact He|].
          apply (batch_interrupted_call sg s s1 s' o); assumption. }
    destruct o as [r|].
    + destruct (requiresPostProcessing (metadata r)) eqn:Hp; simpl.
      * apply Hgo; [reflexivity|]. intros x Hx. inversion Hx. subst. exact Hp.
      * unfold ret. intros E. inversion E. subst. exists [r], [sg].
        split; [apply prefix_cons, prefix_nil|].
        split; [intros [|i] x Hx Hlen; simpl in *; lia|].
        split; [reflexivity|]. split.
        -- eapply (batch_effect_call sg _ _ _ (Some r) [] []);
             [eassumption|apply batch_effect_none].
        -- right. exists r. auto.
    + apply Hgo; [simpl; rewrite app_nil_r; reflexivity|discriminate].
Qed.

(** *** Parallel strategy *)

(** What [gather] on the calls of [sgs] did, however it ended. *)
Lemma gather_suggestions sgs :
  forall (s : State) res s',
    gather (map execute_suggestion sgs) s = (res, s') ->
    match res with
    | Ok outcomes =>
        length outcomes = length sgs
        /\ attempts s' = attempts s ++ map call_of sgs
        /\ results (context s') = results (context s) ++ omap id outcomes
        /\ exists entries,
             errors (context s') = errors (context s) ++ entries
             /\ (length entries + length (omap id outcomes)
                 = length outcomes)%nat
    | Raise e =>
        is_exception e = false
        /\ exists new called,
             called `prefix_of` sgs /\ batch_interrupted s s' new called
    end.
Proof.
  induction sgs as [|sg rest IH]; intros s res s'; simpl.
  - unfold ret. intros E. inversion E. subst. simpl. rewrite !app_nil_r.
    repeat split; auto. exists []. rewrite app_nil_r. auto.
  - unfold bind.
    destruct (execute_suggestion sg s) as [[o|e] s1] eqn:E1;
      apply execute_suggestion_step in E1; simpl in E1.
    2:{ intros E. inversion E. subst. split; [apply E1|].
        exists [], [sg]. split; [apply prefix_cons, prefix_nil|].
        apply (batch_interrupted_here _ _ _ _ E1). }
    destruct (gather (map execute_suggestion rest) s1) as [[os|e] s2] eqn:E2;
      apply IH in E2.
    + unfold ret. intros E. inversion E. subst.
      destruct E2 as (Hlen & Hatt & Hres & es & Herr & Hcount).
      pose proof (tool_step_results _ _ _ _ _ E1) as R1.
      destruct (tool_step_errors _ _ _ _ _ E1) as (e1 & Er1 & C1).
      destruct E1 as [A1 _].
      split; [simpl; lia|]. split.
      { rewrite Hatt, A1, <- app_assoc. reflexivity. }
      split.
      { rewrite Hres, R1, <- app_assoc. f_equal. destruct o; reflexivity. }
      exists (e1 ++ es). split.
      { rewrite Herr, Er1, <- app_assoc. reflexivity. }
      rewrite length_app. destruct o; simpl in *;
        change (list_omap (option Result) Result id os) with (omap id os); lia.
    + intros E. inversion E. subst.
      destruct E2 as (He & new & called & P & B). split; [exact He|].
      exists (option_list o ++ new), (sg :: called).
      split; [apply prefix_cons; exact P|].
      apply (batch_interrupted_call sg s s1 s' o); assumption.
Qed.


(** *** Conditional strategy *)

(** What a run of the conditional loop did, however it ended.  A first
    suggestion that carries a hint and is no Modifier is called first. *)
Lemma conditional_loop_shape tools :
  forall acc (s : State) res s',
    conditional_loop acc tools s = (res, s') ->
    exists new called,
      called `sublist_of` List.filter has_hint tools
      /\ (forall sg0 rest,
            tools = sg0 :: rest -> has_hint sg0 = true ->
            toolType sg0 <> MODIFIER ->
            exists later, called = sg0 :: later)
      /\ match res with
         | Ok out => out = acc ++ new /\ batch_effect s s' new called
         | Raise e => is_exception e = false
                      /\ batch_interrupted s s' new called
         end.
Proof.
  induction tools as [|sg rest IH]; intros acc s res s'; simpl.
  - unfold ret. intros E. inversion E. subst. exists [], [].
    split; [apply sublist_nil_l|]. split; [discriminate|]. rewrite app_nil_r.
    split; [reflexivity|apply batch_effect_none].
  - unfold bind at 1. rewrite _evaluate_condition_eq.
    destruct (has_hint sg) eqn:Hh.
    2:{ rewrite andb_false_r. intros E. apply IH in E.
        destruct E as (new & called & P & _ & Hres).
        exists new, called. split; [exact P|]. split; [|exact Hres].
        intros sg0 rest' Hb Hh0. inversion Hb. subst. congruence. }
    rewrite andb_true_r.
    destruct (negb _) eqn:Hcond.
    2:{ intros E. apply IH in E. destruct E as (new & called & P & _ & Hres).
        exists new, called. split; [apply sublist_cons; exact P|].
        split; [|exact Hres].
        intros sg0 rest' Hb _ Hty. inversion Hb. subst. exfalso.
        destruct (toolType sg0); try discriminate Hcond. contradiction. }
    unfold bind.
    destruct (execute_suggestion sg s) as [[o|e] s1] eqn:E1;
      apply execute_suggestion_step in E1; simpl in E1.
    2:{ intros E. inversion E. subst. exists [], [sg].
        split; [apply sublist_skip, sublist_nil_l|].
        split; [intros sg0 rest' Hb _ _; inversion Hb; eauto|].
        split; [apply E1|apply (batch_interrupted_here _ _ _ _ E1)]. }
    assert (Hgo : conditional_loop (acc ++ option_list o) rest s1 = (res, s') ->
               exists new called,
                 called `sublist_of` sg :: List.filter has_hint rest
                 /\ (forall sg0 rest',
                       sg :: rest = sg0 :: rest' -> has_hint sg0 = true ->
                       toolType sg0 <> MODIFIER ->
                       exists later, called = sg0 :: later)
                 /\ match res with
                    | Ok out => out = acc ++ new /\ batch_effect s s' new called
                    | Raise e => is_exception e = false
                                 /\ batch_interrupted s s' new called
                    end).
    { intros E. apply IH in E. destruct E as (new & called & P & _ & Hres).
      exists (option_list o ++ new), (sg :: called).
      split; [apply sublist_skip; exact P|].
      split; [intros sg0 rest' Hb _ _; inversion Hb; eauto|].
      destruct res as [out|e].
      - destruct Hres as [-> B]. rewrite <- app_assoc. split; [reflexivity|].
        apply (batch_effect_call sg s s1 s' o); assumption.
      - destruct Hres as [He B]. split; [exact He|].
        apply (batch_interrupted_call sg s s1 s' o); assumption. }
    destruct o as [r|]; [exact Hgo|].
    simpl in Hgo. rewrite app_nil_r in Hgo. exact Hgo.
Qed.

(** The loop over a batch is the loop over its front, then over its back. *)
Lemma conditional_loop_app pre :
  forall acc more (s : State),
    conditional_loop acc (pre ++ more) s
    = match conditional_loop acc pre s with
      | (Ok out, s1) => conditional_loop out more s1
      | (Raise e, s1) => (Raise e, s1)
      end.
Proof.
  induction pre as [|sg rest IH]; intros acc more s; [reflexivity|].
  simpl. unfold bind at 1 3. rewrite _evaluate_condition_eq.
  destruct (_ && has_hint sg); [|apply IH].
  unfold bind. destruct (execute_suggestion sg s) as [[o|e] s1];
    [|reflexivity].
  destruct o; apply IH.
Qed.

(** C7. Under the Conditional strategy, take a suggestion [sg] with a
    tool-name hint, standing in its batch after the suggestions [pre],
    whose run left the state [s1].  When [sg] is a Modifier and the most
    recent result in the context does not ask for post-processing, [sg]
    is skipped: the batch runs as it would without [sg], and the batch
    ending at [sg] does what [pre] did and no more.  In every other case,
    so for a Validator, for every type other than Modifier, and for a
    Modifier when there is no result yet or the most recent one asks for
    post-processing, [sg] is executed: its call is the next entry of the
    attempt log after those of [pre], and it leaves its result in
    [context.results] and in the list returned, or an entry in
    [context.errors], or ends the batch with an exception that
    [execute_tool] does not catch. *)
Theorem conditional_policy pre sg rest out1 (s s1 : State) :
  has_hint sg = true ->
  _execute_conditional pre s = (Ok out1, s1) ->
  let recent_is_final :=
    exists l, last (results (context s1)) = Some l
              /\ requiresPostProcessing (metadata l) = false in
  (toolType sg = MODIFIER -> recent_is_final ->
   _execute_conditional (pre ++ sg :: rest) s
   = _execute_conditional (pre ++ rest) s
   /\ _execute_conditional (pre ++ [sg]) s = (Ok out1, s1))
  /\ (toolType sg = VALIDATOR \/ toolType sg <> MODIFIER \/ ~ recent_is_final ->
      exists res2 s2 res s' later,
        execute_suggestion sg s1 = (res2, s2)
        /\ call_effect (fst (call_of sg)) (snd (call_of sg)) s1 res2 s2
        /\ _execute_conditional (pre ++ sg :: rest) s = (res, s')
        /\ attempts s' = attempts s1 ++ call_of sg :: later
        /\ match res2 with
           | Ok o =>
               (exists more,
                  results (context s')
                  = results (context s1) ++ option_list o ++ more)
               /\ forall out, res = Ok out ->
                              exists tail, out = out1 ++ option_list o ++ tail
           | Raise e => res = Raise e /\ s' = s2
           end).
Proof.
  intros Hhint Hpre recent_is_final. unfold _execute_conditional in *.
  assert (Hat : forall more,
             conditional_loop [] (pre ++ sg :: more) s
             = bind (_evaluate_condition sg)
                    (fun b => if b
                              then bind (execute_suggestion sg)
                                        (fun result =>
                                           match result with
                                           | Some r =>
                                               conditional_loop (out1 ++ [r]) more
                                           | None => conditional_loop out1 more
                                           end)
                              else conditional_loop out1 more) s1).
  { intros more. rewrite conditional_loop_app, Hpre. simpl.
    unfold bind at 1 3. rewrite _evaluate_condition_eq, Hhint, andb_true_r.
    reflexivity. }
  split.
  - intros Hty (l & Hlast & Hfinal).
    assert (Hskip : forall more,
               conditional_loop [] (pre ++ sg :: more) s
               = conditional_loop out1 more s1).
    { intros more. rewrite Hat. unfold bind at 1.
      rewrite _evaluate_condition_eq, Hty, Hlast, Hfinal. reflexivity. }
    split.
    + rewrite Hskip, conditional_loop_app, Hpre. reflexivity.
    + rewrite Hskip. reflexivity.
  - intros Hcase.
    assert (Hb : negb (ToolType_eqb (toolType sg) MODIFIER
                       && match last (results (context s1)) with
                          | Some l => negb (requiresPostProcessing (metadata l))
                          | None => false
                          end) = true).
    { destruct (toolType sg) eqn:Hty; try reflexivity. simpl.
      destruct Hcase as [Hv|[Hm|Hn]]; [discriminate|contradiction|].
      destruct (last (results (context s1))) as [l|] eqn:Hlast; [|reflexivity].
      destruct (requiresPostProcessing (metadata l)) eqn:Hp; [reflexivity|].
      exfalso. apply Hn. exists l. auto. }
    rewrite Hat. unfold bind at 1. rewrite _evaluate_condition_eq, Hb.
    unfold bind.
    destruct (execute_suggestion sg s1) as [[o|e] s2] eqn:E2;
      pose proof (execute_suggestion_step _ _ _ _ E2) as Hstep;
      simpl in Hstep.
    2:{ exists (Raise e), s2, (Raise e), s2, [].
        split; [reflexivity|]. split; [exact Hstep|]. split; [reflexivity|].
        destruct Hstep as (_ & A & _). rewrite A.
        split; [reflexivity|split; reflexivity]. }
    assert (Hrest : exists res s' later more,
               conditional_loop (out1 ++ option_list o) rest s2 = (res, s')
               /\ attempts s' = attempts s2 ++ later
               /\ results (context s') = results (context s2) ++ more
               /\ forall out, res = Ok out ->
                              out = (out1 ++ option_list o) ++ more).
    { destruct (conditional_loop (out1 ++ option_list o) rest s2)
        as [res s'] eqn:E3.
      apply conditional_loop_shape in E3.
      destruct E3 as (new & called & _ & _ & Hres).
      exists res, s', (map call_of called), new. split; [reflexivity|].
      destruct res as [out|e].
      - destruct Hres as (-> & R & A & _). repeat split; try assumption.
        intros out' E. inversion E. reflexivity.
      - destruct Hres as (_ & R & A & _). repeat split; try assumption.
        discriminate. }
    destruct Hrest as (res & s' & later & more & E3 & A3 & R3 & Hout).
    exists (Ok o), s2, res, s', later.
    split; [reflexivity|]. split; [exact Hstep|]. split.
    { destruct o as [r|]; [exact E3|].
      simpl in E3. rewrite app_nil_r in E3. exact E3. }
    pose proof (tool_step_results _ _ _ _ _ Hstep) as R2.
    destruct Hstep as [A2 _]. split.
    { rewrite A3, A2, <- app_assoc. reflexivity. }
    split.
    + exists more. rewrite R3, R2, <- app_assoc. reflexivity.
    + intros out E. exists more. rewrite (Hout out E), <- app_assoc.
      reflexivity.
Qed.

(** *** Dispatch *)

Lemma eligible_sublist_hinted tools :
  List.filter parallel_eligible tools `sublist_of` List.filter has_hint tools.
Proof.
  induction tools as [|sg rest IH]; simpl; [apply sublist_nil_l|].
  unfold parallel_eligible at 1.
  destruct (has_hint sg); [|rewrite andb_false_r; exact IH].
  rewrite andb_true_r.
  destruct (_ || _); [apply sublist_skip|apply sublist_cons]; exact IH.
Qed.

Lemma eligible_is_hinted sg :
  parallel_eligible sg = true ->
  has_hint sg = true /\ toolType sg <> MODIFIER.
Proof.
  unfold parallel_eligible. rewrite andb_true_iff.
  intros [Hty Hh]. split; [exact Hh|].
  intros Hm. rewrite Hm in Hty. discriminate Hty.
Qed.

Lemma prefix_first {A : Type} (called : list A) x l :
  called `prefix_of` x :: l -> called <> [] -> exists later, called = x :: later.
Proof.
  intros [k Hk] Hne. destruct called as [|c later]; [contradiction|].
  inversion Hk. eauto.
Qed.

(** What a batch did under a strategy, however it ended.  Under every
    strategy but Interactive, a first suggestion that is a Retriever or an
    Analyzer with a hint is called first. *)
Lemma dispatch_shape strategy tools (s : State) res s' :
  dispatch strategy tools s = (res, s') ->
  exists new called,
    called `sublist_of` List.filter has_hint tools
    /\ (strategy <> INTERACTIVE ->
        forall sg0 rest,
          tools = sg0 :: rest -> parallel_eligible sg0 = true ->
          exists later, called = sg0 :: later)
    /\ match res with
       | Ok out => out = new /\ batch_effect s s' new called
       | Raise e => is_exception e = false
                    /\ batch_interrupted s s' new called
       end.
Proof.
  destruct strategy; simpl.
  - intros E. apply sequential_loop_shape in E.
    destruct E as (new & called & P & _ & Hres).
    exists new, called. split; [|split].
    + destruct P as [k ->]. apply sublist_inserts_r. reflexivity.
    + intros _ sg0 rest -> Hel. apply eligible_is_hinted in Hel.
      destruct Hel as [Hh _]. simpl in P, Hres. rewrite Hh in P, Hres.
      apply (prefix_first _ _ _ P). intros ->.
      destruct res as [out|e].
      * destruct Hres as (_ & (_ & _ & es & _ & L) & [Hall|(r & Hlast & _)]).
        -- discriminate.
        -- simpl in L. destruct new; [discriminate|]. simpl in L. lia.
      * destruct Hres as (_ & _ & _ & es & _ & L). simpl in L. lia.
    + destruct res as [out|e]; [|exact Hres].
      destruct Hres as (-> & B & _). auto.
  - unfold _execute_parallel.
    destruct (List.filter parallel_eligible tools) as [|sg sgs] eqn:Ef.
    + unfold ret. simpl. intros E. inversion E. subst. exists [], [].
      split; [apply sublist_nil_l|]. split.
      * intros _ sg0 rest -> Hel. simpl in Ef. rewrite Hel in Ef.
        discriminate.
      * split; [reflexivity|apply batch_effect_none].
    + cbn [map]. unfold bind.
      destruct (gather (execute_suggestion sg :: map execute_suggestion sgs) s)
        as [[os|e] s1] eqn:G;
        apply (gather_suggestions (sg :: sgs)) in G;
        unfold ret; intros E; inversion E; subst.
      * destruct G as (L & A & R & es & Er & C).
        exists (omap id os), (sg :: sgs).
        split; [rewrite <- Ef; apply eligible_sublist_hinted|]. split.
        { intros _ sg0 rest -> Hel. simpl in Ef. rewrite Hel in Ef.
          inversion Ef. eauto. }
        split; [reflexivity|]. split; [exact R|]. split; [exact A|].
        exists es. split; [exact Er|]. lia.
      * destruct G as (He & new & called & P & B).
        exists new, called. split; [|split; [|split; assumption]].
        -- transitivity (sg :: sgs).
           ++ destruct P as [k ->]. apply sublist_inserts_r. reflexivity.
           ++ rewrite <- Ef. apply eligible_sublist_hinted.
        -- intros _ sg0 rest -> Hel. simpl in Ef. rewrite Hel in Ef.
           inversion Ef. subst. apply (prefix_first _ _ _ P). intros ->.
           destruct B as (_ & _ & es & _ & L). simpl in L. lia.
  - intros E. apply conditional_loop_shape in E.
    destruct E as (new & called & P & Hfirst & Hres). exists new, called.
    split; [exact P|]. split; [|exact Hres].
    intros _ sg0 rest Hb Hel. apply eligible_is_hinted in Hel.
    destruct Hel as [Hh Hty]. eapply Hfirst; eassumption.
  - unfold ret. intros E. inversion E. subst. exists [], [].
    split; [apply sublist_nil_l|]. split; [congruence|].
    split; [reflexivity|apply batch_effect_none].
Qed.

(** A chain only adds to the attempt log. *)
Lemma chain_loop_attempts self strategy filter_func :
  forall fuel acc current chain_length iterations (s s' : State) res,
    chain_loop self strategy filter_func fuel acc current
               chain_length iterations s = (res, s') ->
    exists later, attempts s' = attempts s ++ later.
Proof.
  assert (Hstay : forall (A : Type) (a : A) (s s' : State) r,
             ret a s = (r, s') ->
             exists later, attempts s' = attempts s ++ later).
  { intros A a s s' r E. unfold ret in E. inversion E. exists [].
    rewrite app_nil_r. reflexivity. }
  induction fuel as [|fuel IH]; intros acc current cl it s s' res; simpl.
  - apply Hstay.
  - destruct (Nat.ltb cl (max_chain_length self)); [|apply Hstay].
    destruct (suggestedTools (metadata current)) as [|sg0 sgs]; [apply Hstay|].
    destruct (match filter_func with
              | Some f => List.filter f (sg0 :: sgs)
              | None => sg0 :: sgs
              end) as [|b bs]; [apply Hstay|].
    unfold bind.
    destruct (dispatch strategy (b :: bs) s) as [[next|e] s1] eqn:D;
      apply dispatch_shape in D; destruct D as (new & called & _ & _ & Hres).
    2:{ intros E. inversion E. subst. destruct Hres as (_ & _ & A & _).
        eauto. }
    destruct Hres as (_ & _ & A1 & _).
    destruct (last next).
    2:{ intros E. apply Hstay in E. destruct E as (l2 & A2).
        exists (map call_of called ++ l2). rewrite A2, A1, <- app_assoc.
        reflexivity. }
    intros E. apply IH in E. destruct E as (l2 & A2).
    exists (map call_of called ++ l2). rewrite A2, A1, <- app_assoc.
    reflexivity.
Qed.

(** *** Workflow engine *)

(** C8, as the code has it.  In a workflow of three steps [A; B; C] with
    [B] required, when [A] succeeds and [B], run on the parameters
    threaded through [A], fails, [execute_workflow] returns at once: the
    report has status ["failed"], names [B] as the failed step, lists as
    completed the tool name that [A]'s result carries, and holds the
    error log of the context; [C] is not attempted. *)
Theorem required_step_failure_stops_workflow
  self name A B C params params1 rA (s s1 s2 : State) :
  assoc_get name (workflows self) = Some [A; B; C] ->
  default true (step_required B) = true ->
  execute_tool (step_tool A) (step_parameters params A) s = (Ok (Some rA), s1) ->
  (if truthy (payload rA)
   then params_update params (payload rA) s1 = (Ok params1, s1)
   else params1 = params) ->
  execute_tool (step_tool B) (step_parameters params1 B) s1 = (Ok None, s2) ->
  let report := WorkflowFailed name (step_tool B) [toolName rA]
                               (errors (context s2)) in
  execute_workflow self name params s = (Ok report, s2)
  /\ report_status report = "failed"
  /\ attempts s2 = attempts s ++ [ (step_tool A, step_parameters params A);
                                   (step_tool B, step_parameters params1 B) ].
Proof.
  intros Hname Hreq HA Hthread HB report. split; [|split].
  - unfold execute_workflow. rewrite Hname. simpl.
    unfold bind at 1. rewrite HA. simpl.
    destruct (truthy (payload rA)).
    + unfold bind at 1. rewrite Hthread. unfold bind at 1. rewrite HB.
      rewrite Hreq. reflexivity.
    + subst params1. unfold bind at 1. rewrite HB. rewrite Hreq. reflexivity.
  - reflexivity.
  - apply execute_tool_step in HA, HB. destruct HA as [AA _], HB as [AB _].
    rewrite AB, AA, <- app_assoc. reflexivity.
Qed.

(** *** The orchestrator's hand-off to the chain executor *)

Lemma execute_suggestion_appends sg :
  appends_results (execute_suggestion sg : M _).
Proof.
  intros s r s' E. apply execute_suggestion_step in E.
  destruct r as [o|e]; simpl in E.
  - eexists. eapply tool_step_results. exact E.
  - destruct E as (_ & _ & C). exists []. rewrite C, app_nil_r. reflexivity.
Qed.

Lemma sequential_loop_appends tools :
  forall acc, appends_results (sequential_loop acc tools : M _).
Proof.
  induction tools as [|sg rest IH]; intros acc s r s'; simpl.
  - unfold ret. intros E. inversion E. exists []. rewrite app_nil_r. reflexivity.
  - destruct (negb (has_hint sg)); [apply IH|].
    unfold bind.
    destruct (execute_suggestion sg s) as [[o|e] s1] eqn:E1.
    2:{ intros E. inversion E. subst. eapply execute_suggestion_appends; eauto. }
    apply execute_suggestion_appends in E1. destruct E1 as (m1 & R1).
    assert (Hrest : forall acc', sequential_loop acc' rest s1 = (r, s') ->
              exists more, results (context s') = results (context s) ++ more).
    { intros acc' E. apply IH in E. destruct E as (m2 & R2).
      exists (m1 ++ m2). rewrite R2, R1, <- app_assoc. reflexivity. }
    destruct o as [t|]; [|apply Hrest].
    destruct (negb (requiresPostProcessing (metadata t))); [|apply Hrest].
    unfold ret. intros E. inversion E. subst. eauto.
Qed.

Lemma sequential_chain_appends self :
  forall fuel acc current chain_length iterations,
    appends_results
      (chain_loop self SEQUENTIAL None fuel acc current chain_length iterations
       : M _).
Proof.
  assert (Hstay : forall (A : Type) (a : A) (s s' : State) r,
             ret a s = (r, s') ->
             exists more, results (context s') = results (context s) ++ more).
  { intros A a s s' r E. unfold ret in E. inversion E. exists [].
    rewrite app_nil_r. reflexivity. }
  induction fuel as [|fuel IH]; intros acc current cl it s r s'; simpl.
  - apply Hstay.
  - destruct (Nat.ltb cl (max_chain_length self)); [|apply Hstay].
    destruct (suggestedTools (metadata current)) as [|sg0 sgs]; [apply Hstay|].
    unfold bind.
    destruct (_execute_sequential (sg0 :: sgs) s) as [[next|e] s1] eqn:E1.
    2:{ intros E. inversion E. subst. eapply sequential_loop_appends; eauto. }
    apply sequential_loop_appends in E1. destruct E1 as (m1 & R1).
    destruct (last next); [|intros E; apply Hstay in E;
                            destruct E as (m2 & R2); exists (m1 ++ m2);
                            rewrite R2, R1, <- app_assoc; reflexivity].
    intros E. apply IH in E. destruct E as (m2 & R2).
    exists (m1 ++ m2). rewrite R2, R1, <- app_assoc. reflexivity.
Qed.

Lemma summary_of (s : State) :
  exists now w,
    get_execution_summary s
    = (Ok {| sum_execution_id := execution_id (context s);
             sum_conversation_id := conversation_id (context s);
             sum_start_time := isoformat (start_time (context s));
             sum_duration := seconds_between (start_time (context s)) now;
             total_tools_executed := length (results (context s));
             sum_errors := length (errors (context s));
             successful := Nat.eqb (length (errors (context s))) 0;
             tool_chain := map toolName (results (context s)) |},
       in_world w s).
Proof.
  unfold get_execution_summary, bind, get_context, external, ret. simpl.
  destruct (utcnow (world s)) as [now w]. eauto.
Qed.

(** [execute_chain] returns, or was ended by an exception that is not an
    [Exception]; in both cases it has only added to the attempt log, and,
    under the Sequential strategy without a filter, only appended to
    [context.results], the initial result first. *)
Lemma execute_chain_outcome self initial strategy filter_func (s : State) :
  exists res s',
    execute_chain self initial strategy filter_func s = (res, s')
    /\ match res with
       | Ok _ => True
       | Raise e => is_exception e = false
       end
    /\ (exists later, attempts s' = attempts s ++ later)
    /\ (strategy = SEQUENTIAL -> filter_func = None ->
        exists more,
          results (context s') = results (context s) ++ initial :: more).
Proof.
  unfold execute_chain, execute_chain_fuel.
  unfold bind, add_result, get_context, set_context. cbn -[chain_loop].
  match goal with |- context [chain_loop ?c ?st ?ff ?f ?a ?cur ?cl ?it ?s0] =>
    destruct (chain_loop_enough_fuel c st ff f a cur cl it s0)
      as (res & s' & E & Hres); [lia|];
    assert (Happ : st = SEQUENTIAL -> ff = None ->
              exists more, results (context s') = results (context s0) ++ more);
    [|pose proof (chain_loop_attempts c st ff f a cur cl it s0 s' res E) as Hatt]
  end.
  { intros -> ->. eapply sequential_chain_appends. exact E. }
  rewrite E. simpl in Happ, Hatt.
  assert (Hmore : strategy = SEQUENTIAL -> filter_func = None ->
            exists more,
              results (context s') = results (context s) ++ initial :: more).
  { intros Hs Hf. destruct (Happ Hs Hf) as (more & R). exists more.
    rewrite R, <- app_assoc. reflexivity. }
  destruct res as [out|e].
  - unfold ret. eexists _, _. split; [reflexivity|]. auto.
  - eexists _, _. split; [reflexivity|]. auto.
Qed.

(** C2: what the hand-off does.  Each call of [execute_tool] appends one
    result or one error ([execute_tool_step]); but when the orchestrator's
    initial tool succeeds with [requiresPostProcessing] set, so that its
    result goes to the chain executor, [execute_chain] appends that result
    a second time: [context.results] then opens with the initial result
    twice, and the report, when the chain has returned, counts it twice
    and says a chain was executed. *)
Theorem handoff_records_initial_result_twice
  self request user conversation intent r (s s0 s1 : State) :
  classify_intent request = Some intent ->
  new_context user conversation s = (Ok tt, s0) ->
  execute_tool (intent_name intent) ∅ s0 = (Ok (Some r), s1) ->
  requiresPostProcessing (metadata r) = true ->
  exists res s' more,
    execute_request self request user conversation s = (res, s')
    /\ results (context s') = r :: r :: more
    /\ match res with
       | Ok report =>
           exists summary,
             report = RequestCompleted (toolName r) true (2 + length more)
                                       summary (last (r :: r :: more))
       | Raise e => is_exception e = false
       end.
Proof.
  intros Hclass Hnew Hexec Hpost.
  destruct (new_context_fresh user conversation s) as (s0' & E0 & R0 & _).
  rewrite Hnew in E0. inversion E0. subst s0'.
  pose proof (execute_tool_step _ _ _ _ _ Hexec) as St. simpl in St.
  apply tool_step_results in St. rewrite R0 in St. simpl in St.
  unfold execute_request. unfold bind at 1. rewrite Hnew, Hclass.
  unfold bind at 1. rewrite Hexec, Hpost.
  unfold bind at 1. unfold bind at 1.
  destruct (execute_chain_outcome (chain_executor self) r SEQUENTIAL None s1)
    as (res & s2 & -> & Hres & _ & Hmore).
  destruct (Hmore eq_refl eq_refl) as (more & R2).
  rewrite St in R2. simpl in R2.
  destruct res as [rs|e].
  - unfold ret at 1.
    unfold get_last_result, bind, get_context, ret. simpl.
    destruct (summary_of s2) as (now & w & ->).
    eexists _, _, more. split; [reflexivity|]. simpl.
    split; [exact R2|]. rewrite R2. eexists. reflexivity.
  - eexists _, _, more. split; [reflexivity|]. split; [exact R2|exact Hres].
Qed.

(** *** Serialisation *)

Lemma v_each_strings loc (l : list string) :
  v_each (v_str loc) (map JStr l) = Valid l.
Proof.
  induction l as [|x l IH]; simpl; [reflexivity|]. rewrite IH. reflexivity.
Qed.

Lemma v_UserContextInfo_dump loc u :
  v_UserContextInfo loc (dump_UserContextInfo u) = Valid u.
Proof. destruct u. reflexivity. Qed.

Lemma v_ContentSummary_dump loc c :
  v_ContentSummary loc (dump_ContentSummary c) = Valid c.
Proof.
  destruct c as [fs rc]. unfold v_ContentSummary, dump_ContentSummary.
  unfold defaulted. simpl. rewrite v_each_strings. reflexivity.
Qed.

Lemma v_SuggestedToolReference_dump loc sg :
  v_SuggestedToolReference loc (dump_SuggestedToolReference sg) = Valid sg.
Proof.
  destruct sg as [t h r p l].
  destruct t, h, r, p, l; reflexivity.
Qed.

Lemma v_each_suggestions loc (l : list SuggestedToolReference) :
  v_each (v_SuggestedToolReference loc) (map dump_SuggestedToolReference l)
  = Valid l.
Proof.
  induction l as [|x l IH]; [reflexivity|].
  cbn [map v_each]. rewrite v_SuggestedToolReference_dump, IH. reflexivity.
Qed.

Lemma v_ToolMetadata_dump loc m :
  v_ToolMetadata loc (dump_ToolMetadata m) = Valid m.
Proof.
  destruct m as [dt ds it de ac pp st cs cf].
  unfold v_ToolMetadata, dump_ToolMetadata.
  cbn [dataType dataSize intent description accessibility
       requiresPostProcessing suggestedTools contentSummary confidence].
  destruct cs as [c|]; unfold required, defaulted, optional;
    cbn -[v_ContentSummary dump_ContentSummary
          v_SuggestedToolReference dump_SuggestedToolReference];
    rewrite v_each_suggestions; cbn -[v_ContentSummary dump_ContentSummary].
  - rewrite v_ContentSummary_dump. reflexivity.
  - reflexivity.
Qed.

(** Reading back what [to_json] wrote, when the datetime text reads back:
    the result itself, unless its payload is [None]; then the member
    ["payload"] was left out and validation fails on the required field.
    The default factories are not run: the state is unchanged. *)
Lemma from_json_of_to_json (r : Result) (s : State) :
  (forall t, parse_datetime (isoformat t) = Some t) ->
  from_json (to_json r) s =
  match payload r with
  | JNull => (Raise (PydanticValidationError (FieldRequired "payload")), s)
  | _ => (Ok r, s)
  end.
Proof.
  intros Hiso.
  destruct r as [rid tn ts cid mid uc md pl si par].
  unfold from_json, to_json, model_validate, model_dump.
  cbn [toolResultId toolName timestamp conversationId conversationMessageId
       userContext metadata payload stepIndex parentToolResultId].
  destruct cid, mid, uc, par, pl;
    unfold member_or_factory, v_ToolResult_fields, required, defaulted,
           optional, bind, ret, raise;
    cbn -[v_ToolMetadata dump_ToolMetadata
          v_UserContextInfo dump_UserContextInfo];
    rewrite ?Hiso;
    cbn -[v_ToolMetadata dump_ToolMetadata
          v_UserContextInfo dump_UserContextInfo];
    rewrite ?v_UserContextInfo_dump, ?v_ToolMetadata_dump;
    reflexivity.
Qed.

(** C9: what the round trip does.  When the datetime text reads back, a
    [ToolResult] whose payload is not [None] comes back from
    [from_json (to_json r)] equal field for field; one whose payload is
    [None] does not come back at all: [to_json] leaves the member
    ["payload"] out and [from_json] raises on the required field. *)
Theorem json_round_trip_but_for_none_payload (r : Result) (s : State) :
  (forall t, parse_datetime (isoformat t) = Some t) ->
  (payload r <> JNull -> from_json (to_json r) s = (Ok r, s))
  /\ (payload r = JNull ->
      from_json (to_json r) s
        = (Raise (PydanticValidationError (FieldRequired "payload")), s)).
Proof.
  intros Hiso. rewrite (from_json_of_to_json r s Hiso).
  split; intros Hp.
  - destruct (payload r); [contradiction|reflexivity..].
  - rewrite Hp. reflexivity.
Qed.

End Properties.

(* ================================================================== *)
(** ** The properties on the scripted transport *)
(* ================================================================== *)

Lemma scripted_datetime_reads_back (t : nat) :
  parse_datetime (isoformat t) = Some t.
Proof.
  simpl. unfold read_nat, nat_text.
  rewrite NilZero.usu.
  - simpl. rewrite Unsigned.of_to. reflexivity.
  - intros E. pose proof (Unsigned.of_to t) as R.
    rewrite E in R. simpl in R. subst t. discriminate E.
Qed.

Lemma execute_chain_terminates_within_bound_witness :
  (max_chain_length ToolChainExecutor_init < 11)%nat
  /\ max_chain_length ToolChainExecutor_init = 10%nat
  /\ exists rs n s',
       execute_chain_fuel ToolChainExecutor_init 11 cyclic_result
                          SEQUENTIAL None (start cyclic_server)
         = (Ok (Some (rs, n)), s')
       /\ (n <= max_chain_length ToolChainExecutor_init)%nat.
Proof.
  split; [simpl; lia|].
  destruct (execute_chain_terminates_within_bound
              ToolChainExecutor_init cyclic_result SEQUENTIAL None 11%nat
              (start cyclic_server))
    as (Hbound & res & s' & E & Hres); [simpl; lia|].
  split; [exact Hbound|].
  destruct res as [out|e].
  - destruct Hres as (rs & n & -> & Hn). exists rs, n, s'. auto.
  - exfalso. vm_compute in E. discriminate E.
Defined.

(** In the cycle the bound is met: ten iterations, ten follow-up calls. *)
Example cycle_runs_ten_iterations :
  let '(out, s') := execute_chain_fuel ToolChainExecutor_init 11 cyclic_result
                                       SEQUENTIAL None (start cyclic_server) in
  option_map snd (match out with Ok o => o | Raise _ => None end) = Some 10%nat
  /\ length (attempts s') = 10%nat
  /\ length (results (context s')) = 11%nat.
Proof. vm_compute. auto. Qed.

Lemma unknown_workflow_raises_witness :
  assoc_get "deploy" (workflows (workflow_engine ToolOrchestrator_init)) = None
  /\ execute_workflow (workflow_engine ToolOrchestrator_init) "deploy" ∅
                      (start cyclic_server)
     = (Raise (ValueError "Unknown workflow: deploy"), start cyclic_server).
Proof.
  split; [reflexivity|].
  apply (unknown_workflow_raises ToolOrchestrator_init "deploy" ∅ "user" None
           (start cyclic_server)).
  reflexivity.
Defined.

(** C3 as stated fails: for the unregistered name ["deploy"] the
    orchestrator's [execute_workflow] returns no report, it raises. *)
Lemma unknown_workflow_is_not_a_report :
  ~ exists report s',
      orchestrator_execute_workflow ToolOrchestrator_init "deploy" ∅ "user" None
                                    (start cyclic_server)
      = (Ok report, s').
Proof.
  intros (report & s' & E). vm_compute in E. discriminate E.
Qed.

Lemma execute_tool_outcomes_witness :
  (exists s',
     execute_tool "check_status" ∅ (start mixed_server)
       = (Ok (Some (result_of "check_status" false [] (JObj []))), s'))
  /\ (exists s',
        execute_tool "merge_branches" ∅ (start mixed_server) = (Ok None, s')
        /\ errors (context s')
           = [[("tool", "merge_branches"); ("error", "HTTP 500");
               ("details", "body")]])
  /\ (exists s',
        execute_tool "push_changes" ∅ (start mixed_server) = (Ok None, s')
        /\ errors (context s')
           = [[("tool", "push_changes"); ("error", "timed out");
               ("type", "TimeoutError")]]).
Proof.
  split; [|split].
  - destruct (execute_tool_outcomes "check_status" ∅ (start mixed_server))
      as (Hok & _ & _ & _).
    eexists. eapply Hok; reflexivity.
  - destruct (execute_tool_outcomes "merge_branches" ∅ (start mixed_server))
      as (_ & Hstatus & _ & _).
    eexists. split; [eapply Hstatus; [reflexivity|discriminate]|reflexivity].
  - destruct (execute_tool_outcomes "push_changes" ∅ (start mixed_server))
      as (_ & _ & Hraise & _).
    eexists. split; [eapply Hraise; reflexivity|reflexivity].
Defined.

(** A call that is cancelled is not caught: [execute_tool] raises, and
    the call has left neither a result nor an entry. *)
Example cancelled_call_propagates :
  let '(res, s') := execute_tool "list_files" ∅ (start cancelling_server) in
  res = Raise CancelledError
  /\ results (context s') = []
  /\ errors (context s') = []
  /\ map fst (attempts s') = ["list_files"].
Proof. vm_compute. auto. Qed.

(** C4 as stated fails: the transport answers [create_repository] with
    status 201, a 2xx status, and a valid body; [execute_tool] returns no
    result, and the entry it records has no kind. *)
Lemma status_201_is_a_failure :
  let s := start created_server in
  (exists resp w,
     transport_call "create_repository" ∅ s = Some (Responds resp, w)
     /\ status_code resp = 201
     /\ 200 <= status_code resp < 300)
  /\ exists s',
       execute_tool "create_repository" ∅ s = (Ok None, s')
       /\ results (context s') = []
       /\ errors (context s')
          = [[("tool", "create_repository"); ("error", "HTTP 201");
              ("details", "body")]]
       /\ assoc_get "type" (http_error "create_repository"
                              {| status_code := 201; text := "body";
                                 json_body := inr JNull |}) = None.
Proof.
  split.
  - eexists _, _. split; [reflexivity|]. simpl. lia.
  - eexists. split; [reflexivity|]. simpl. auto.
Qed.

Lemma sequential_stops_at_terminal_result_witness :
  let A := suggest ANALYZER "check_status" in
  let B := suggest RETRIEVER "list_files" in
  has_hint A = true
  /\ exists s',
       _execute_sequential ([unnamed MODIFIER] ++ A :: [B]) (start mixed_server)
         = (Ok [result_of "check_status" false [] (JObj [])], s')
       /\ attempts s' = attempts (start mixed_server) ++ [call_of A].
Proof.
  split; [reflexivity|]. eexists.
  apply (sequential_stops_at_terminal_result
           [unnamed MODIFIER] (suggest ANALYZER "check_status")
           [suggest RETRIEVER "list_files"]
           (result_of "check_status" false [] (JObj []))
           (start mixed_server));
    reflexivity.
Defined.

(** The batch of the specification: of [Retriever X; Modifier Y;
    Analyzer Z], the calls made are those of [X] and [Z]. *)
Example parallel_batch_of_three :
  let '(out, s') :=
    _execute_parallel [ suggest RETRIEVER "list_files";
                        suggest MODIFIER "merge_branches";
                        suggest ANALYZER "check_status" ]
                      (start mixed_server) in
  map fst (attempts s') = ["list_files"; "check_status"]
  /\ out = Ok [ result_of "list_files" true [] (JObj []);
                result_of "check_status" false [] (JObj []) ].
Proof. vm_compute. auto. Qed.

Lemma conditional_policy_witness :
  let pre := [suggest ANALYZER "check_status"] in
  let modifier := suggest MODIFIER "merge_branches" in
  let validator := suggest VALIDATOR "list_files" in
  let s := start mixed_server in
  has_hint modifier = true
  /\ _execute_conditional (pre ++ [modifier; validator]) s
     = _execute_conditional (pre ++ [validator]) s
  /\ exists res s' later,
       _execute_conditional (pre ++ [validator]) s = (res, s')
       /\ map fst (attempts s') = "check_status" :: "list_files" :: later.
Proof.
  intros pre modifier validator s.
  pose (out1 := [result_of "check_status" false [] (JObj [])]).
  pose (s1 := snd (_execute_conditional pre s)).
  split; [reflexivity|]. split.
  - pose proof (conditional_policy pre modifier [validator] out1 s s1) as P.
    cbv zeta in P. destruct P as [Hskip _];
      [reflexivity|vm_compute; reflexivity|].
    apply Hskip; [reflexivity|]. eexists. split; reflexivity.
  - pose proof (conditional_policy pre validator [] out1 s s1) as P.
    cbv zeta in P. destruct P as [_ Hrun];
      [reflexivity|vm_compute; reflexivity|].
    destruct Hrun as (res2 & s2 & res & s' & later & _ & _ & E & A & _);
      [left; reflexivity|].
    exists res, s', (map fst later). split; [exact E|].
    rewrite A. reflexivity.
Defined.

(** The Modifier after a final result leaves no trace; the Validator is
    called. *)
Example conditional_batch_of_three :
  let '(out, s') :=
    _execute_conditional [ suggest ANALYZER "check_status";
                           suggest MODIFIER "merge_branches";
                           suggest VALIDATOR "list_files" ]
                         (start mixed_server) in
  map fst (attempts s') = ["check_status"; "list_files"]
  /\ errors (context s') = []
  /\ out = Ok [ result_of "check_status" false [] (JObj []);
                result_of "list_files" true [] (JObj []) ].
Proof. vm_compute. auto. Qed.

Lemma required_step_failure_stops_workflow_witness :
  assoc_get "branch_and_commit" (workflows branch_engine)
    = Some [branch_step; files_step; commit_step]
  /\ default true (step_required files_step) = true
  /\ exists s2,
       execute_workflow branch_engine "branch_and_commit" ∅ (start app_server)
       = (Ok (WorkflowFailed "branch_and_commit" "add_multiple_files"
                             ["create_local_branch"] (errors (context s2))),
          s2)
       /\ map fst (attempts s2) = ["create_branch"; "add_multiple_files"].
Proof.
  split; [reflexivity|]. split; [reflexivity|].
  pose (rA := result_of "create_local_branch" false []
                        (JObj [("branch", JStr "feature")])).
  pose (params1 := dict_update ∅ [("branch", JStr "feature")]).
  pose (s1 := snd (execute_tool "create_branch" ∅ (start app_server))).
  pose (s2 := snd (execute_tool "add_multiple_files"
                                (step_parameters params1 files_step) s1)).
  destruct (required_step_failure_stops_workflow
              branch_engine "branch_and_commit"
              branch_step files_step commit_step ∅ params1 rA
              (start app_server) s1 s2)
    as (Hrun & _ & Hattempts); try reflexivity.
  exists s2. split; [exact Hrun|]. rewrite Hattempts. reflexivity.
Defined.

(** C8 as stated fails on the names: the step [create_branch] succeeds,
    the required step [add_multiple_files] fails, and the report lists as
    completed the name the result carries, [create_local_branch], not the
    name of the step. *)
Lemma completed_steps_are_reported_names :
  exists error_log s',
    execute_workflow branch_engine "branch_and_commit" ∅ (start app_server)
    = (Ok (WorkflowFailed "branch_and_commit" "add_multiple_files"
                          ["create_local_branch"] error_log), s')
    /\ map fst (attempts s') = [step_tool branch_step; step_tool files_step]
    /\ map toolName (results (context s')) = ["create_local_branch"]
    /\ ["create_local_branch"] <> [step_tool branch_step].
Proof.
  pose (s' := snd (execute_workflow branch_engine "branch_and_commit" ∅
                                    (start app_server))).
  exists (errors (context s')), s'.
  split; [vm_compute; reflexivity|].
  split; [vm_compute; reflexivity|].
  split; [vm_compute; reflexivity|].
  discriminate.
Qed.

Lemma handoff_records_initial_result_twice_witness :
  let r := result_of "create_repository" true [] (JObj []) in
  classify_intent "create repository" = Some create_repository_intent
  /\ requiresPostProcessing (metadata r) = true
  /\ exists res s' more,
       execute_request ToolOrchestrator_init "create repository" "user" None
                       (start handoff_server) = (res, s')
       /\ results (context s') = r :: r :: more.
Proof.
  split; [reflexivity|]. split; [reflexivity|].
  destruct (handoff_records_initial_result_twice
              ToolOrchestrator_init "create repository" "user" None
              create_repository_intent
              (result_of "create_repository" true [] (JObj []))
              (start handoff_server)
              (snd (new_context "user" None (start handoff_server)))
              (snd (execute_tool "create_repository" ∅
                      (snd (new_context "user" None (start handoff_server))))))
    as (res & s' & more & E & R & _); try reflexivity.
  exists res, s', more. auto.
Defined.

(** One tool was executed, once; the context holds its result twice, and
    the report counts two tools and says a chain was executed. *)
Example one_call_counted_twice :
  let '(report, s') :=
    execute_request ToolOrchestrator_init "create repository" "user" None
                    (start handoff_server) in
  map fst (attempts s') = ["create_repository"]
  /\ map toolName (results (context s'))
     = ["create_repository"; "create_repository"]
  /\ match report with
     | Ok (RequestCompleted tool chained total _ _) =>
         tool = "create_repository" /\ chained = true /\ total = 2%nat
     | _ => False
     end.
Proof. vm_compute. auto. Qed.

Lemma json_round_trip_but_for_none_payload_witness :
  payload empty_result = JNull
  /\ obj_get "payload" match to_json empty_result with
                       | JObj members => members
                       | _ => []
                       end = None
  /\ from_json (to_json empty_result) (start cyclic_server)
     = (Raise (PydanticValidationError (FieldRequired "payload")),
        start cyclic_server).
Proof.
  split; [reflexivity|]. split; [reflexivity|].
  apply (json_round_trip_but_for_none_payload
           empty_result (start cyclic_server) scripted_datetime_reads_back).
  reflexivity.
Defined.

(* ================================================================== *)
(** ** Further properties of the engine, the classifier and the
       contract helpers *)
(* ================================================================== *)

Section Coverage.

Context {datetime World : Type} `{Collaborators datetime World}.

Abbreviation State := (@State datetime World).
Abbreviation M := (@M datetime World).
Abbreviation Result := (ToolResult datetime).

(** *** Dicts *)





(** *** The invoker *)

(** X2. A tool name the registry does not know never reaches the transport:
    the world is untouched (no message id drawn, no request made), no
    result is returned, and the one entry recorded reads
    [{tool, error: "Unknown tool: <name>", type: "ValueError"}]. *)
Theorem unknown_tool_never_reaches_transport name params (s : State) :
  get_intent_by_name name = None ->
  exists s',
    execute_tool name params s = (Ok None, s')
    /\ world s' = world s
    /\ results (context s') = results (context s)
    /\ errors (context s')
       = errors (context s)
         ++ [[ ("tool", name);
               ("error", ("Unknown tool: " ++ name)%string);
               ("type", "ValueError") ]].
Proof.
  intros Hname. rewrite execute_tool_eq. unfold transport_call.
  rewrite Hname. cbv zeta. eexists. split; [reflexivity|]. simpl. auto.
Qed.

(** X3. [get_last_result] after a call of [execute_tool]: the result of the
    call when it succeeded, and what it was before when the call failed.
    On a context without results it is [None]. *)
Theorem last_result_is_latest_success name params (s s' : State) o :
  execute_tool name params s = (Ok o, s') ->
  get_last_result s'
  = (Ok (match o with
         | Some r => Some r
         | None => last (results (context s))
         end), s')
  /\ (results (context s) = [] -> get_last_result s = (Ok None, s)).
Proof.
  intros E. apply execute_tool_step in E. simpl in E.
  apply tool_step_results in E.
  unfold get_last_result, bind, get_context, ret. simpl. split.
  - rewrite E. destruct o as [r|]; simpl.
    + rewrite last_snoc. reflexivity.
    + rewrite app_nil_r. reflexivity.
  - intros ->. reflexivity.
Qed.

(** X4. Status 200 alone is not success.  When the transport answers 200
    but [response.json()] raises an [Exception], or the body does not
    validate as a [ToolResult], [execute_tool] returns no result, leaves
    [context.results] as it was and records one entry carrying the
    exception; for a body that does not validate its type is
    [ValidationError]. *)
Theorem unreadable_answer_is_an_error name params (s : State) resp w :
  transport_call name params s = Some (Responds resp, w) ->
  status_code resp = 200 ->
  (forall e,
     json_body resp = inl e ->
     is_exception e = true ->
     exists s',
       execute_tool name params s = (Ok None, s')
       /\ results (context s') = results (context s)
       /\ errors (context s') = errors (context s) ++ [raised_error name e])
  /\ (forall body e s1,
        json_body resp = inr body ->
        model_validate body (in_world w (after_attempt name params s))
          = (Raise e, s1) ->
        exists s',
          execute_tool name params s = (Ok None, s')
          /\ results (context s') = results (context s)
          /\ errors (context s') = errors (context s) ++ [raised_error name e]
          /\ exn_type e = "ValidationError").
Proof.
  intros Hcall Hstatus. split.
  - intros e Hbody He. rewrite execute_tool_eq, Hcall. cbv zeta.
    rewrite Hstatus, Hbody. simpl. unfold handled. rewrite He.
    eexists. split; [reflexivity|]. simpl. auto.
  - intros body e s1 Hbody Hvalid. rewrite execute_tool_eq, Hcall. cbv zeta.
    rewrite Hstatus, Hbody, Hvalid. simpl.
    eexists. split; [reflexivity|]. simpl.
    destruct (model_validate_raises _ _ _ _ Hvalid) as [v ->].
    apply model_validate_world_only in Hvalid. destruct Hvalid as [C _].
    simpl in C. rewrite C. auto.
Qed.

(** *** The classifier *)

Lemma assoc_get_key {V : Type} (key : V -> string) (items : list (string * V)) :
  forallb (fun kv => String.eqb (fst kv) (key (snd kv))) items = true ->
  forall k v, assoc_get k items = Some v -> key v = k.
Proof.
  induction items as [|[k' v'] rest IH]; intros Hall k v; simpl; [discriminate|].
  simpl in Hall. apply andb_true_iff in Hall. destruct Hall as [Hk Hrest].
  destruct (String.eqb_spec k' k) as [->|Hne].
  - intros E. inversion E. subst. apply String.eqb_eq in Hk. auto.
  - apply IH. exact Hrest.
Qed.

Lemma registry_keys_are_names name i :
  get_intent_by_name name = Some i -> intent_name i = name.
Proof.
  apply (assoc_get_key intent_name INTENT_CLASSIFICATIONS). reflexivity.
Qed.

Lemma first_match_registered q table i :
  first_match q table = Some i -> get_intent_by_name (intent_name i) = Some i.
Proof.
  induction table as [|[keywords name] rest IH]; simpl; [discriminate|].
  destruct (forallb _ keywords); [|exact IH].
  intros E. rewrite (registry_keys_are_names _ _ E). exact E.
Qed.

(** X5. Whatever the classifier returns is the registry's entry for the
    name it carries: a classified request never meets "Unknown tool" in
    [execute_tool]. *)
Theorem classified_intent_is_registered q i :
  classify_intent q = Some i ->
  get_intent_by_name (intent_name i) = Some i.
Proof. apply first_match_registered. Qed.

Lemma first_match_some q table :
  Forall (fun rule => is_Some (get_intent_by_name (snd rule))) table ->
  Exists (fun rule => forallb (fun keyword => contains keyword q) (fst rule)
                      = true) table ->
  is_Some (first_match q table).
Proof.
  induction table as [|[keywords name] rest IH]; intros Hreg Hex.
  - inversion Hex.
  - simpl. inversion Hreg as [|? ? Hname Hrest]. subst.
    destruct (forallb _ keywords) eqn:Hk; [exact Hname|].
    apply IH; [exact Hrest|]. inversion Hex as [? ? Hhere|? ? Hlater]; subst.
    + simpl in Hhere. congruence.
    + exact Hlater.
Qed.

Lemma keyword_rules_registered :
  Forall (fun rule => is_Some (get_intent_by_name (snd rule))) keyword_intent_map.
Proof.
  unfold keyword_intent_map.
  repeat (apply Forall_cons; split; [eexists; reflexivity|]).
  apply Forall_nil. exact I.
Qed.

(** X6. The keys written [("status")] and [("gitignore")] are strings, so
    their rules test single characters: a request that contains the
    letters s, t, a and u anywhere, in any order and any case, is always
    classified, and so is one that contains g, i, t, n, o, r and e. *)
Theorem scattered_letters_classify q :
  (forallb (fun c => contains c (lower q)) ["s"; "t"; "a"; "u"] = true
   \/ forallb (fun c => contains c (lower q))
              ["g"; "i"; "t"; "n"; "o"; "r"; "e"] = true) ->
  is_Some (classify_intent q).
Proof.
  intros Hletters. unfold classify_intent.
  apply first_match_some; [apply keyword_rules_registered|].
  apply Exists_exists. destruct Hletters as [Hs|Hg].
  - exists (["s"; "t"; "a"; "t"; "u"; "s"], "check_status"). split.
    + unfold keyword_intent_map. set_solver.
    + simpl in *. repeat (apply andb_true_iff in Hs; destruct Hs as [? Hs]).
      repeat (apply andb_true_iff; split); auto.
  - exists (["g"; "i"; "t"; "i"; "g"; "n"; "o"; "r"; "e"], "generate_gitignore").
    split.
    + unfold keyword_intent_map. set_solver.
    + simpl in *. repeat (apply andb_true_iff in Hg; destruct Hg as [? Hg]).
      repeat (apply andb_true_iff; split); auto.
Qed.

(** *** The strategies *)

(** X7. Whatever the strategy, the tools a batch calls are those of
    suggestions that carry a tool-name hint, each at most once and in the
    order of the batch; under every strategy but Interactive, a first
    suggestion that is a Retriever or an Analyzer with a hint is called,
    and called first.  When the batch returns, every call has ended
    either in one returned result or in one entry of [context.errors].
    The batch raises only when a call was ended by an exception that is
    not an [Exception], which [execute_tool] does not catch; under the
    Sequential and Conditional strategies that call is then the last one
    made, and the only one that left neither a result nor an entry. *)
Theorem strategies_call_hinted_suggestions_in_order strategy batch (s : State) :
  exists res s' called,
    dispatch strategy batch s = (res, s')
    /\ attempts s' = attempts s ++ map call_of called
    /\ called `sublist_of` List.filter has_hint batch
    /\ (strategy <> INTERACTIVE ->
        forall sg0 rest,
          batch = sg0 :: rest ->
          has_hint sg0 = true ->
          toolType sg0 = RETRIEVER \/ toolType sg0 = ANALYZER ->
          exists later, called = sg0 :: later)
    /\ match res with
       | Ok out =>
           exists entries,
             errors (context s') = errors (context s) ++ entries
             /\ (length entries + length out = length called)%nat
       | Raise e =>
           is_exception e = false
           /\ (strategy <> PARALLEL ->
               exists new entries,
                 results (context s') = results (context s) ++ new
                 /\ errors (context s') = errors (context s) ++ entries
                 /\ (length entries + length new + 1 = length called)%nat)
       end.
Proof.
  destruct (dispatch strategy batch s) as [res s'] eqn:E.
  apply dispatch_shape in E. destruct E as (new & called & P & Hfirst & Hres).
  exists res, s', called. split; [reflexivity|].
  assert (Hfirst' : strategy <> INTERACTIVE ->
            forall sg0 rest,
              batch = sg0 :: rest ->
              has_hint sg0 = true ->
              toolType sg0 = RETRIEVER \/ toolType sg0 = ANALYZER ->
              exists later, called = sg0 :: later).
  { intros Hs sg0 rest Hb Hh Hty. apply (Hfirst Hs sg0 rest Hb).
    unfold parallel_eligible. rewrite Hh.
    destruct Hty as [->| ->]; reflexivity. }
  destruct res as [out|e].
  - destruct Hres as (-> & _ & A & Herr). auto.
  - destruct Hres as (He & R & A & es & Er & L).
    split; [exact A|]. split; [exact P|]. split; [exact Hfirst'|].
    split; [exact He|]. intros _. exists new, es. auto.
Qed.


(** *** The chain *)

Lemma dispatch_hintless strategy batch (s : State) :
  Forall (fun sg => has_hint sg = false) batch ->
  dispatch strategy batch s = (Ok [], s).
Proof.
  intros Hall. destruct strategy; simpl.
  - unfold _execute_sequential. generalize (@nil Result).
    induction Hall as [|sg rest Hsg _ IH]; intros acc; simpl; [reflexivity|].
    rewrite Hsg. simpl. apply IH.
  - unfold _execute_parallel.
    replace (List.filter parallel_eligible batch) with (@nil SuggestedToolReference);
      [reflexivity|].
    induction Hall as [|sg rest Hsg _ IH]; simpl; [reflexivity|].
    unfold parallel_eligible at 1. rewrite Hsg, andb_false_r. exact IH.
  - unfold _execute_conditional. generalize (@nil Result).
    induction Hall as [|sg rest Hsg _ IH]; intros acc; simpl; [reflexivity|].
    unfold bind at 1. rewrite _evaluate_condition_eq, Hsg, andb_false_r.
    apply IH.
  - reflexivity.
Qed.

(** X9. A chain with nothing to follow calls no tool.  When the bound is 0,
    or the strategy is Interactive, or no suggestion of the initial result
    carries a hint (none at all included), or the filter rejects them all,
    [execute_chain] returns the initial result alone, after at most one
    loop iteration, and all it did to the state is append that result to
    [context.results]. *)
Theorem chain_with_nothing_to_follow
  self fuel initial strategy filter_func (s : State) :
  (0 < fuel)%nat ->
  max_chain_length self = 0%nat
  \/ strategy = INTERACTIVE
  \/ Forall (fun sg => has_hint sg = false) (suggestedTools (metadata initial))
  \/ (exists f, filter_func = Some f
                /\ List.filter f (suggestedTools (metadata initial)) = []) ->
  exists n,
    execute_chain_fuel self fuel initial strategy filter_func s
      = (Ok (Some ([initial], n)), after_result initial s)
    /\ (n <= 1)%nat.
Proof.
  intros Hfuel Hcase. destruct fuel as [|fuel]; [lia|].
  unfold execute_chain_fuel, bind, add_result, get_context, set_context.
  cbn -[chain_loop]. fold (after_result initial s).
  cbn [chain_loop].
  destruct (Nat.ltb_spec 0 (max_chain_length self)) as [Hpos|Hzero].
  2:{ exists 0%nat. unfold ret. auto. }
  destruct (suggestedTools (metadata initial)) as [|sg0 sgs] eqn:Hsug.
  { exists 1%nat. unfold ret. auto. }
  set (batch := match filter_func with
                | Some f => List.filter f (sg0 :: sgs)
                | None => sg0 :: sgs
                end).
  assert (Hdone : batch = [] \/ dispatch strategy batch (after_result initial s)
                                = (Ok [], after_result initial s)).
  { destruct Hcase as [Hz|[->|[Hall|(f & -> & Hf)]]].
    - lia.
    - right. reflexivity.
    - right. apply dispatch_hintless. subst batch.
      destruct filter_func as [f|]; [|exact Hall].
      apply Forall_forall. intros sg Hin.
      apply list_elem_of_In, filter_In in Hin. destruct Hin as [Hin _].
      apply list_elem_of_In in Hin.
      rewrite Forall_forall in Hall. apply Hall. exact Hin.
    - left. exact Hf. }
  destruct batch as [|b bs] eqn:Hb.
  { exists 1%nat. unfold ret. auto. }
  destruct Hdone as [Hnil|Hd]; [discriminate|].
  unfold bind. rewrite Hd. simpl. exists 1%nat. unfold ret. auto.
Qed.

Lemma chain_loop_shape self strategy filter_func :
  forall fuel acc current chain_length iterations (s s' : State) out n,
    chain_loop self strategy filter_func fuel acc current
               chain_length iterations s = (Ok (Some (out, n)), s') ->
    exists new called, out = acc ++ new /\ batch_effect s s' new called.
Proof.
  assert (Hstay : forall acc (s s' : State) out n it,
             (ret (Some (acc, it)) : M (option (list Result * nat))) s
             = (Ok (Some (out, n)), s') ->
             exists new called, out = acc ++ new /\ batch_effect s s' new called).
  { intros acc s s' out n it E. unfold ret in E. inversion E. subst.
    exists [], []. rewrite app_nil_r. split; [reflexivity|].
    apply batch_effect_none. }
  induction fuel as [|fuel IH]; intros acc current cl it s s' out n; simpl.
  - unfold ret. discriminate.
  - destruct (Nat.ltb cl (max_chain_length self)); [|apply Hstay].
    destruct (suggestedTools (metadata current)) as [|sg0 sgs]; [apply Hstay|].
    destruct (match filter_func with
              | Some f => List.filter f (sg0 :: sgs)
              | None => sg0 :: sgs
              end) as [|b bs]; [apply Hstay|].
    unfold bind.
    destruct (dispatch strategy (b :: bs) s) as [[next|e] s1] eqn:D;
      [|discriminate].
    apply dispatch_shape in D.
    destruct D as (new1 & called1 & _ & _ & -> & B1).
    destruct (last new1) as [l|] eqn:Hlast.
    2:{ intros E. unfold ret in E. inversion E. subst.
        apply last_None in Hlast. subst new1.
        exists [], called1. rewrite app_nil_r. auto. }
    intros E. apply IH in E. destruct E as (new & called2 & -> & B2).
    exists (new1 ++ new), (called1 ++ called2).
    rewrite <- app_assoc. split; [reflexivity|].
    eapply batch_effect_then; eassumption.
Qed.

(** X10. Under a strategy other than Parallel, the list [execute_chain]
    returns is the initial result followed by exactly what the chain
    appended to [context.results] after it, in the same order; and every
    tool the chain called is accounted for, by one returned result or by
    one entry of [context.errors]. *)
Theorem chain_returns_what_it_recorded
  self fuel initial strategy filter_func (s s' : State) rs n :
  strategy <> PARALLEL ->
  execute_chain_fuel self fuel initial strategy filter_func s
    = (Ok (Some (rs, n)), s') ->
  exists followups entries,
    rs = initial :: followups
    /\ results (context s') = results (context s) ++ rs
    /\ errors (context s') = errors (context s) ++ entries
    /\ length (attempts s')
       = (length (attempts s) + length followups + length entries)%nat.
Proof.
  intros _ E.
  unfold execute_chain_fuel, bind, add_result, get_context, set_context in E.
  cbn -[chain_loop] in E. fold (after_result initial s) in E.
  apply chain_loop_shape in E.
  destruct E as (new & called & -> & R & A & es & Er & L).
  exists new, es. simpl in *. split; [reflexivity|].
  split; [rewrite R, <- app_assoc; reflexivity|].
  split; [exact Er|].
  rewrite A, length_app, length_map. lia.
Qed.

(** *** The workflow engine *)

Lemma workflow_loop_shape name wf :
  forall acc params (s s' : State) r,
    workflow_loop name wf acc params s = (r, s') ->
    exists done new entries,
      done `prefix_of` wf
      /\ workflow_effect s s' done new entries
      /\ outcome_agrees name wf acc s' done new entries r.
Proof.
  induction wf as [|st rest IH]; intros acc params s s' r.
  - simpl. unfold get_execution_summary, bind, get_context, external, ret.
    simpl. destruct (utcnow (world s)) as [now w]. simpl.
    intros E. inversion E. subst. exists [], [], [].
    split; [apply prefix_nil|]. split.
    + unfold workflow_effect. simpl. rewrite !app_nil_r. auto.
    + simpl. rewrite app_nil_r. repeat split; reflexivity.
  - cbn [workflow_loop]. unfold bind at 1.
    destruct (execute_tool (step_tool st) (step_parameters params st) s)
      as [[o|e] s1] eqn:E1;
      apply execute_tool_step in E1; simpl in E1.
    2:{ intros E. inversion E. subst. destruct E1 as (He & A1 & C1).
        exists [st], [], []. split; [apply prefix_cons, prefix_nil|]. split.
        - unfold workflow_effect. rewrite A1, C1, map_app. simpl.
          rewrite !app_nil_r. auto.
        - simpl. rewrite He. reflexivity. }
    pose proof (tool_step_results _ _ _ _ _ E1) as R1.
    destruct (tool_step_errors _ _ _ _ _ E1) as (e1 & Er1 & L1).
    destruct E1 as [A1 _].
    assert (Hgo : forall acc' params',
               acc' = acc ++ option_list o ->
               workflow_loop name rest acc' params' s1 = (r, s') ->
               exists done new entries,
                 done `prefix_of` st :: rest
                 /\ workflow_effect s s' done new entries
                 /\ outcome_agrees name (st :: rest) acc s' done new entries r).
    { intros acc' params' -> E. apply IH in E.
      destruct E as (done & new & es & P & (A & R & Er) & Hout).
      exists (st :: done), (option_list o ++ new), (e1 ++ es).
      split; [apply prefix_cons; exact P|]. split.
      - unfold workflow_effect. repeat split.
        + rewrite A, A1, map_app. simpl. rewrite <- app_assoc. reflexivity.
        + rewrite R, R1, <- app_assoc. reflexivity.
        + rewrite Er, Er1, <- app_assoc. reflexivity.
      - destruct r as [[nm tool completed log|nm k rs summary]|e]; simpl in *.
        + destruct Hout as (L & -> & (pre & st' & -> & Ht & Hr) & -> & -> & Hne).
          split; [rewrite ?length_app in L; rewrite ?length_app; simpl in *; lia|].
          split; [reflexivity|]. split.
          { exists (st :: pre), st'. auto. }
          rewrite <- app_assoc. repeat split.
          intros Hnil. apply app_eq_nil in Hnil. destruct Hnil as [_ Hnil].
          contradiction.
        + destruct Hout as (L & -> & -> & -> & Hrest).
          split; [rewrite ?length_app in L; rewrite ?length_app; simpl in *; lia|].
          rewrite <- app_assoc in *. intuition.
        + destruct (is_exception e).
          * destruct Hout as (L & Hlast).
            split; [rewrite ?length_app in L; rewrite ?length_app; simpl in *; lia|].
            rewrite <- app_assoc in Hlast. exact Hlast.
          * rewrite ?length_app in Hout. rewrite ?length_app. simpl in *. lia. }
    destruct o as [res|].
    + destruct (truthy (payload res)) eqn:Htruthy.
      * unfold bind at 1. unfold params_update.
        destruct (payload res) eqn:Hpayload;
          try solve [ unfold raise; intros E; inversion E; subst;
                      exists [st], [res], e1; split;
                      [apply prefix_cons, prefix_nil|]; split;
                      [ unfold workflow_effect; rewrite A1, R1, Er1, map_app;
                        simpl in *; repeat split
                      | simpl; split; [simpl in L1; lia|];
                        exists res; rewrite last_snoc, Hpayload;
                        repeat split; [exact Htruthy|discriminate] ] ].
        unfold ret. apply Hgo. reflexivity.
      * apply Hgo. reflexivity.
    + destruct (default true (step_required st)) eqn:Hreq.
      * unfold bind, get_context, ret. intros E. inversion E. subst.
        exists [st], [], e1. split; [apply prefix_cons, prefix_nil|]. split.
        -- unfold workflow_effect. rewrite A1, R1, Er1, map_app. simpl in *.
           repeat split.
        -- simpl. split; [simpl in L1; lia|]. rewrite app_nil_r.
           split; [reflexivity|]. split.
           { exists [], st. auto. }
           repeat split. intros ->. simpl in *. lia.
      * apply Hgo. simpl. rewrite app_nil_r. reflexivity.
Qed.

(** X11. [execute_workflow] calls the tools of the steps in their fixed
    order, each once, and none after the step it stops at.  When it
    returns a report, or raises an [Exception], every call has added one
    result or one error to the context; when it is ended by an exception
    that is not an [Exception], which [execute_tool] does not catch, the
    last call has added neither.  A completed report means every step was
    called; a failed report names the last step called, which is a
    required one, and its error log is the context's and is not empty. *)
Theorem workflow_runs_steps_in_order
  self name params wf (s s' : State) r :
  assoc_get name (workflows self) = Some wf ->
  execute_workflow self name params s = (r, s') ->
  exists done,
    done `prefix_of` wf
    /\ map fst (attempts s') = map fst (attempts s) ++ map step_tool done
    /\ (length (results (context s')) + length (errors (context s'))
        + (match r with
           | Ok _ => 0
           | Raise e => if is_exception e then 0 else 1
           end)
        = length (results (context s)) + length (errors (context s))
          + length done)%nat
    /\ match r with
       | Ok (WorkflowCompleted _ _ _ _) => done = wf
       | Ok (WorkflowFailed _ tool _ log) =>
           (exists pre st, done = pre ++ [st] /\ step_tool st = tool
                           /\ default true (step_required st) = true)
           /\ log = errors (context s') /\ log <> []
       | Raise _ => done <> []
       end.
Proof.
  intros Hname E. unfold execute_workflow in E. rewrite Hname in E.
  apply workflow_loop_shape in E.
  destruct E as (done & new & es & P & (A & R & Er) & Hout).
  exists done. split; [exact P|]. split; [exact A|].
  destruct r as [[nm tool completed log|nm k rs summary]|e]; simpl in Hout.
  - destruct Hout as (L & _ & Hlast & _ & -> & Hne).
    split; [rewrite R, Er, !length_app; lia|].
    split; [exact Hlast|]. split; [reflexivity|]. rewrite Er. intros Hnil.
    apply app_eq_nil in Hnil. destruct Hnil as [_ Hnil]. contradiction.
  - destruct Hout as (L & _ & -> & _).
    split; [rewrite R, Er, !length_app; lia|reflexivity].
  - destruct (is_exception e).
    + destruct Hout as (L & res & Hlast & _).
      split; [rewrite R, Er, !length_app; lia|].
      intros ->. simpl in L. destruct new; [discriminate|].
      simpl in L. lia.
    + split; [rewrite R, Er, !length_app; lia|].
      intros ->. simpl in Hout. lia.
Qed.

(** X12. For a registered workflow, an [Exception] that [execute_workflow]
    raises has one cause only: a step has just returned a result whose
    payload is true but is not a mapping, so that [params.update] cannot
    merge it; that result is the last one in the context.  Anything else
    it raises is not an [Exception]: it ended the last call made, a call
    of a step's tool, and [execute_tool] does not catch it.  And a first
    step that returns a payload which is true and is a string, a number
    or a bool does make [execute_workflow] raise an [Exception], right
    after that step. *)
Theorem workflow_raises_only_on_unmergeable_payload
  self name params wf (s : State) :
  assoc_get name (workflows self) = Some wf ->
  (forall e s',
     execute_workflow self name params s = (Raise e, s') ->
     (is_exception e = true
      /\ exists res,
           last (results (context s')) = Some res
           /\ truthy (payload res) = true
           /\ forall members, payload res <> JObj members)
     \/ (is_exception e = false
         /\ exists tool step_params,
              last (attempts s') = Some (tool, step_params)
              /\ In tool (map step_tool wf)))
  /\ (forall st rest rA s1,
        wf = st :: rest ->
        execute_tool (step_tool st) (step_parameters params st) s
          = (Ok (Some rA), s1) ->
        truthy (payload rA) = true ->
        (forall members, payload rA <> JObj members) ->
        (forall items, payload rA <> JArr items) ->
        exists e,
          execute_workflow self name params s = (Raise e, s1)
          /\ is_exception e = true).
Proof.
  intros Hname. split.
  - intros e s' E. unfold execute_workflow in E. rewrite Hname in E.
    apply workflow_loop_shape in E.
    destruct E as (done & new & es & P & (A & R & _) & Hout).
    simpl in Hout. destruct (is_exception e).
    + left. split; [reflexivity|].
      destruct Hout as (_ & res & Hlast & Hres).
      exists res. split; [|exact Hres]. simpl in Hlast. rewrite R.
      destruct new as [|x new]; [discriminate|].
      rewrite last_app. rewrite Hlast. reflexivity.
    + right. split; [reflexivity|].
      destruct (last done) as [st|] eqn:Hlast.
      2:{ apply last_None in Hlast. subst done. simpl in Hout. lia. }
      apply last_Some in Hlast. destruct Hlast as [pre ->].
      rewrite map_app in A. simpl in A. rewrite app_assoc in A.
      destruct (last (attempts s')) as [[tool ps]|] eqn:Ha.
      2:{ apply last_None in Ha. rewrite Ha in A. simpl in A.
          symmetry in A. apply app_eq_nil in A. destruct A as [_ A].
          discriminate. }
      exists tool, ps. split; [reflexivity|].
      apply last_Some in Ha. destruct Ha as [front Ha]. rewrite Ha in A.
      rewrite map_app in A. simpl in A.
      apply app_inj_tail in A. destruct A as [_ ->].
      destruct P as [k ->]. rewrite !map_app. simpl.
      apply in_or_app. left. apply in_or_app. right. left. reflexivity.
  - intros st rest rA s1 -> HA Htruthy Hobj Harr.
    unfold execute_workflow. rewrite Hname. cbn [workflow_loop].
    unfold bind at 1. rewrite HA, Htruthy. unfold bind at 1.
    unfold params_update.
    destruct (payload rA) as [|b|z|q|t|items|members];
      try (eexists; split; reflexivity).
    exfalso. eapply Hobj. reflexivity.
Qed.

(** X13. A completed report of the orchestrator's [execute_workflow] agrees
    with itself: [steps_executed] is the number of results it lists, the
    summary counts the same number of tools and names them in the same
    order, [steps_executed] plus the summary's error count is the number
    of steps of the workflow, and the summary says [successful] exactly
    when every step gave a result. *)
Theorem completed_report_is_consistent
  self name params user conversation wf (s s' : State) nm k rs summary :
  assoc_get name (workflows (workflow_engine self)) = Some wf ->
  orchestrator_execute_workflow self name params user conversation s
    = (Ok (WorkflowCompleted nm k rs summary), s') ->
  results (context s') = rs
  /\ k = length rs
  /\ total_tools_executed summary = k
  /\ tool_chain summary = map toolName rs
  /\ (k + sum_errors summary = length wf)%nat
  /\ (successful summary = true <-> k = length wf).
Proof.
  intros Hname E. unfold orchestrator_execute_workflow, bind in E.
  destruct (new_context_fresh user conversation s) as (s0 & E0 & R0 & Er0 & _).
  rewrite E0 in E. unfold execute_workflow in E. rewrite Hname in E.
  apply workflow_loop_shape in E.
  destruct E as (done & new & es & P & (A & R & Er) & Hout).
  simpl in Hout.
  destruct Hout as (L & _ & -> & -> & -> & Ht & He & Hs & Hc).
  rewrite R0 in R. rewrite Er0 in Er. simpl in R, Er.
  rewrite R in *. rewrite Er in *.
  repeat split; try assumption; try lia.
  - rewrite Hs. intros Hz. apply Nat.eqb_eq in Hz. lia.
  - rewrite Hs. intros Hk. apply Nat.eqb_eq. lia.
Qed.

(** X14. A failed optional step does not stop a workflow.  With steps
    [A; B; C] where [B] is optional, when [A] and [C] succeed, each with
    a payload that is false or is a mapping, which [params.update]
    merges, and [B] fails, the report is completed with the results of
    [A] and [C]; the
    context has gained exactly one error entry, naming [B], and so the
    summary does not say [successful]. *)
Theorem optional_step_failure_does_not_stop_workflow
  self name A B C params params1 params3 rA rC (s s1 s2 s3 : State) :
  assoc_get name (workflows self) = Some [A; B; C] ->
  step_required B = Some false ->
  execute_tool (step_tool A) (step_parameters params A) s = (Ok (Some rA), s1) ->
  (if truthy (payload rA)
   then params_update params (payload rA) s1 = (Ok params1, s1)
   else params1 = params) ->
  execute_tool (step_tool B) (step_parameters params1 B) s1 = (Ok None, s2) ->
  execute_tool (step_tool C) (step_parameters params1 C) s2 = (Ok (Some rC), s3) ->
  (if truthy (payload rC)
   then params_update params1 (payload rC) s3 = (Ok params3, s3)
   else params3 = params1) ->
  exists summary s4,
    execute_workflow self name params s
      = (Ok (WorkflowCompleted name 2 [rA; rC] summary), s4)
    /\ (exists entry,
          errors (context s4) = errors (context s) ++ [entry]
          /\ assoc_get "tool" entry = Some (step_tool B))
    /\ results (context s4) = results (context s) ++ [rA; rC]
    /\ successful summary = false.
Proof.
  intros Hname Hopt HA HtA HB HC HtC.
  pose proof (execute_tool_step _ _ _ _ _ HA) as StA.
  pose proof (execute_tool_step _ _ _ _ _ HB) as StB.
  pose proof (execute_tool_step _ _ _ _ _ HC) as StC.
  simpl in StA, StB, StC.
  destruct StA as [_ CA]. destruct StB as [_ (entry & CB & Htool & _)].
  destruct StC as [_ CC].
  unfold execute_workflow. rewrite Hname.
  cbn [workflow_loop]. unfold bind at 1. rewrite HA.
  assert (Hrest :
            exists summary s4,
              workflow_loop name [B; C] ([] ++ [rA]) params1 s1
              = (Ok (WorkflowCompleted name 2 [rA; rC] summary), s4)
              /\ context s4 = context s3
              /\ successful summary
                 = Nat.eqb (length (errors (context s3))) 0).
  { cbn [workflow_loop]. unfold bind at 1. rewrite HB, Hopt.
    change (default true (Some false)) with false. cbv iota.
    unfold bind at 1. rewrite HC.
    assert (Hend : exists summary s4,
               workflow_loop name [] (([] ++ [rA]) ++ [rC]) params3 s3
               = (Ok (WorkflowCompleted name 2 [rA; rC] summary), s4)
               /\ context s4 = context s3
               /\ successful summary
                  = Nat.eqb (length (errors (context s3))) 0).
    { cbn [workflow_loop]. unfold get_execution_summary, bind, get_context,
        external, ret. simpl. destruct (utcnow (world s3)) as [now w]. simpl.
      eexists _, _. split; [reflexivity|]. simpl. auto. }
    destruct (truthy (payload rC)).
    - unfold bind at 1. rewrite HtC. exact Hend.
    - subst params3. exact Hend. }
  destruct Hrest as (summary & s4 & Hrun & Hctx & Hsucc).
  exists summary, s4. split.
  { destruct (truthy (payload rA)).
    - unfold bind at 1. rewrite HtA. exact Hrun.
    - subst params1. exact Hrun. }
  rewrite Hctx, CC, CB, CA. simpl. split; [eauto|]. split.
  { rewrite <- app_assoc. reflexivity. }
  rewrite Hsucc, CC, CB, CA. simpl. rewrite length_app. simpl.
  apply Nat.eqb_neq. lia.
Qed.

(** X15. A workflow whose first step is required and names a tool the
    registry does not know fails at once, whatever the transport would
    answer: the transport is never called, nothing is listed as
    completed, and the log ends with the "Unknown tool" entry.  The
    [code_review] workflow is one: its first step is
    [list_pull_requests]. *)
Theorem unregistered_first_step_fails_workflow
  self name st rest params (s : State) :
  assoc_get name (workflows self) = Some (st :: rest) ->
  default true (step_required st) = true ->
  get_intent_by_name (step_tool st) = None ->
  exists s',
    execute_workflow self name params s
      = (Ok (WorkflowFailed name (step_tool st) []
               (errors (context s)
                ++ [raised_error (step_tool st)
                      (ValueError ("Unknown tool: " ++ step_tool st)%string)])),
         s')
    /\ world s' = world s
    /\ results (context s') = results (context s).
Proof.
  intros Hname Hreq Hunknown.
  unfold execute_workflow. rewrite Hname. cbn [workflow_loop].
  unfold bind at 1. rewrite execute_tool_eq. unfold transport_call.
  rewrite Hunknown. cbv zeta. rewrite Hreq.
  unfold bind, get_context, ret. simpl.
  eexists. split; [reflexivity|]. simpl. auto.
Qed.

(** *** The orchestrator *)

(** X16. The outcomes of [execute_request].  It returns the report of a
    request not understood, without calling a tool, exactly when the
    classifier gives no intent.  Otherwise its first call is the tool of
    the classified intent, with no parameters, and it returns the report
    of a failed initial tool, after that one call and with no result in
    the context, or the completed report, whose [total_tools] is the
    number of results in the context, whose [chain_executed] says
    whether there is more than one, and whose [final_result] is the last
    of them.  It raises nothing that is an [Exception]: it raises only
    when a call was ended by an exception that is not one, which
    [execute_tool] does not catch. *)
Theorem execute_request_outcomes self q user conversation (s : State) :
  exists res s',
    execute_request self q user conversation s = (res, s')
    /\ match classify_intent q with
       | None =>
           res = Ok (NotUnderstood (map fst INTENT_CLASSIFICATIONS))
           /\ attempts s' = attempts s
       | Some intent =>
           exists later,
             attempts s' = attempts s ++ (intent_name intent, ∅) :: later
             /\ match res with
                | Ok (NotUnderstood _) => False
                | Ok (InitialToolFailed summary) =>
                    later = []
                    /\ results (context s') = []
                    /\ sum_errors summary = 1%nat
                | Ok (RequestCompleted tool chained total summary final) =>
                    total = length (results (context s'))
                    /\ (0 < total)%nat
                    /\ chained = Nat.ltb 1 total
                    /\ final = last (results (context s'))
                    /\ total_tools_executed summary = total
                | Raise e => is_exception e = false
                end
       end.
Proof.
  unfold execute_request. unfold bind at 1.
  destruct (new_context_fresh user conversation s) as (s0 & -> & R0 & Er0 & A0).
  destruct (classify_intent q) as [intent|].
  2:{ unfold ret. eexists _, _. split; [reflexivity|]. auto. }
  unfold bind at 1.
  destruct (execute_tool (intent_name intent) ∅ s0) as [[o|e1] s1] eqn:E1;
    pose proof (execute_tool_step _ _ _ _ _ E1) as St; simpl in St.
  2:{ eexists _, _. split; [reflexivity|]. exists [].
      destruct St as (He & A1 & _). rewrite A1, A0. auto. }
  pose proof (tool_step_results _ _ _ _ _ St) as R1.
  rewrite R0 in R1. simpl in R1.
  destruct o as [r|].
  2:{ destruct St as [A1 (entry & C1 & _)].
      unfold bind. destruct (summary_of s1) as (now & w & ->). unfold ret.
      eexists _, _. split; [reflexivity|]. exists []. simpl.
      rewrite A1, A0, R1, C1. simpl. rewrite Er0. auto. }
  destruct St as [A1 _].
  assert (Hend : forall s2 later more,
             attempts s2 = attempts s1 ++ later ->
             results (context s2) = r :: more ->
             exists res s',
               bind get_last_result
                    (fun last_result =>
                       bind get_context (fun c =>
                       bind get_execution_summary (fun summary =>
                       ret (RequestCompleted (toolName r)
                              (Nat.ltb 1 (length (results c)))
                              (length (results c)) summary last_result)))) s2
               = (res, s')
               /\ exists later',
                    attempts s'
                    = attempts s ++ (intent_name intent, ∅) :: later'
                    /\ match res with
                       | Ok (NotUnderstood _) => False
                       | Ok (InitialToolFailed summary) =>
                           later' = []
                           /\ results (context s') = []
                           /\ sum_errors summary = 1%nat
                       | Ok (RequestCompleted tool chained total summary final) =>
                           total = length (results (context s'))
                           /\ (0 < total)%nat
                           /\ chained = Nat.ltb 1 total
                           /\ final = last (results (context s'))
                           /\ total_tools_executed summary = total
                       | Raise e => is_exception e = false
                       end).
  { intros s2 later more A2 R2.
    unfold get_last_result, bind, get_context, ret. simpl.
    destruct (summary_of s2) as (now & w & ->).
    eexists _, _. split; [reflexivity|]. exists later. simpl.
    rewrite A2, A1, A0, <- app_assoc, R2. simpl.
    repeat split; try reflexivity. lia. }
  unfold bind at 1.
  destruct (requiresPostProcessing (metadata r)).
  - unfold bind at 1.
    destruct (execute_chain_outcome (chain_executor self) r SEQUENTIAL None s1)
      as (res & s2 & -> & Hres & (later & A2) & Hmore).
    destruct (Hmore eq_refl eq_refl) as (more & R2). rewrite R1 in R2.
    simpl in R2.
    destruct res as [rs|e2].
    + unfold ret at 1. eapply Hend; eassumption.
    + eexists _, _. split; [reflexivity|]. exists later.
      rewrite A2, A1, A0, <- app_assoc. auto.
  - unfold ret at 1. apply (Hend s1 [] []); [|exact R1].
    rewrite app_nil_r. reflexivity.
Qed.

(** X17. A request the classifier does not understand calls no tool: the
    report lists the names of the registry as suggestions, and the
    context built for the request stays empty. *)
Theorem request_not_understood self q user conversation (s : State) :
  classify_intent q = None ->
  exists s',
    execute_request self q user conversation s
      = (Ok (NotUnderstood (map fst INTENT_CLASSIFICATIONS)), s')
    /\ attempts s' = attempts s
    /\ results (context s') = []
    /\ errors (context s') = [].
Proof.
  intros Hq. unfold execute_request. unfold bind at 1.
  destruct (new_context_fresh user conversation s) as (s0 & -> & R & E & A).
  rewrite Hq. unfold ret. eauto.
Qed.

(** X18. When the initial tool of a request fails, [execute_request] calls
    nothing else and reports the failure with a summary that counts no
    executed tool and one error and does not say [successful]. *)
Theorem initial_failure_report self q user conversation intent (s s0 s1 : State) :
  classify_intent q = Some intent ->
  new_context user conversation s = (Ok tt, s0) ->
  execute_tool (intent_name intent) ∅ s0 = (Ok None, s1) ->
  exists summary s',
    execute_request self q user conversation s
      = (Ok (InitialToolFailed summary), s')
    /\ attempts s' = attempts s ++ [(intent_name intent, ∅)]
    /\ total_tools_executed summary = 0%nat
    /\ sum_errors summary = 1%nat
    /\ successful summary = false
    /\ tool_chain summary = [].
Proof.
  intros Hq Hnew Hexec.
  destruct (new_context_fresh user conversation s) as (s0' & E0 & R0 & Er0 & A0).
  rewrite Hnew in E0. inversion E0. subst s0'.
  pose proof (execute_tool_step _ _ _ _ _ Hexec) as St. simpl in St.
  pose proof (tool_step_results _ _ _ _ _ St) as R1.
  destruct St as [A1 (entry & C1 & _)].
  unfold execute_request. unfold bind at 1. rewrite Hnew, Hq.
  unfold bind at 1. rewrite Hexec. unfold bind.
  destruct (summary_of s1) as (now & w & ->). unfold ret.
  eexists _, _. split; [reflexivity|]. simpl.
  rewrite A1, A0, R1, R0, C1. simpl. rewrite Er0. simpl. auto.
Qed.

(** X19. When the initial result does not ask for post-processing, the
    chain executor is not entered: one tool was called, its result is in
    the context once and is the final result, and the report counts one
    tool and says no chain was executed. *)
Theorem request_without_handoff self q user conversation intent r (s s0 s1 : State) :
  classify_intent q = Some intent ->
  new_context user conversation s = (Ok tt, s0) ->
  execute_tool (intent_name intent) ∅ s0 = (Ok (Some r), s1) ->
  requiresPostProcessing (metadata r) = false ->
  exists summary s',
    execute_request self q user conversation s
      = (Ok (RequestCompleted (toolName r) false 1 summary (Some r)), s')
    /\ attempts s' = attempts s ++ [(intent_name intent, ∅)]
    /\ results (context s') = [r]
    /\ errors (context s') = []
    /\ total_tools_executed summary = 1%nat
    /\ successful summary = true
    /\ tool_chain summary = [toolName r].
Proof.
  intros Hq Hnew Hexec Hdone.
  destruct (new_context_fresh user conversation s) as (s0' & E0 & R0 & Er0 & A0).
  rewrite Hnew in E0. inversion E0. subst s0'.
  pose proof (execute_tool_step _ _ _ _ _ Hexec) as St. simpl in St.
  pose proof (tool_step_results _ _ _ _ _ St) as R1.
  destruct St as [A1 C1].
  unfold execute_request. unfold bind at 1. rewrite Hnew, Hq.
  unfold bind at 1. rewrite Hexec, Hdone.
  unfold get_last_result, bind, get_context, ret. simpl.
  destruct (summary_of s1) as (now & w & ->).
  rewrite R0 in R1. simpl in R1. rewrite !R1. simpl.
  eexists _, _. split; [reflexivity|]. simpl.
  rewrite R1, A1, A0, C1. simpl. rewrite Er0. repeat split; reflexivity.
Qed.

End Coverage.

Section ContractHelperProperties.

Context {datetime World : Type} `{Collaborators datetime World}.
Variable dumps_len : json -> Exn + Z.

Abbreviation State := (@State datetime World).
Abbreviation Result := (ToolResult datetime).

Ltac chk_inv H :=
  repeat match type of H with
         | chk_bind ?c _ = Valid _ =>
             let E := fresh "E" in
             destruct c eqn:E; simpl in H; [|discriminate H]
         end.

Lemma suggestion_of_dict_default_type tool ref :
  suggestion_of_dict tool = Valid ref ->
  obj_get "toolType" tool = None ->
  toolType ref = ANALYZER.
Proof.
  unfold suggestion_of_dict, v_SuggestedToolReference, get_or.
  intros Hv Hnone. rewrite Hnone in Hv.
  unfold required at 1 in Hv.
  cbn -[optional] in Hv. chk_inv Hv. inversion Hv. reflexivity.
Qed.

Lemma suggestions_of_dicts_positions tools :
  forall refs,
    suggestions_of_dicts tools = Valid refs ->
    length refs = length tools
    /\ forall i tool ref,
         tools !! i = Some tool -> refs !! i = Some ref ->
         obj_get "toolType" tool = None -> toolType ref = ANALYZER.
Proof.
  induction tools as [|tool rest IH]; intros refs Hv; simpl in Hv.
  - inversion Hv. split; [reflexivity|]. intros i tool ref Hi. discriminate.
  - chk_inv Hv. inversion Hv. subst refs.
    destruct (IH _ eq_refl) as [Hlen Hpos]. split; [simpl; lia|].
    intros [|i] tool' ref' Ht Hr Hnone; simpl in *.
    + inversion Ht. inversion Hr. subst.
      eapply suggestion_of_dict_default_type; eassumption.
    + eapply Hpos; eassumption.
Qed.

Lemma construct_cases {A : Type} (c : Checked A) (s : State) :
  match c with
  | Valid a => construct c s = (Ok a, s)
  | Invalid e => construct c s = (Raise (PydanticValidationError e), s)
  end.
Proof. destruct c; reflexivity. Qed.

(** [build_tool_result], case by case. *)
Lemma build_tool_result_eq
  tool_name load intent description conversation_id message_id user_id
  session_id source data_type requires_post_processing suggested
  content_summary parent_tool_result_id step_index (s : State) :
  build_tool_result dumps_len tool_name load intent description
    conversation_id message_id user_id session_id source data_type
    requires_post_processing suggested content_summary
    parent_tool_result_id step_index s
  = match suggestions_of_dicts (default [] suggested) with
    | Invalid e => (Raise (PydanticValidationError e), s)
    | Valid refs =>
        match match content_summary with
              | Some (member :: rest) =>
                  chk_bind (content_summary_of_dict (member :: rest))
                           (fun c => Valid (Some c))
              | _ => Valid None
              end with
        | Invalid e => (Raise (PydanticValidationError e), s)
        | Valid summary =>
            match (if truthy load then dumps_len load else inr 0) with
            | inl e => (Raise e, s)
            | inr data_size =>
                let '(result_id, w1) := uuid4 (world s) in
                let '(now, w2) := utcnow w1 in
                (Ok {| toolResultId := result_id;
                       toolName := tool_name;
                       timestamp := now;
                       conversationId := Some conversation_id;
                       conversationMessageId := Some message_id;
                       userContext := Some {| userId := user_id;
                                              sessionId := session_id |};
                       metadata :=
                         {| dataType := data_type;
                            dataSize := data_size;
                            intent := intent;
                            description := description;
                            accessibility := "public";
                            requiresPostProcessing := requires_post_processing;
                            suggestedTools := refs;
                            contentSummary := summary;
                            confidence := 1 # 1 |};
                       payload := load;
                       stepIndex := step_index;
                       parentToolResultId := parent_tool_result_id |},
                 in_world w2 s)
            end
        end
    end.
Proof.
  unfold build_tool_result. unfold bind at 1.
  assert (Hs : (match suggested with
                | Some (tool :: rest) => construct (suggestions_of_dicts (tool :: rest))
                | _ => ret []
                end) s
               = construct (suggestions_of_dicts (default [] suggested)) s).
  { destruct suggested as [[|tool rest]|]; reflexivity. }
  rewrite Hs. clear Hs.
  pose proof (construct_cases (suggestions_of_dicts (default [] suggested)) s) as Hc.
  destruct (suggestions_of_dicts (default [] suggested)) as [refs|e];
    rewrite Hc; [|reflexivity]. clear Hc.
  assert (Hrest : forall summary,
             bind (if truthy load
                   then match dumps_len load with
                        | inr n => ret n
                        | inl e => raise e
                        end
                   else ret 0)
                  (fun data_size =>
                     bind (external uuid4) (fun result_id =>
                     bind (external utcnow) (fun now =>
                     ret {| toolResultId := result_id;
                            toolName := tool_name;
                            timestamp := now;
                            conversationId := Some conversation_id;
                            conversationMessageId := Some message_id;
                            userContext := Some {| userId := user_id;
                                                   sessionId := session_id |};
                            metadata :=
                              {| dataType := data_type;
                                 dataSize := data_size;
                                 intent := intent;
                                 description := description;
                                 accessibility := "public";
                                 requiresPostProcessing := requires_post_processing;
                                 suggestedTools := refs;
                                 contentSummary := summary;
                                 confidence := 1 # 1 |};
                            payload := load;
                            stepIndex := step_index;
                            parentToolResultId := parent_tool_result_id |})))
                  s
             = match (if truthy load then dumps_len load else inr 0) with
               | inl e => (Raise e, s)
               | inr data_size =>
                   let '(result_id, w1) := uuid4 (world s) in
                   let '(now, w2) := utcnow w1 in
                   (Ok {| toolResultId := result_id;
                          toolName := tool_name;
                          timestamp := now;
                          conversationId := Some conversation_id;
                          conversationMessageId := Some message_id;
                          userContext := Some {| userId := user_id;
                                                 sessionId := session_id |};
                          metadata :=
                            {| dataType := data_type;
                               dataSize := data_size;
                               intent := intent;
                               description := description;
                               accessibility := "public";
                               requiresPostProcessing := requires_post_processing;
                               suggestedTools := refs;
                               contentSummary := summary;
                               confidence := 1 # 1 |};
                          payload := load;
                          stepIndex := step_index;
                          parentToolResultId := parent_tool_result_id |},
                    in_world w2 s)
               end).
  { intros summary. unfold bind at 1.
    destruct (truthy load); [destruct (dumps_len load) as [e|n]|];
      unfold ret at 1, raise; try reflexivity;
      unfold bind, external, ret, in_world; simpl;
      destruct (uuid4 (world s)) as [rid w1]; simpl;
      destruct (utcnow w1) as [now w2]; reflexivity. }
  unfold bind at 1.
  destruct content_summary as [[|member rest]|].
  - unfold ret at 1. apply Hrest.
  - unfold bind at 1.
    pose proof (construct_cases (content_summary_of_dict (member :: rest)) s) as Hc.
    destruct (content_summary_of_dict (member :: rest)) as [c|e];
      rewrite Hc; [|reflexivity].
    unfold ret at 1. simpl chk_bind. cbv iota. apply Hrest.
  - unfold ret at 1. apply Hrest.
Qed.

(** X21. What [build_tool_result] returns: the tool name and the payload it
    was given; a status [Processing] exactly when post-processing was
    asked; a user context, always; a data size of 0 for a payload that is
    false and the length of its JSON text otherwise; and one suggestion
    per dict of [suggestedTools], in the same order, a dict without
    [toolType] giving an Analyzer.  It does not touch the context. *)
Theorem built_result_shape
  tool_name load intent description conversation_id message_id user_id
  session_id source data_type requires_post_processing suggested
  content_summary parent_tool_result_id step_index (s s' : State) r :
  build_tool_result dumps_len tool_name load intent description
    conversation_id message_id user_id session_id source data_type
    requires_post_processing suggested content_summary
    parent_tool_result_id step_index s = (Ok r, s') ->
  toolName r = tool_name
  /\ payload r = load
  /\ status r = (if requires_post_processing then Processing else Complete)
  /\ userContext r = Some {| userId := user_id; sessionId := session_id |}
  /\ (if truthy load then dumps_len load else inr 0)
     = inr (dataSize (metadata r))
  /\ length (suggestedTools (metadata r)) = length (default [] suggested)
  /\ (forall i tool ref,
        default [] suggested !! i = Some tool ->
        suggestedTools (metadata r) !! i = Some ref ->
        obj_get "toolType" tool = None -> toolType ref = ANALYZER)
  /\ context s' = context s.
Proof.
  rewrite build_tool_result_eq.
  destruct (suggestions_of_dicts (default [] suggested)) as [refs|e] eqn:Hrefs;
    [|discriminate].
  destruct (match content_summary with
            | Some (member :: rest) => _
            | _ => Valid None
            end) as [summary|e]; [|discriminate].
  destruct (if truthy load then dumps_len load else inr 0) as [e|n];
    [discriminate|].
  destruct (uuid4 (world s)) as [rid w1]. destruct (utcnow w1) as [now w2].
  intros E. inversion E. subst. clear E.
  destruct (suggestions_of_dicts_positions _ _ Hrefs) as [Hlen Hpos].
  unfold status. simpl. repeat split; try assumption; try reflexivity.
Qed.

(** X22. [build_tool_result] raises in two cases only: a [ValidationError]
    for a dict of [suggestedTools] or a [content_summary] that does not
    validate, and what [json.dumps] raises for a payload that is true and
    that it cannot write; in both it raises before an id is drawn or the
    clock read.  Called without suggestions and without a content
    summary, on a payload that is false or that [json.dumps] can write,
    it returns. *)
Theorem build_tool_result_failures
  tool_name load intent description conversation_id message_id user_id
  session_id source data_type requires_post_processing suggested
  content_summary parent_tool_result_id step_index (s : State) :
  (forall e s',
     build_tool_result dumps_len tool_name load intent description
       conversation_id message_id user_id session_id source data_type
       requires_post_processing suggested content_summary
       parent_tool_result_id step_index s = (Raise e, s') ->
     s' = s
     /\ (exn_type e = "ValidationError"
         \/ (truthy load = true /\ dumps_len load = inl e)))
  /\ (default [] suggested = [] ->
      default [] content_summary = [] ->
      truthy load = false \/ (exists n, dumps_len load = inr n) ->
      exists r s',
        build_tool_result dumps_len tool_name load intent description
          conversation_id message_id user_id session_id source data_type
          requires_post_processing suggested content_summary
          parent_tool_result_id step_index s = (Ok r, s')).
Proof.
  rewrite build_tool_result_eq. split.
  - intros e s'.
    destruct (suggestions_of_dicts (default [] suggested)) as [refs|e1].
    2:{ intros E. inversion E. auto. }
    destruct (match content_summary with
              | Some (member :: rest) => _
              | _ => Valid None
              end) as [summary|e1].
    2:{ intros E. inversion E. auto. }
    destruct (truthy load).
    + destruct (dumps_len load) as [e1|n].
      * intros E. inversion E. auto.
      * destruct (uuid4 (world s)) as [rid w1].
        destruct (utcnow w1) as [now w2]. discriminate.
    + destruct (uuid4 (world s)) as [rid w1].
      destruct (utcnow w1) as [now w2]. discriminate.
  - intros Hs Hc Hload. rewrite Hs. simpl.
    assert (Hsize : exists n, (if truthy load then dumps_len load else inr 0)
                              = inr n).
    { destruct Hload as [->|[n Hn]]; [eauto|].
      destruct (truthy load); eauto. }
    destruct Hsize as [n ->].
    destruct content_summary as [[|member rest]|]; try discriminate Hc;
      destruct (uuid4 (world s)) as [rid w1];
      destruct (utcnow w1) as [now w2]; eauto.
Qed.

Lemma validated_without_user_context ms (s s' : State) r :
  model_validate (JObj ms) s = (Ok r, s') ->
  obj_get "userContext" ms = None ->
  userContext r = None.
Proof.
  unfold model_validate, bind. intros Hv Hnone.
  destruct (member_or_factory "toolResultId" v_str uuid4 ms s)
    as [[rid|e] s1]; [|discriminate].
  destruct (member_or_factory "timestamp" (v_datetime parse_datetime) utcnow
              ms s1) as [[ts|e] s2]; [|discriminate].
  destruct (v_ToolResult_fields rid ts ms) as [r0|e] eqn:Hf; [|discriminate].
  unfold ret in Hv. inversion Hv. subst r0.
  unfold v_ToolResult_fields in Hf.
  unfold optional at 3 in Hf. rewrite Hnone in Hf.
  chk_inv Hf. inversion Hf. reflexivity.
Qed.

(** X24. [set_user_context] needs a user context to write to.  On a result
    that [build_tool_result] returned it succeeds: the four identifiers
    are replaced and the id, metadata, payload and status stay.  On a
    result validated from a body that has no [userContext] member it
    raises [AttributeError], and nothing is assigned. *)
Theorem set_user_context_outcomes user session conversation message :
  (forall tool_name load intent description conversation_id message_id
          user_id session_id source data_type requires_post_processing
          suggested content_summary parent_tool_result_id step_index
          (s s' : State) r,
     build_tool_result dumps_len tool_name load intent description
       conversation_id message_id user_id session_id source data_type
       requires_post_processing suggested content_summary
       parent_tool_result_id step_index s = (Ok r, s') ->
     exists r',
       set_user_context r user session conversation message = Ok r'
       /\ userContext r' = Some {| userId := user; sessionId := session |}
       /\ conversationId r' = Some conversation
       /\ conversationMessageId r' = Some message
       /\ toolResultId r' = toolResultId r
       /\ metadata r' = metadata r
       /\ payload r' = payload r
       /\ status r' = status r)
  /\ (forall ms (s s' : State) r,
        model_validate (JObj ms) s = (Ok r, s') ->
        obj_get "userContext" ms = None ->
        set_user_context r user session conversation message
        = Raise (AttributeError "'NoneType' object has no attribute 'userId'")).
Proof.
  split.
  - intros tool_name load intent description conversation_id message_id
           user_id session_id source data_type requires_post_processing
           suggested content_summary parent_tool_result_id step_index s s' r
           Hbuild.
    rewrite build_tool_result_eq in Hbuild.
    destruct (suggestions_of_dicts (default [] suggested)); [|discriminate].
    destruct (match content_summary with
              | Some (member :: rest) => _
              | _ => Valid None
              end); [|discriminate].
    destruct (if truthy load then dumps_len load else inr 0) as [e|n];
      [discriminate|].
    destruct (uuid4 (world s)) as [rid w1]. destruct (utcnow w1) as [now w2].
    inversion Hbuild. subst. eexists. split; [reflexivity|].
    repeat split; reflexivity.
  - intros ms s s' r Hv Hnone.
    unfold set_user_context.
    rewrite (validated_without_user_context _ _ _ _ Hv Hnone). reflexivity.
Qed.

End ContractHelperProperties.

Lemma unknown_tool_never_reaches_transport_witness :
  get_intent_by_name "list_pull_requests" = None
  /\ exists s',
       execute_tool "list_pull_requests" ∅ (start cyclic_server) = (Ok None, s')
       /\ world s' = world (start cyclic_server).
Proof.
  split; [reflexivity|].
  destruct (unknown_tool_never_reaches_transport
              "list_pull_requests" ∅ (start cyclic_server))
    as (s' & E & W & _); [reflexivity|].
  exists s'. auto.
Defined.

Lemma last_result_is_latest_success_witness :
  let s := start mixed_server in
  let r := result_of "check_status" false [] (JObj []) in
  exists s',
    execute_tool "check_status" ∅ s = (Ok (Some r), s')
    /\ get_last_result s' = (Ok (Some r), s')
    /\ get_last_result s = (Ok None, s).
Proof.
  pose (s' := snd (execute_tool "check_status" ∅ (start mixed_server))).
  exists s'.
  destruct (last_result_is_latest_success
              "check_status" ∅ (start mixed_server) s'
              (Some (result_of "check_status" false [] (JObj []))))
    as (Hlast & Hempty); [reflexivity|].
  split; [reflexivity|]. split; [exact Hlast|]. apply Hempty. reflexivity.
Defined.

Lemma unreadable_answer_is_an_error_witness :
  (exists s',
     execute_tool "list_files" ∅ (start garbled_server) = (Ok None, s')
     /\ errors (context s')
        = [[("tool", "list_files"); ("error", "Expecting value");
            ("type", "JSONDecodeError")]])
  /\ (exists s',
        execute_tool "check_status" ∅ (start garbled_server) = (Ok None, s')
        /\ results (context s') = []
        /\ errors (context s')
           = [[("tool", "check_status"); ("error", "toolName: Field required");
               ("type", "ValidationError")]]).
Proof.
  split.
  - edestruct (unreadable_answer_is_an_error
                 "list_files" ∅ (start garbled_server))
      as (Hjson & _); [reflexivity|reflexivity|].
    edestruct Hjson as (s' & E & _ & Herr); [reflexivity|reflexivity|].
    exists s'. split; [exact E|exact Herr].
  - edestruct (unreadable_answer_is_an_error
                 "check_status" ∅ (start garbled_server))
      as (_ & Hbody); [reflexivity|reflexivity|].
    edestruct Hbody as (s' & E & R & Herr & _); [reflexivity|reflexivity|].
    exists s'. split; [exact E|]. split; [exact R|exact Herr].
Defined.

Lemma classified_intent_is_registered_witness :
  classify_intent "Create Repository" = Some create_repository_intent
  /\ get_intent_by_name "create_repository" = Some create_repository_intent.
Proof.
  split; [reflexivity|].
  apply (classified_intent_is_registered
           "Create Repository" create_repository_intent).
  reflexivity.
Defined.

Lemma scattered_letters_classify_witness :
  forallb (fun c => contains c (lower "Saturday menu")) ["s"; "t"; "a"; "u"]
  = true
  /\ is_Some (classify_intent "Saturday menu").
Proof.
  split; [reflexivity|].
  apply scattered_letters_classify. left. reflexivity.
Defined.

(** The letters are enough: this request is taken for [check_status]. *)
Example saturday_menu_is_check_status :
  classify_intent "Saturday menu" = Some check_status_intent.
Proof. reflexivity. Qed.

Lemma chain_with_nothing_to_follow_witness :
  (0 < 11)%nat
  /\ exists n,
       execute_chain_fuel ToolChainExecutor_init 11 cyclic_result
                          INTERACTIVE None (start cyclic_server)
       = (Ok (Some ([cyclic_result], n)),
          after_result cyclic_result (start cyclic_server))
       /\ (n <= 1)%nat.
Proof.
  split; [lia|].
  apply (chain_with_nothing_to_follow
           ToolChainExecutor_init 11 cyclic_result INTERACTIVE None
           (start cyclic_server)); [lia|].
  right. left. reflexivity.
Defined.

Lemma chain_returns_what_it_recorded_witness :
  let run := execute_chain_fuel ToolChainExecutor_init 11 cyclic_result
                                SEQUENTIAL None (start cyclic_server) in
  SEQUENTIAL <> PARALLEL
  /\ exists followups,
       length followups = 10%nat
       /\ results (context (snd run)) = cyclic_result :: followups.
Proof.
  split; [discriminate|].
  pose (run := execute_chain_fuel ToolChainExecutor_init 11 cyclic_result
                                  SEQUENTIAL None (start cyclic_server)).
  pose (rs := match fst run with Ok (Some (rs, _)) => rs | _ => [] end).
  destruct (chain_returns_what_it_recorded
              ToolChainExecutor_init 11 cyclic_result SEQUENTIAL None
              (start cyclic_server) (snd run) rs 10%nat)
    as (followups & entries & Hrs & Hres & _);
    [discriminate|vm_compute; reflexivity|].
  exists followups. split.
  - assert (Hlen : length rs = 11%nat) by (vm_compute; reflexivity).
    rewrite Hrs in Hlen. simpl in Hlen. lia.
  - fold run. rewrite Hres, Hrs. reflexivity.
Defined.

Lemma workflow_runs_steps_in_order_witness :
  let run := execute_workflow branch_engine "branch_and_commit" ∅
                              (start app_server) in
  exists done,
    done `prefix_of` [branch_step; files_step; commit_step]
    /\ map fst (attempts (snd run)) = map step_tool done
    /\ done = [branch_step; files_step].
Proof.
  pose (run := execute_workflow branch_engine "branch_and_commit" ∅
                                (start app_server)).
  destruct (workflow_runs_steps_in_order
              branch_engine "branch_and_commit" ∅
              [branch_step; files_step; commit_step]
              (start app_server) (snd run) (fst run))
    as (done & P & A & _ & _); [reflexivity|reflexivity|].
  change (map fst (attempts (start app_server)) ++ map step_tool done)
    with (map step_tool done) in A.
  exists done. split; [exact P|]. split; [exact A|].
  assert (Hnames : map step_tool done = ["create_branch"; "add_multiple_files"])
    by (rewrite <- A; reflexivity).
  destruct P as [k Hk].
  destruct done as [|a [|b [|c done]]]; try discriminate Hnames.
  inversion Hk. reflexivity.
Defined.

Lemma completed_report_is_consistent_witness :
  let run := orchestrator_execute_workflow lenient_orchestrator
               "branch_and_commit" ∅ "user" None (start app_server) in
  exists nm k rs summary,
    fst run = Ok (WorkflowCompleted nm k rs summary)
    /\ k = 2%nat
    /\ total_tools_executed summary = k
    /\ (k + sum_errors summary = 3)%nat.
Proof.
  pose (run := orchestrator_execute_workflow lenient_orchestrator
                 "branch_and_commit" ∅ "user" None (start app_server)).
  assert (Hrun : exists nm k rs summary,
             run = (Ok (WorkflowCompleted nm k rs summary), snd run)
             /\ k = 2%nat).
  { vm_compute. eexists _, _, _, _. split; reflexivity. }
  destruct Hrun as (nm & k & rs & summary & Hrun & Hk).
  destruct (completed_report_is_consistent
              lenient_orchestrator "branch_and_commit" ∅ "user" None
              [branch_step; lenient_step; commit_step]
              (start app_server) (snd run) nm k rs summary)
    as (_ & _ & Ht & _ & Hsum & _); [reflexivity|exact Hrun|].
  exists nm, k, rs, summary. fold run. rewrite Hrun. auto.
Defined.

Lemma optional_step_failure_does_not_stop_workflow_witness :
  step_required lenient_step = Some false
  /\ exists summary s4,
       execute_workflow lenient_engine "branch_and_commit" ∅ (start app_server)
       = (Ok (WorkflowCompleted "branch_and_commit" 2
                [ result_of "create_local_branch" false []
                            (JObj [("branch", JStr "feature")]);
                  result_of "commit_changes" false [] (JObj []) ]
                summary), s4)
       /\ successful summary = false.
Proof.
  split; [reflexivity|].
  pose (rA := result_of "create_local_branch" false []
                        (JObj [("branch", JStr "feature")])).
  pose (rC := result_of "commit_changes" false [] (JObj [])).
  pose (params1 := dict_update ∅ [("branch", JStr "feature")]).
  pose (s1 := snd (execute_tool "create_branch" ∅ (start app_server))).
  pose (s2 := snd (execute_tool "add_multiple_files"
                                (step_parameters params1 lenient_step) s1)).
  pose (s3 := snd (execute_tool "commit_changes"
                                (step_parameters params1 commit_step) s2)).
  destruct (optional_step_failure_does_not_stop_workflow
              lenient_engine "branch_and_commit"
              branch_step lenient_step commit_step ∅ params1 params1 rA rC
              (start app_server) s1 s2 s3)
    as (summary & s4 & Hrun & _ & _ & Hsucc); try reflexivity.
  exists summary, s4. auto.
Defined.

Lemma unregistered_first_step_fails_workflow_witness :
  get_intent_by_name "list_pull_requests" = None
  /\ exists log s',
       execute_workflow WorkflowEngine_init "code_review" ∅
                        (start cyclic_server)
       = (Ok (WorkflowFailed "code_review" "list_pull_requests" [] log), s')
       /\ world s' = world (start cyclic_server).
Proof.
  split; [reflexivity|].
  edestruct (unregistered_first_step_fails_workflow
               WorkflowEngine_init "code_review"
               (step "list_pull_requests" true)
               [ step "review_changes" true; step "add_comments" false;
                 step "approve_pr" true; step "merge_branches" true ]
               ∅ (start cyclic_server))
    as (s' & E & W & _); [reflexivity|reflexivity|reflexivity|].
  eexists _, s'. split; [exact E|exact W].
Defined.

Lemma workflow_raises_only_on_unmergeable_payload_witness :
  let run := execute_workflow branch_engine "branch_and_commit" ∅
                              (start scalar_server) in
  assoc_get "branch_and_commit" (workflows branch_engine)
    = Some [branch_step; files_step; commit_step]
  /\ (exists e, fst run = Raise e /\ is_exception e = true)
  /\ fst run = Raise (ValueError
                        "dictionary update sequence element #0 has length 1; 2 is required")
  /\ exists res,
       last (results (context (snd run))) = Some res
       /\ payload res = JStr "done".
Proof.
  intros run. split; [reflexivity|].
  destruct (workflow_raises_only_on_unmergeable_payload
              branch_engine "branch_and_commit" ∅
              [branch_step; files_step; commit_step]
              (start scalar_server)) as (Honly & Hdoes); [reflexivity|].
  split.
  { destruct (Hdoes branch_step [files_step; commit_step]
                (result_of "create_local_branch" false [] (JStr "done"))
                (snd (execute_tool "create_branch" ∅ (start scalar_server))))
      as (e & E & He); try reflexivity; try discriminate.
    exists e. unfold run. rewrite E. auto. }
  split; [reflexivity|].
  destruct (Honly (ValueError
                     "dictionary update sequence element #0 has length 1; 2 is required")
                  (snd run))
    as [(_ & res & Hlast & _)|(He & _)]; [reflexivity| |discriminate He].
  exists res. split; [exact Hlast|].
  assert (Hres : last (results (context (snd run)))
                 = Some (result_of "create_local_branch" false [] (JStr "done")))
    by reflexivity.
  rewrite Hres in Hlast. inversion Hlast. reflexivity.
Defined.

(** A workflow whose second call is cancelled: the exception reaches the
    caller, the first result is in the context, and the cancelled call
    has left no entry. *)
Example cancelled_step_ends_the_workflow :
  let '(res, s') := execute_workflow branch_engine "branch_and_commit" ∅
                                     (start cancelling_server) in
  res = Raise CancelledError
  /\ map fst (attempts s') = ["create_branch"; "add_multiple_files"]
  /\ map toolName (results (context s')) = ["create_local_branch"]
  /\ errors (context s') = [].
Proof. vm_compute. auto. Qed.

(** A request whose follow-up call is cancelled: the exception reaches the
    caller of [execute_request]. *)
Example cancelled_call_ends_the_request :
  let '(res, s') :=
    execute_request ToolOrchestrator_init "git status" "user" None
                    (start cancelling_server) in
  res = Raise CancelledError
  /\ is_exception CancelledError = false
  /\ map fst (attempts s') = ["check_status"; "list_files"]
  /\ errors (context s') = [].
Proof. vm_compute. auto. Qed.

Lemma request_not_understood_witness :
  classify_intent "hello" = None
  /\ exists s',
       execute_request ToolOrchestrator_init "hello" "user" None
                       (start cyclic_server)
       = (Ok (NotUnderstood (map fst INTENT_CLASSIFICATIONS)), s')
       /\ attempts s' = [].
Proof.
  split; [reflexivity|].
  destruct (request_not_understood ToolOrchestrator_init "hello" "user" None
              (start cyclic_server)) as (s' & E & A & _); [reflexivity|].
  exists s'. auto.
Defined.

Lemma initial_failure_report_witness :
  classify_intent "create repository" = Some create_repository_intent
  /\ exists summary s',
       execute_request ToolOrchestrator_init "create repository" "user" None
                       (start down_server)
       = (Ok (InitialToolFailed summary), s')
       /\ sum_errors summary = 1%nat
       /\ successful summary = false.
Proof.
  split; [reflexivity|].
  pose (s0 := snd (new_context "user" None (start down_server))).
  pose (s1 := snd (execute_tool "create_repository" ∅ s0)).
  destruct (initial_failure_report
              ToolOrchestrator_init "create repository" "user" None
              create_repository_intent (start down_server) s0 s1)
    as (summary & s' & E & _ & _ & He & Hs & _); try reflexivity.
  exists summary, s'. auto.
Defined.

Lemma request_without_handoff_witness :
  classify_intent "git status" = Some check_status_intent
  /\ exists summary s',
       execute_request ToolOrchestrator_init "git status" "user" None
                       (start mixed_server)
       = (Ok (RequestCompleted "check_status" false 1 summary
                (Some (result_of "check_status" false [] (JObj [])))), s')
       /\ results (context s') = [result_of "check_status" false [] (JObj [])].
Proof.
  split; [reflexivity|].
  pose (s0 := snd (new_context "user" None (start mixed_server))).
  pose (s1 := snd (execute_tool "check_status" ∅ s0)).
  destruct (request_without_handoff
              ToolOrchestrator_init "git status" "user" None
              check_status_intent
              (result_of "check_status" false [] (JObj []))
              (start mixed_server) s0 s1)
    as (summary & s' & E & _ & R & _); try reflexivity.
  exists summary, s'. auto.
Defined.

Lemma built_result_shape_witness :
  exists s',
    build_init (Some init_suggestions) (start down_server) = (Ok built_init, s')
    /\ status built_init = Complete
    /\ sized init_payload = inr (dataSize (metadata built_init))
    /\ context s' = context (start down_server).
Proof.
  pose (s' := snd (build_init (Some init_suggestions) (start down_server))).
  exists s'.
  destruct (built_result_shape sized "initialize_repository" init_payload
              "Initialize repository" "Repository initialized" "conv" "msg"
              "user" "session" "api" "application/json" false
              (Some init_suggestions) None None 0
              (start down_server) s' built_init)
    as (_ & _ & Hstatus & _ & Hsize & _ & _ & Hctx); [reflexivity|].
  split; [reflexivity|]. auto.
Defined.

Lemma build_tool_result_failures_witness :
  (exists e,
     build_init (Some [[("toolNameHint", JInt 5)]]) (start down_server)
     = (Raise e, start down_server)
     /\ exn_type e = "ValidationError")
  /\ (forall e s',
        build_tool_result unwritable "initialize_repository" init_payload
          "Initialize repository" "Repository initialized" "conv" "msg"
          "user" "session" "api" "application/json" false None None None 0
          (start down_server) = (Raise e, s') ->
        s' = start down_server /\ exn_type e = "TypeError")
  /\ exists r s', build_init None (start down_server) = (Ok r, s').
Proof.
  split; [|split].
  - eexists. split; [reflexivity|]. reflexivity.
  - intros e s' E.
    destruct (build_tool_result_failures unwritable "initialize_repository"
                init_payload "Initialize repository" "Repository initialized"
                "conv" "msg" "user" "session" "api" "application/json" false
                None None None 0 (start down_server)) as (Hraise & _).
    destruct (Hraise e s' E) as (Hs & [Hv|(_ & Hd)]).
    + exfalso. vm_compute in E. inversion E. subst e. discriminate Hv.
    + split; [exact Hs|]. inversion Hd. reflexivity.
  - destruct (build_tool_result_failures sized "initialize_repository"
                init_payload "Initialize repository" "Repository initialized"
                "conv" "msg" "user" "session" "api" "application/json" false
                None None None 0 (start down_server)) as (_ & Hplain).
    apply Hplain; [reflexivity|reflexivity|].
    right. exists 41. reflexivity.
Defined.

Lemma set_user_context_outcomes_witness :
  (exists r',
     set_user_context built_init "u2" "s2" "c2" "m2" = Ok r'
     /\ userContext r' = Some {| userId := "u2"; sessionId := "s2" |}
     /\ status r' = status built_init)
  /\ set_user_context (result_of "check_status" false [] (JObj []))
                      "u2" "s2" "c2" "m2"
     = Raise (AttributeError "'NoneType' object has no attribute 'userId'").
Proof.
  destruct (set_user_context_outcomes (World := Scripted) sized
              "u2" "s2" "c2" "m2") as (Hbuilt & Hread).
  split.
  - destruct (Hbuilt "initialize_repository" init_payload
                "Initialize repository" "Repository initialized" "conv" "msg"
                "user" "session" "api" "application/json" false
                (Some init_suggestions) None None 0
                (start down_server)
                (snd (build_init (Some init_suggestions) (start down_server)))
                built_init)
      as (r' & E & Hu & _ & _ & _ & _ & _ & Hs); [reflexivity|].
    exists r'. auto.
  - apply (Hread
             match body_of "check_status" false [] (JObj []) with
             | JObj ms => ms
             | _ => []
             end
             (start down_server) (start down_server));
      reflexivity.
Defined.
